(** * bigslice: [modules/data/database.py]

    A shallow embedding of the SQLite3 wrapper of the annotation pipeline:
    the helper [execute_sql], the class [Database] (its constructor with the
    schema-version gate and the taxonomy seeding loop, and the methods
    [query], [select], [insert], [get_last_id]).

    Python strings are [string]s of code points below 256, Python exceptions
    are values of [exn], and every function that touches the instance or a
    database file is a computation in the state-and-error monad [M].  The
    SQLite engine is not part of the repository; it is modelled by a small
    interpreter ([sqlite3_execute]) for the statements that the wrapper
    issues. *)

From Stdlib Require Import ZArith Ascii String List Lia Bool DecimalString.
From stdpp Require Import base option list gmap strings.

Local Open Scope Z_scope.

(* ===================================================================== *)
(** * Python values, exceptions and results *)
(* ===================================================================== *)

(** The values that travel between Python and SQLite in this module:
    [None]/NULL, integers and text. *)
Inductive value : Type :=
  | VNull
  | VInt (z : Z)
  | VText (s : string).

#[global] Instance value_eq_dec : EqDecision value.
Proof. solve_decision. Defined.

(** The exceptions that the module or the [sqlite3] binding can raise. *)
Inductive exn : Type :=
  | AttributeError
  | ValueError
  | TypeError
  | KeyError
  | IndexError
  | StopIteration
  | AssertionError
  | OperationalError
  | ProgrammingError
  | IntegrityError
  | Exception_ (msg : string).

Inductive result (A : Type) : Type :=
  | Ok (a : A)
  | Err (e : exn).
Arguments Ok {A} a.
Arguments Err {A} e.

(** [str(v)], as used by [str.format]. *)
Definition Z_to_string (z : Z) : string := NilZero.string_of_int (Z.to_int z).

Definition py_str (v : value) : string :=
  match v with
  | VNull => "None"
  | VInt z => Z_to_string z
  | VText s => s
  end.

(** [int(v)]: [ValueError] for text that is not a decimal literal,
    [TypeError] for [None].  (Python also accepts blanks around the literal
    and underscores between digits; [get_last_id], the only caller, never
    gets as far as this conversion.) *)
Definition py_int (v : value) : result Z :=
  match v with
  | VNull => Err TypeError
  | VInt z => Ok z
  | VText s =>
      match NilZero.int_of_string s with
      | Some i => Ok (Z.of_int i)
      | None => Err ValueError
      end
  end.

(* ===================================================================== *)
(** * Python string methods *)
(* ===================================================================== *)

(** [str.isspace] on one code point below 256: TAB..CR, FS..US, SPACE,
    NEL and NBSP. *)
Definition py_isspace (c : ascii) : bool :=
  let n := nat_of_ascii c in
  ((9 <=? n)%nat && (n <=? 13)%nat) || ((28 <=? n)%nat && (n <=? 32)%nat)
  || (n =? 133)%nat || (n =? 160)%nat.

(** [s.rstrip()]: drop the longest suffix of whitespace. *)
Fixpoint rstrip (s : string) : string :=
  match s with
  | EmptyString => EmptyString
  | String c s' =>
      match rstrip s' with
      | EmptyString => if py_isspace c then EmptyString else String c EmptyString
      | r => String c r
      end
  end.

(** [s.split(sep)] for a one-character separator: always at least one
    field, empty fields are kept. *)
Fixpoint split (sep : ascii) (s : string) : list string :=
  match s with
  | EmptyString => [EmptyString]
  | String c s' =>
      if Ascii.eqb c sep then EmptyString :: split sep s'
      else match split sep s' with
           | h :: t => String c h :: t
           | [] => [String c EmptyString]
           end
  end.

(** [sep.join(l)]. *)
Definition join (sep : string) (l : list string) : string := String.concat sep l.

Definition tab : ascii := "009"%char.
Definition newline : ascii := "010"%char.

(** Iterating a text file yields its lines, each with its terminator.  The
    text is what the file object delivers in text mode, line ends already
    translated to the line feed. *)
Fixpoint readlines (s : string) : list string :=
  match s with
  | EmptyString => []
  | String c s' =>
      if Ascii.eqb c newline then String c EmptyString :: readlines s'
      else match readlines s' with
           | h :: t => String c h :: t
           | [] => [String c EmptyString]
           end
  end.

(* ===================================================================== *)
(** * Regular expressions: the fragment used by the constructor *)
(* ===================================================================== *)

(** Literal text, sequencing and named groups are all that the pattern
    [\n-- schema ver\.: (?P<ver>1\.0\.0)] needs. *)
Inductive regex : Type :=
  | ReLit (s : string)
  | ReSeq (r1 r2 : regex)
  | ReGroup (name : string) (r : regex).

(** A match object: the matched text and the named groups. *)
Record re_match : Type := ReMatch {
  m_text : string;
  m_groups : list (string * string)
}.

Fixpoint strip_prefix (p s : string) : option string :=
  match p, s with
  | EmptyString, _ => Some s
  | String a p', String b s' => if Ascii.eqb a b then strip_prefix p' s' else None
  | String _ _, EmptyString => None
  end.

(** [re_match_at r s]: match [r] at the start of [s]; the match and the
    rest of the subject. *)
Fixpoint re_match_at (r : regex) (s : string) : option (re_match * string) :=
  match r with
  | ReLit l =>
      match strip_prefix l s with
      | Some rest => Some (ReMatch l [], rest)
      | None => None
      end
  | ReSeq r1 r2 =>
      match re_match_at r1 s with
      | Some (m1, s1) =>
          match re_match_at r2 s1 with
          | Some (m2, s2) =>
              Some (ReMatch (m_text m1 +:+ m_text m2) (m_groups m1 ++ m_groups m2), s2)
          | None => None
          end
      | None => None
      end
  | ReGroup name r' =>
      match re_match_at r' s with
      | Some (m, rest) => Some (ReMatch (m_text m) ((name, m_text m) :: m_groups m), rest)
      | None => None
      end
  end.

(** [re.search(r, s)]: the leftmost position at which [r] matches. *)
Fixpoint re_search (r : regex) (s : string) : option re_match :=
  match re_match_at r s with
  | Some (m, _) => Some m
  | None =>
      match s with
      | EmptyString => None
      | String _ s' => re_search r s'
      end
  end.

Fixpoint assoc_get {A : Type} (k : string) (l : list (string * A)) : option A :=
  match l with
  | [] => None
  | (k', v) :: l' => if String.eqb k k' then Some v else assoc_get k l'
  end.

(** [m.group(name)] on the result of [re.search]: [None] has no attribute
    [group]. *)
Definition re_group (m : option re_match) (name : string) : result string :=
  match m with
  | None => Err AttributeError
  | Some m =>
      match assoc_get name (m_groups m) with
      | Some g => Ok g
      | None => Err IndexError
      end
  end.

(** The constructor's pattern, [r"\n-- schema ver\.: (?P<ver>1\.0\.0)"]. *)
Definition schema_ver_lit : string := String newline "-- schema ver.: ".
Definition schema_ver_re : regex :=
  ReSeq (ReLit schema_ver_lit) (ReGroup "ver" (ReLit "1.0.0")).

(* ===================================================================== *)
(** * The SQLite engine: data *)
(* ===================================================================== *)

(** A table has its declared columns, possibly one [INTEGER PRIMARY KEY]
    column (an alias of the rowid, declared without [AUTOINCREMENT]), and
    its rows in rowid order.  A row is its rowid and its cells; a cell that
    was never written is NULL.  Columns carry no declared type, so values
    are stored as they are bound.  Tables and columns go by their declared
    names, spelled as declared. *)
Record table : Type := Table {
  t_cols : list string;
  t_pk : option string;
  t_rows : list (Z * gmap string value)
}.

(** A database file is its tables, by name. *)
Abbreviation database := (gmap string table).

(** The cell of [row] in column [c]. *)
Definition cell (t : table) (row : Z * gmap string value) (c : string) : value :=
  if decide (t_pk t = Some c) then VInt (fst row)
  else default VNull (snd row !! c).

(** A cursor after [execute]: the result columns, the rows not yet
    fetched and [lastrowid] ([VNull] for [None]). *)
Record cursor : Type := Cursor {
  description : list string;
  c_rows : list (list value);
  lastrowid : value
}.

(* ===================================================================== *)
(** * The SQLite engine: lexing and parsing *)
(* ===================================================================== *)

Inductive token : Type :=
  | TWord (w : string)
  | TStar
  | TComma
  | TLParen
  | TRParen
  | TEq
  | TQMark.

#[global] Instance token_eq_dec : EqDecision token.
Proof. solve_decision. Defined.

Definition is_digit (c : ascii) : bool :=
  let n := nat_of_ascii c in (48 <=? n)%nat && (n <=? 57)%nat.

Definition is_alpha (c : ascii) : bool :=
  let n := nat_of_ascii c in
  ((65 <=? n)%nat && (n <=? 90)%nat) || ((97 <=? n)%nat && (n <=? 122)%nat)
  || (n =? 95)%nat.

Definition is_word_char (c : ascii) : bool := is_alpha c || is_digit c.

Definition is_sql_space (c : ascii) : bool :=
  let n := nat_of_ascii c in
  (n =? 32)%nat || ((9 <=? n)%nat && (n <=? 13)%nat).

Definition punct (c : ascii) : option token :=
  if Ascii.eqb c "*" then Some TStar
  else if Ascii.eqb c "," then Some TComma
  else if Ascii.eqb c "(" then Some TLParen
  else if Ascii.eqb c ")" then Some TRParen
  else if Ascii.eqb c "=" then Some TEq
  else if Ascii.eqb c "?" then Some TQMark
  else None.

Definition starts_word (s : string) : bool :=
  match s with
  | String c _ => is_word_char c
  | EmptyString => false
  end.

(** The tokens of a statement, or [None] when it has a character outside
    the fragment (quotes, operators other than [=], ...). *)
Fixpoint lex (s : string) : option (list token) :=
  match s with
  | EmptyString => Some []
  | String c s' =>
      match lex s' with
      | None => None
      | Some ts =>
          if is_word_char c then
            match ts with
            | TWord w :: ts' =>
                if starts_word s' then Some (TWord (String c w) :: ts')
                else Some (TWord (String c EmptyString) :: ts)
            | _ => Some (TWord (String c EmptyString) :: ts)
            end
          else if is_sql_space c then Some ts
          else match punct c with
               | Some t => Some (t :: ts)
               | None => None
               end
      end
  end.

Definition to_upper (c : ascii) : ascii :=
  let n := nat_of_ascii c in
  if (97 <=? n)%nat && (n <=? 122)%nat then ascii_of_nat (n - 32) else c.

Fixpoint upper (s : string) : string :=
  match s with
  | EmptyString => EmptyString
  | String c s' => String (to_upper c) (upper s')
  end.

(** Keywords are matched without regard to case. *)
Definition is_kw (kw : string) (t : token) : bool :=
  match t with
  | TWord w => String.eqb (upper w) kw
  | _ => false
  end.

Definition reserved : list string :=
  ["SELECT"; "FROM"; "WHERE"; "AND"; "OR"; "NOT"; "INSERT"; "INTO"; "VALUES";
   "UPDATE"; "DELETE"; "SET"; "CREATE"; "DROP"; "TABLE"; "INDEX"; "ORDER";
   "GROUP"; "BY"; "HAVING"; "LIMIT"; "JOIN"; "ON"; "AS"; "IN"; "IS"; "NULL";
   "DISTINCT"; "UNION"; "ALL"; "CASE"; "WHEN"; "THEN"; "ELSE"; "END";
   "PRIMARY"; "UNIQUE"; "CHECK"; "DEFAULT"; "FOREIGN"; "REFERENCES";
   "TRANSACTION"; "COMMIT"; "EXISTS"; "BETWEEN"; "TO"; "USING"; "ADD";
   "ALTER"; "CONSTRAINT"; "ESCAPE"; "EXCEPT"; "INTERSECT"; "ISNULL";
   "NOTNULL"; "NOTHING"; "RETURNING"; "COLLATE"; "AUTOINCREMENT";
   "DEFERRABLE"]%string.

(** A word that can name a table or a column: it starts with a letter or
    an underscore and is not a reserved word. *)
Definition is_name (w : string) : bool :=
  match w with
  | String c _ => is_alpha c && negb (bool_decide (upper w ∈ reserved))
  | EmptyString => false
  end.

(** A number literal in a WHERE clause is true when it is not zero. *)
Fixpoint all_digits (w : string) : bool :=
  match w with
  | EmptyString => true
  | String c w' => is_digit c && all_digits w'
  end.

Fixpoint all_zero (w : string) : bool :=
  match w with
  | EmptyString => true
  | String c w' => Ascii.eqb c "0" && all_zero w'
  end.

(** One term of a WHERE conjunction. *)
Inductive cond : Type :=
  | CConst (b : bool)
  | CEqParam (col : string).

(** The statements of the fragment. [s_cols = None] is [SELECT *]. *)
Inductive stmt : Type :=
  | SSelect (cols : option (list string)) (tbl : string) (conds : list cond)
  | SInsert (tbl : string) (cols : list string) (nvalues : nat).

#[global] Instance cond_eq_dec : EqDecision cond.
Proof. solve_decision. Defined.
#[global] Instance stmt_eq_dec : EqDecision stmt.
Proof. solve_decision. Defined.

(** [name (, name)*] *)
Fixpoint parse_names (ts : list token) : option (list string * list token) :=
  match ts with
  | TWord w :: TComma :: ts' =>
      if is_name w then
        match parse_names ts' with
        | Some (ws, rest) => Some (w :: ws, rest)
        | None => None
        end
      else None
  | TWord w :: rest => if is_name w then Some ([w], rest) else None
  | _ => None
  end.

(** [? (, ?)*], counted. *)
Fixpoint parse_qmarks (ts : list token) : option (nat * list token) :=
  match ts with
  | TQMark :: TComma :: ts' =>
      match parse_qmarks ts' with
      | Some (n, rest) => Some (S n, rest)
      | None => None
      end
  | TQMark :: rest => Some (1%nat, rest)
  | _ => None
  end.

Definition parse_cond (ts : list token) : option (cond * list token) :=
  match ts with
  | TWord w :: TEq :: TQMark :: rest =>
      if is_name w then Some (CEqParam w, rest) else None
  | TWord w :: rest =>
      if all_digits w then Some (CConst (negb (all_zero w)), rest) else None
  | _ => None
  end.

(** [cond (AND cond)*] up to the end of the statement; [fuel] bounds the
    number of terms. *)
Fixpoint parse_conds (fuel : nat) (ts : list token) : option (list cond) :=
  match fuel with
  | O => None
  | S fuel' =>
      match parse_cond ts with
      | Some (c, []) => Some [c]
      | Some (c, t :: rest) =>
          if is_kw "AND" t then
            match parse_conds fuel' rest with
            | Some cs => Some (c :: cs)
            | None => None
            end
          else None
      | None => None
      end
  end.

Definition parse_where (ts : list token) : option (list cond) :=
  match ts with
  | [] => Some []
  | t :: rest => if is_kw "WHERE" t then parse_conds (S (List.length rest)) rest else None
  end.

Definition parse_from (cols : option (list string)) (ts : list token) : option stmt :=
  match ts with
  | t :: TWord tbl :: rest =>
      if is_kw "FROM" t && is_name tbl then
        match parse_where rest with
        | Some cs => Some (SSelect cols tbl cs)
        | None => None
        end
      else None
  | _ => None
  end.

Definition parse_select (ts : list token) : option stmt :=
  match ts with
  | TStar :: rest => parse_from None rest
  | _ =>
      match parse_names ts with
      | Some (cols, rest) => parse_from (Some cols) rest
      | None => None
      end
  end.

Definition parse_insert (ts : list token) : option stmt :=
  match ts with
  | t :: TWord tbl :: TLParen :: rest =>
      if is_kw "INTO" t && is_name tbl then
        match parse_names rest with
        | Some (cols, TRParen :: t' :: TLParen :: rest') =>
            if is_kw "VALUES" t' then
              match parse_qmarks rest' with
              | Some (n, [TRParen]) => Some (SInsert tbl cols n)
              | _ => None
              end
            else None
        | _ => None
        end
      else None
  | _ => None
  end.

Definition parse_tokens (ts : list token) : option stmt :=
  match ts with
  | t :: rest =>
      if is_kw "SELECT" t then parse_select rest
      else if is_kw "INSERT" t then parse_insert rest
      else None
  | [] => None
  end.

Definition parse_sql (sql : string) : option stmt :=
  match lex sql with
  | Some ts => parse_tokens ts
  | None => None
  end.

(* ===================================================================== *)
(** * The SQLite engine: execution *)
(* ===================================================================== *)

(** The SQL comparison [a = b] is true only between equal values that are
    not NULL. *)
Definition sql_eq (a b : value) : bool :=
  match a, b with
  | VNull, _ => false
  | _, VNull => false
  | _, _ => bool_decide (a = b)
  end.

(** The conjunction of a WHERE clause on one row; every [col=?] takes the
    next bound value. *)
Fixpoint eval_conds (t : table) (row : Z * gmap string value)
    (cs : list cond) (bs : list value) : bool :=
  match cs with
  | [] => true
  | CConst b :: cs' => b && eval_conds t row cs' bs
  | CEqParam c :: cs' =>
      match bs with
      | v :: bs' => sql_eq (cell t row c) v && eval_conds t row cs' bs'
      | [] => false
      end
  end.

Fixpoint cond_cols (cs : list cond) : list string :=
  match cs with
  | [] => []
  | CConst _ :: cs' => cond_cols cs'
  | CEqParam c :: cs' => c :: cond_cols cs'
  end.

Definition has_cols (t : table) (cols : list string) : bool :=
  forallb (fun c => bool_decide (c ∈ t_cols t)) cols.

Definition exec_select (cols : option (list string)) (tbl : string)
    (cs : list cond) (bs : list value) (db : database) : result cursor :=
  match db !! tbl with
  | None => Err OperationalError
  | Some t =>
      let out := default (t_cols t) cols in
      if negb (has_cols t (out ++ cond_cols cs)) then Err OperationalError
      else if negb (List.length bs =? List.length (cond_cols cs))%nat
      then Err ProgrammingError
      else
        let hits := List.filter (fun row => eval_conds t row cs bs) (t_rows t) in
        Ok (Cursor out (List.map (fun row => List.map (cell t row) out) hits) VNull)
  end.

(** The rowid that an insert without an explicit key receives: one more
    than the largest rowid in use, 1 in an empty table. *)
Definition next_rowid (rows : list (Z * gmap string value)) : Z :=
  match rows with
  | [] => 1
  | r :: rs => 1 + foldr Z.max (fst r) (List.map fst rs)
  end.

(** Rows are kept in rowid order. *)
Fixpoint insert_row (row : Z * gmap string value)
    (rows : list (Z * gmap string value)) : list (Z * gmap string value) :=
  match rows with
  | [] => [row]
  | r :: rs => if fst row <? fst r then row :: r :: rs else r :: insert_row row rs
  end.

(** The rowid of a new row: the value bound to the [INTEGER PRIMARY KEY]
    column when there is one, a fresh one otherwise. *)
Definition choose_rowid (t : table) (given : gmap string value) : result Z :=
  match t_pk t with
  | None => Ok (next_rowid (t_rows t))
  | Some pk =>
      match given !! pk with
      | None => Ok (next_rowid (t_rows t))
      | Some VNull => Ok (next_rowid (t_rows t))
      | Some (VInt z) =>
          if bool_decide (z ∈ List.map fst (t_rows t)) then Err IntegrityError
          else Ok z
      | Some (VText _) => Err IntegrityError
      end
  end.

Definition exec_insert (tbl : string) (cols : list string) (n : nat)
    (bs : list value) (db : database) : result (cursor * database) :=
  match db !! tbl with
  | None => Err OperationalError
  | Some t =>
      if negb (has_cols t cols) then Err OperationalError
      else if negb (List.length cols =? n)%nat then Err OperationalError
      else if negb (List.length bs =? n)%nat then Err ProgrammingError
      else
        let given : gmap string value := list_to_map (zip cols bs) in
        match choose_rowid t given with
        | Err e => Err e
        | Ok rid =>
            let t' := Table (t_cols t) (t_pk t) (insert_row (rid, given) (t_rows t)) in
            Ok (Cursor [] [] (VInt rid), <[tbl := t']> db)
        end
  end.

(** [cursor.execute(sql, bindings)] on the content of one database file:
    the cursor and the new content, or the exception with the content
    unchanged. *)
Definition sqlite3_execute (sql : string) (bs : list value) (db : database)
    : result (cursor * database) :=
  match parse_sql sql with
  | None => Err OperationalError
  | Some (SSelect cols tbl cs) =>
      match exec_select cols tbl cs bs db with
      | Ok cur => Ok (cur, db)
      | Err e => Err e
      end
  | Some (SInsert tbl cols n) => exec_insert tbl cols n bs db
  end.

(* ===================================================================== *)
(** * Program state and the monad of the wrapper *)
(* ===================================================================== *)

(** The attributes of the [Database] instance and the database files, by
    path. *)
Record state : Type := State {
  self_attrs : gmap string value;
  files : gmap string database
}.

Definition M (A : Type) : Type := state -> result A * state.

Definition ret {A : Type} (a : A) : M A := fun st => (Ok a, st).
Definition raise {A : Type} (e : exn) : M A := fun st => (Err e, st).
Definition bind {A B : Type} (m : M A) (k : A -> M B) : M B :=
  fun st =>
    match m st with
    | (Ok a, st') => k a st'
    | (Err e, st') => (Err e, st')
    end.
Definition lift {A : Type} (r : result A) : M A := fun st => (r, st).

(** [try: body except <handled>: handler] *)
Definition try_except {A : Type} (body : M A) (handles : exn -> bool)
    (handler : M A) : M A :=
  fun st =>
    match body st with
    | (Ok a, st') => (Ok a, st')
    | (Err e, st') => if handles e then handler st' else (Err e, st')
    end.

Notation "'let*' x ':=' c1 'in' c2" := (bind c1 (fun x => c2))
  (at level 10, x pattern, c1 at level 100, c2 at level 200).
Notation "c1 ;; c2" := (bind c1 (fun _ => c2))
  (at level 100, c2 at level 200, right associativity).

Fixpoint for_each {A : Type} (l : list A) (body : A -> M unit) : M unit :=
  match l with
  | [] => ret tt
  | x :: xs => body x ;; for_each xs body
  end.

(** [self.name] and [self.name = v]. *)
Definition getattr (name : string) : M value :=
  fun st =>
    match self_attrs st !! name with
    | Some v => (Ok v, st)
    | None => (Err AttributeError, st)
    end.

Definition setattr (name : string) (v : value) : M unit :=
  fun st => (Ok tt, State (<[name := v]> (self_attrs st)) (files st)).

Definition as_str (v : value) : M string :=
  match v with
  | VText s => ret s
  | _ => raise TypeError
  end.

(** [os.path.exists] *)
Definition path_exists (p : string) : M bool :=
  fun st => (Ok (bool_decide (is_Some (files st !! p))), st).

(** [sqlite3.connect(db_path)]: a missing file is created empty. *)
Definition sqlite3_connect (db_path : string) : M unit :=
  fun st =>
    match files st !! db_path with
    | Some _ => (Ok tt, st)
    | None => (Ok tt, State (self_attrs st) (<[db_path := ∅]> (files st)))
    end.

(** [db_cur.execute(sql, bindings)] on the connection to [db_path],
    committed when the [with] block is left. *)
Definition cursor_execute (db_path sql : string) (bs : list value) : M cursor :=
  fun st =>
    match files st !! db_path with
    | None => (Err OperationalError, st)
    | Some db =>
        match sqlite3_execute sql bs db with
        | Ok (cur, db') => (Ok cur, State (self_attrs st) (<[db_path := db']> (files st)))
        | Err e => (Err e, st)
        end
    end.

(* ===================================================================== *)
(** * Python dictionaries, in insertion order *)
(* ===================================================================== *)

Abbreviation dict := (list (string * value)).

(** [d[k] = v] *)
Fixpoint dict_set (d : dict) (k : string) (v : value) : dict :=
  match d with
  | [] => [(k, v)]
  | (k', v') :: d' =>
      if String.eqb k k' then (k, v) :: d' else (k', v') :: dict_set d' k v
  end.

(** [d[k]] *)
Definition dict_getitem (d : dict) (k : string) : result value :=
  match assoc_get k d with
  | Some v => Ok v
  | None => Err KeyError
  end.

(** The class lookup of the seeding loop has the names of [chem_class]
    as keys, whatever their type. *)
Fixpoint vdict_set (d : list (value * value)) (k v : value) : list (value * value) :=
  match d with
  | [] => [(k, v)]
  | (k', v') :: d' =>
      if bool_decide (k = k') then (k, v) :: d' else (k', v') :: vdict_set d' k v
  end.

Fixpoint vdict_get (d : list (value * value)) (k : value) : result value :=
  match d with
  | [] => Err KeyError
  | (k', v) :: d' => if bool_decide (k = k') then Ok v else vdict_get d' k
  end.

(* ===================================================================== *)
(** * [execute_sql] *)
(* ===================================================================== *)

(** The [parameters] argument: [None], a tuple, or (as [get_last_id]
    passes it) a bare string, which [sqlite3] reads as the sequence of its
    characters. *)
Inductive params : Type :=
  | PNone
  | PTuple (l : list value)
  | PStr (s : string).

(** Truth value of [parameters] in [if parameters:]. *)
Definition truthy (p : params) : bool :=
  match p with
  | PNone => false
  | PTuple [] => false
  | PTuple (_ :: _) => true
  | PStr EmptyString => false
  | PStr (String _ _) => true
  end.

Definition bindings (p : params) : list value :=
  match p with
  | PNone => []
  | PTuple l => l
  | PStr s => List.map (fun c => VText (String c EmptyString)) (list_ascii_of_string s)
  end.

(** The row factory installed by [execute_sql]: a dictionary from the
    column names of [cursor.description] to the values of the row. *)
Fixpoint dict_factory_loop (d : dict) (idx : nat) (desc : list string)
    (row : list value) : result dict :=
  match desc with
  | [] => Ok d
  | col :: desc' =>
      match row !! idx with
      | Some v => dict_factory_loop (dict_set d col v) (S idx) desc' row
      | None => Err IndexError
      end
  end.

Definition dict_factory (cur : cursor) (row : list value) : result dict :=
  dict_factory_loop [] 0 (description cur) row.

Definition execute_sql (sql db_path : string) (parameters : params) : M cursor :=
  sqlite3_connect db_path ;;
  if truthy parameters
  then cursor_execute db_path sql (bindings parameters)
  else cursor_execute db_path sql [].

(** Consuming a cursor: every row goes through the row factory. *)
Fixpoint fetch_rows (cur : cursor) (rows : list (list value)) : result (list dict) :=
  match rows with
  | [] => Ok []
  | r :: rs =>
      match dict_factory cur r with
      | Err e => Err e
      | Ok d =>
          match fetch_rows cur rs with
          | Err e => Err e
          | Ok ds => Ok (d :: ds)
          end
      end
  end.

(** [cursor.fetchall()], also what a [for] loop over the cursor sees. *)
Definition fetchall (cur : cursor) : M (list dict) :=
  lift (fetch_rows cur (c_rows cur)).

(** [next(cursor)] *)
Definition py_next (cur : cursor) : M dict :=
  match c_rows cur with
  | [] => raise StopIteration
  | r :: _ => lift (dict_factory cur r)
  end.

(* ===================================================================== *)
(** * class [Database] *)
(* ===================================================================== *)

Module Database.

(** [query(self, sql, parameters)] *)
Definition query (sql : string) (parameters : params) : M cursor :=
  let* p := getattr "db_path" in
  let* db_path := as_str p in
  execute_sql sql db_path parameters.

(** The statement text that [select] formats. *)
Definition select_sql (table clause : string) (props : list string) : string :=
  let props_string :=
    if (List.length props <? 1)%nat then "*" else join "," props in
  "SELECT " +:+ props_string +:+ " FROM " +:+ table +:+ " " +:+ clause.

(** [select(self, table, clause, parameters, props)] *)
Definition select (table clause : string) (parameters : params)
    (props : list string) : M cursor :=
  query (select_sql table clause props) parameters.

(** The statement text that [insert] formats from the keys of [data]. *)
Definition insert_sql (table : string) (data : dict) : string :=
  let keys := List.map fst data in
  let values := List.map snd data in
  "INSERT INTO " +:+ table +:+ "(" +:+ join "," keys +:+ ") VALUES ("
    +:+ join "," (List.map (fun _ => "?") (seq 0 (List.length values))) +:+ ")".

(** [insert(self, table, data)] *)
Definition insert (table : string) (data : dict) : M value :=
  let values := List.map snd data in
  let* query := query (insert_sql table data) (PTuple values) in
  ret (lastrowid query).

(** [get_last_id(self, table)].  The attribute store of the instance holds
    plain values only, and a plain value has no method [select]. *)
Definition call_select (obj : value) (table clause : string)
    (parameters : params) (props : list string) : M cursor :=
  raise AttributeError.

Definition get_last_id (table : string) : M Z :=
  try_except
    (let* database := getattr "database" in
     let* cur := call_select database "sqlite_sequence" "WHERE name=?"
                   (PStr table) ["seq"] in
     let* rows := fetchall cur in
     let* first :=
       match rows with
       | [] => raise IndexError
       | r :: _ => ret r
       end in
     let* seq := lift (dict_getitem first "seq") in
     lift (py_int seq))
    (fun e => match e with ValueError => true | _ => false end)
    (ret (-1)).

Section Bundled.

(** The two files bundled next to the module are not part of the sources:
    the text of [schema.sql], the text of [chem_class_map.tsv], and the
    effect of running a script on a database file. *)
Variable sql_schema : string.
Variable chem_class_map : string.
Variable executescript : string -> database -> result unit * database.

Definition cursor_executescript (db_path script : string) : M unit :=
  fun st =>
    match files st !! db_path with
    | None => (Err OperationalError, st)
    | Some db =>
        let '(r, db') := executescript script db in
        (r, State (self_attrs st) (<[db_path := db']> (files st)))
    end.

(** The loop that fills the name-to-id dictionary from the cursor over
    [chem_class]: each row goes through the row factory, then its [name]
    and [id] are read. *)
Fixpoint load_classes (cur : cursor) (rows : list (list value))
    (bs_classes_id : list (value * value)) : result (list (value * value)) :=
  match rows with
  | [] => Ok bs_classes_id
  | r :: rows' =>
      match dict_factory cur r with
      | Err e => Err e
      | Ok row =>
          match dict_getitem row "name" with
          | Err e => Err e
          | Ok name =>
              match dict_getitem row "id" with
              | Err e => Err e
              | Ok id => load_classes cur rows' (vdict_set bs_classes_id name id)
              end
          end
      end
  end.

(** [src_class, src, bs_class, bs_subclass = line.rstrip().split("\t")] *)
Definition unpack_line (line : string) : result (string * string * string * string) :=
  match split tab (rstrip line) with
  | [src_class; src; bs_class; bs_subclass] => Ok (src_class, src, bs_class, bs_subclass)
  | _ => Err ValueError
  end.

(** The body of the loop over the data lines of the seed file. *)
Definition seed_line (bs_classes_id : list (value * value)) (line : string) : M unit :=
  let* fields := lift (unpack_line line) in
  let '(src_class, src, bs_class, bs_subclass) := fields in
  let bs_subclass := if String.eqb bs_subclass "" then "other" else bs_subclass in
  let bs_class := if String.eqb bs_class "" then "Other" else bs_class in
  let* bs_class_id := lift (vdict_get bs_classes_id (VText bs_class)) in
  let* cur := select "chem_subclass" "WHERE name=? AND class_id=?"
                (PTuple [VText bs_subclass; bs_class_id]) [] in
  let* existing := fetchall cur in
  let* bs_subclass_id :=
    match existing with
    | first :: rest =>
        match rest with
        | [] => lift (dict_getitem first "id")
        | _ :: _ => raise AssertionError
        end
    | [] =>
        insert "chem_subclass"
          [("name", VText bs_subclass); ("class_id", bs_class_id)]
    end in
  let* _ := insert "chem_subclass_map"
              [("class_source", VText src_class); ("type_source", VText src);
               ("subclass_id", bs_subclass_id)] in
  ret tt.

(** The data lines: everything after the header line. *)
Definition data_lines (tsv : string) : list string := List.tail (readlines tsv).

(** The seeding of a new database, after the schema script has run. *)
Definition seed : M unit :=
  let* cur := select "chem_class" "WHERE 1" PNone [] in
  let* bs_classes_id := lift (load_classes cur (c_rows cur) []) in
  for_each (data_lines chem_class_map) (seed_line bs_classes_id).

Definition mismatch_message (db_schema_ver schema_ver : value) : string :=
  "SQLite3 database exists but contains different schema " +:+
  ("version (" +:+ py_str db_schema_ver +:+ " rather than "
    +:+ py_str schema_ver +:+ "), exiting!").

(** [__init__(self, db_path)] *)
Definition __init__ (db_path : string) : M unit :=
  setattr "db_path" (VText db_path) ;;
  let* ver := lift (re_group (re_search schema_ver_re sql_schema) "ver") in
  setattr "schema_ver" (VText ver) ;;
  let* p := getattr "db_path" in
  let* p := as_str p in
  let* there := path_exists p in
  if there then
    let* cur := execute_sql "SELECT * FROM schema WHERE 1" p PNone in
    let* row := py_next cur in
    let* db_schema_ver := lift (dict_getitem row "ver") in
    let* schema_ver := getattr "schema_ver" in
    if bool_decide (db_schema_ver ≠ schema_ver) then
      raise (Exception_ (mismatch_message db_schema_ver schema_ver))
    else ret tt
  else
    let* p := getattr "db_path" in
    let* p := as_str p in
    sqlite3_connect p ;;
    cursor_executescript p sql_schema ;;
    seed.

End Bundled.

End Database.

(* ===================================================================== *)
(** * The calls of the wrapper, as data *)
(* ===================================================================== *)

Inductive wrapper_call : Type :=
  | CallQuery (sql : string) (parameters : params)
  | CallSelect (table clause : string) (parameters : params) (props : list string)
  | CallInsert (table : string) (data : dict)
  | CallGetLastId (table : string).

(** The state in which a call leaves the program, whether it returns or
    raises. *)
Definition run_call (c : wrapper_call) (st : state) : state :=
  match c with
  | CallQuery sql ps => snd (Database.query sql ps st)
  | CallSelect t cl ps props => snd (Database.select t cl ps props st)
  | CallInsert t data => snd (Database.insert t data st)
  | CallGetLastId t => snd (Database.get_last_id t st)
  end.

(* ===================================================================== *)
(** * The version marker as the specification words it *)
(* ===================================================================== *)

(** [lit] is a substring of [s]. *)
Definition occurs (lit s : string) : Prop :=
  exists pre post, s = pre +:+ lit +:+ post.

(** The text that the constructor's pattern matches. *)
Definition schema_ver_marker : string := schema_ver_lit +:+ "1.0.0".

Definition is_number (w : string) : bool :=
  match w with
  | EmptyString => false
  | String _ _ => all_digits w
  end.

(** A semantic version [X.Y.Z]. *)
Definition is_semver (v : string) : bool :=
  match split "."%char v with
  | [x; y; z] => is_number x && is_number y && is_number z
  | _ => false
  end.

(** The specification's marker: a comment line [-- schema ver.: X.Y.Z],
    declaring the version [X.Y.Z]. *)
Definition spec_marker_line (line : string) : option string :=
  match strip_prefix "-- schema ver.: " line with
  | Some v => if is_semver v then Some v else None
  | None => None
  end.

Fixpoint first_some {A B : Type} (f : A -> option B) (l : list A) : option B :=
  match l with
  | [] => None
  | x :: l' =>
      match f x with
      | Some b => Some b
      | None => first_some f l'
      end
  end.

(** The version that a schema text declares, read as the specification
    reads it. *)
Definition spec_schema_ver (sql_schema : string) : option string :=
  first_some spec_marker_line (split newline sql_schema).

(* ===================================================================== *)
(** * Sample inputs *)
(* ===================================================================== *)

(** A script runner for the samples: it leaves the database as it is. *)
Definition no_script (script : string) (db : database) : result unit * database :=
  (Ok tt, db).

Definition no_state : state := State ∅ ∅.

(** A schema text that declares version 2.0.0. *)
Definition schema_2_0_0 : string :=
  "-- SQLite3 schema" +:+ String newline ("-- schema ver.: 2.0.0" +:+ String newline "").

(** A schema text that declares version 1.0.0. *)
Definition schema_1_0_0 : string :=
  "-- SQLite3 schema" +:+ String newline ("-- schema ver.: 1.0.0" +:+ String newline "").

(** The version stored in a database file: the [ver] cell of the first row
    of its table [schema]. *)
Definition stored_schema_ver (db : database) : option value :=
  match db !! "schema" with
  | Some t =>
      match t_rows t with
      | row :: _ => if bool_decide ("ver" ∈ t_cols t) then Some (cell t row "ver") else None
      | [] => None
      end
  | None => None
  end.

(** A database as the schema of the specification's data model lays it
    out, with two classes and no subclass yet, stamped with version [v]. *)
Definition sample_schema (v : string) : table :=
  Table ["ver"] None [(1, {["ver" := VText v]})].
Definition sample_chem_class : table :=
  Table ["id"; "name"] (Some "id")
    [(1, {["name" := VText "Polyketide"]}); (2, {["name" := VText "Other"]})].
Definition sample_chem_subclass : table :=
  Table ["id"; "class_id"; "name"] (Some "id") [].
Definition sample_chem_subclass_map : table :=
  Table ["class_source"; "type_source"; "subclass_id"] None [].

Definition sample_db (v : string) : database :=
  <["schema" := sample_schema v]> (
  <["chem_class" := sample_chem_class]> (
  <["chem_subclass" := sample_chem_subclass]> (
  <["chem_subclass_map" := sample_chem_subclass_map]> ∅))).

(** The state of an instance bound to [bigslice.db] holding [db]. *)
Definition sample_state (db : database) : state :=
  State (<["db_path" := VText "bigslice.db"]> (<["schema_ver" := VText "1.0.0"]> ∅))
        (<["bigslice.db" := db]> ∅).

(** A state in which the file [bigslice.db] exists and no instance is
    constructed yet. *)
Definition sample_files (db : database) : state :=
  State ∅ (<["bigslice.db" := db]> ∅).

(** The dictionary that the row factory builds from a row whose cells are
    [f] of the columns. *)
Definition row_dict (f : string -> value) (cols : list string) (d : dict) : dict :=
  fold_left (fun d c => dict_set d c (f c)) cols d.

(** The last character of a string. *)
Fixpoint last_char (s : string) : option ascii :=
  match s with
  | EmptyString => None
  | String c s' =>
      match s' with
      | EmptyString => Some c
      | String _ _ => last_char s'
      end
  end.

(** One line of a tab-separated file. *)
Definition tsv_line (fields : list string) : string :=
  join (String tab "") fields +:+ String newline "".

Definition tsv_header : string :=
  tsv_line ["class_source"; "type_source"; "bs_class"; "bs_subclass"].

(** A seed file whose only data line leaves both target fields empty. *)
Definition tsv_both_empty : string :=
  tsv_header +:+ tsv_line ["NRPS"; "nrps"; ""; ""].

(** A seed file with two lines for the same class and subclass, and one
    line that names no class. *)
Definition tsv_shared : string :=
  tsv_header +:+ tsv_line ["PKS"; "t1pks"; "Polyketide"; "Type I"]
    +:+ tsv_line ["PKS"; "transatpks"; "Polyketide"; "Type I"]
    +:+ tsv_line ["Saccharide"; "amglyccycl"; ""; "aminoglycoside"].

(* ===================================================================== *)
(** * What seeding does to the content of the bound file *)
(* ===================================================================== *)

(** The rows of [chem_subclass] that the lookup of the loop selects for a
    name and a class id. *)
Definition subclass_hit (t : table) (name cid : value)
    (row : Z * gmap string value) : bool :=
  eval_conds t row [CEqParam "name"; CEqParam "class_id"] [name; cid].

Definition subclass_hits (t : table) (name cid : value) : list (Z * gmap string value) :=
  List.filter (subclass_hit t name cid) (t_rows t).

(** The invariant of the data model: no two rows of [chem_subclass] have
    the same name under the same class. *)
Definition unique_pairs (t : table) : Prop :=
  forall name cid, (List.length (subclass_hits t name cid) <= 1)%nat.

(** The defaults of the loop for blank target fields. *)
Definition target_class (bs_class : string) : string :=
  if String.eqb bs_class "" then "Other" else bs_class.
Definition target_subclass (bs_subclass : string) : string :=
  if String.eqb bs_subclass "" then "other" else bs_subclass.

(** The cells that the two inserts of the loop bind. *)
Definition subclass_cells (name cid : value) : gmap string value :=
  list_to_map [("name", name); ("class_id", cid)].
Definition map_cells (src_class src : string) (sid : value) : gmap string value :=
  list_to_map [("class_source", VText src_class); ("type_source", VText src);
               ("subclass_id", sid)].

(** [add_row tbl row db]: the database [db] with [row] added to table
    [tbl]. *)
Definition add_row (tbl : string) (t : table) (row : Z * gmap string value)
    (db : database) : database :=
  <[tbl := Table (t_cols t) (t_pk t) (insert_row row (t_rows t))]> db.

(** One successful iteration of the loop on [line], from [db] to [db']:
    the subclass is found once and reused, or not found and inserted;
    then one mapping row is inserted. *)
Definition line_effect (cls : list (value * value)) (line : string)
    (db db' : database) : Prop :=
  exists src_class src bs_class bs_subclass cid tsub tmap sid db1 rid,
    Database.unpack_line line = Ok (src_class, src, bs_class, bs_subclass)
    /\ vdict_get cls (VText (target_class bs_class)) = Ok cid
    /\ db !! "chem_subclass" = Some tsub
    /\ ((exists r, subclass_hits tsub (VText (target_subclass bs_subclass)) cid = [r]
                  /\ "id" ∈ t_cols tsub /\ sid = cell tsub r "id" /\ db1 = db)
        \/ (exists new,
              subclass_hits tsub (VText (target_subclass bs_subclass)) cid = []
              /\ choose_rowid tsub
                   (subclass_cells (VText (target_subclass bs_subclass)) cid) = Ok new
              /\ sid = VInt new
              /\ db1 = add_row "chem_subclass" tsub
                         (new, subclass_cells (VText (target_subclass bs_subclass)) cid)
                         db))
    /\ db1 !! "chem_subclass_map" = Some tmap
    /\ choose_rowid tmap (map_cells src_class src sid) = Ok rid
    /\ db' = add_row "chem_subclass_map" tmap (rid, map_cells src_class src sid) db1.

(** The loop over the data lines, iteration after iteration. *)
Inductive lines_effect (cls : list (value * value))
    : list string -> database -> database -> Prop :=
  | lines_done db : lines_effect cls [] db db
  | lines_step line lines db db1 db2 :
      line_effect cls line db db1 ->
      lines_effect cls lines db1 db2 ->
      lines_effect cls (line :: lines) db db2.

(** The mapping row of a data line, with the subclass row that it
    references: a row of [chem_subclass] with the subclass name of the line
    under the id of its class. *)
Definition subclass_row_of_line (cls : list (value * value)) (tsub : table)
    (line : string) (row : Z * gmap string value) : Prop :=
  exists src_class src bs_class bs_subclass cid r,
    Database.unpack_line line = Ok (src_class, src, bs_class, bs_subclass)
    /\ vdict_get cls (VText (target_class bs_class)) = Ok cid
    /\ r ∈ t_rows tsub
    /\ subclass_hit tsub (VText (target_subclass bs_subclass)) cid r = true
    /\ snd row !! "subclass_id" = Some (VInt (fst r))
    /\ snd row !! "class_source" = Some (VText src_class)
    /\ snd row !! "type_source" = Some (VText src).

(** A database in which [chem_subclass] holds the same subclass twice. *)
Definition sample_db_corrupt : database :=
  <["chem_subclass" :=
      Table ["id"; "class_id"; "name"] (Some "id")
        [(1, subclass_cells (VText "Type I") (VInt 1));
         (2, subclass_cells (VText "Type I") (VInt 1))]]> (sample_db "1.0.0").


(* ===================================================================== *)
(** * Names in generated statements *)
(* ===================================================================== *)

Fixpoint all_word_chars (w : string) : bool :=
  match w with
  | EmptyString => true
  | String c w' => is_word_char c && all_word_chars w'
  end.

(** A table or column name that can be written into a statement as it is:
    letters, digits and underscores, not starting with a digit, and not a
    reserved word. *)
Definition ident (w : string) : bool := is_name w && all_word_chars w.

(** The tokens of [a,b,c] and of [?,?,?]. *)
Fixpoint names_tokens (ws : list string) : list token :=
  match ws with
  | [] => []
  | [w] => [TWord w]
  | w :: ws' => TWord w :: TComma :: names_tokens ws'
  end.

Fixpoint qmark_tokens (n : nat) : list token :=
  match n with
  | O => []
  | S O => [TQMark]
  | S n' => TQMark :: TComma :: qmark_tokens n'
  end.

(** The table [t(id INTEGER PRIMARY KEY, a, b)] with one row, in a
    database of its own. *)
Definition sample_t : table :=
  Table ["id"; "a"; "b"] (Some "id")
    [(1, list_to_map [("a", VInt 7); ("b", VText "w")])].

Definition sample_t_db : database := <["t" := sample_t]> ∅.

(** A computation that leaves the attributes of the instance as they
    are, whether it returns or raises. *)
Definition keeps_attrs {A : Type} (m : M A) : Prop :=
  forall st, self_attrs (snd (m st)) = self_attrs st.

(* ===================================================================== *)
(** * Further notions for the properties of the wrapper *)
(* ===================================================================== *)

(** A string without tab. *)
Fixpoint tab_free (s : string) : bool :=
  match s with
  | EmptyString => true
  | String c s' => negb (Ascii.eqb c tab) && tab_free s'
  end.

(** A string of whitespace only. *)
Fixpoint all_space (s : string) : bool :=
  match s with
  | EmptyString => true
  | String c s' => py_isspace c && all_space s'
  end.

(** A computation of an instance bound to [p] that leaves the attributes
    and every file other than [p] as they are, whether it returns or
    raises. *)
Definition confined (p : string) {A : Type} (m : M A) : Prop :=
  forall st,
    self_attrs st !! "db_path" = Some (VText p) ->
    self_attrs (snd (m st)) = self_attrs st
    /\ forall q, q <> p -> files (snd (m st)) !! q = files st !! q.

(** A cursor over two columns, and an instance bound to a file that holds
    no table. *)
Definition sample_cursor : cursor := Cursor ["id"; "a"] [[VInt 1; VInt 7]] VNull.


(** A script runner for the samples that creates the sample database. *)
Definition sample_script (script : string) (db : database) : result unit * database :=
  (Ok tt, sample_db "1.0.0").

(** [db'] differs from [db] at most in the tables [chem_subclass] and
    [chem_subclass_map]. *)
Definition same_but_taxonomy (db db' : database) : Prop :=
  forall tbl, tbl <> "chem_subclass" -> tbl <> "chem_subclass_map" ->
              db' !! tbl = db !! tbl.


(** A seed file whose first data line names a class that the sample
    [chem_class] lacks. *)
Definition tsv_unknown_class : string :=
  tsv_header +:+ tsv_line ["PKS"; "t1pks"; "Alkaloid"; "Type I"]
    +:+ tsv_line ["PKS"; "transatpks"; "Polyketide"; "Type I"].

(** A script runner that fails on its first statement. *)
Definition sample_failing_script (script : string) (db : database)
    : result unit * database :=
  (Err OperationalError, db).

(** A mapping row whose [subclass_id] is the key of a row of
    [chem_subclass]. *)
Definition references_subclass (tsub : table) (row : Z * gmap string value) : Prop :=
  exists r, r ∈ t_rows tsub /\ snd row !! "subclass_id" = Some (VInt (fst r)).

(* ===================================================================== *)
(** * Where the engine is followed to the letter *)
(* ===================================================================== *)

(** The integers that SQLite stores and that [sqlite3] binds have 64
    bits; the largest of them is the largest rowid, after which the engine
    no longer assigns the next one. *)
Definition max_rowid : Z := 9223372036854775807.

Definition int64 (z : Z) : bool := (- max_rowid - 1 <=? z) && (z <=? max_rowid).

(** A value that [sqlite3] binds as it is. *)
Definition bindable (v : value) : bool :=
  match v with
  | VInt z => int64 z
  | _ => true
  end.

(** Words that SQLite reads in an expression as something other than a
    column, even where the table has a column of that name. *)
Definition expr_words : list string :=
  ["CAST"; "CURRENT_DATE"; "CURRENT_TIME"; "CURRENT_TIMESTAMP"; "RAISE"]%string.

(** A word that names a column wherever it is written: in the list of an
    [INSERT], among the result columns of a [SELECT], in a comparison. *)
Definition column_name (w : string) : bool :=
  ident w && negb (bool_decide (upper w ∈ expr_words)).

(** A [select] whose statement is one of the fragment: it reads the table
    of that name in the file, the columns asked for and those compared in
    the clause are columns of the table, written as declared, and the
    clause is empty or a conjunction of comparisons [col=?] and number
    literals. *)
Definition plain_select (db : database) (table clause : string)
    (props : list string) : bool :=
  match db !! table, parse_sql (Database.select_sql table clause props) with
  | Some t, Some (SSelect cols tbl cs) =>
      bool_decide (tbl = table)
      && has_cols t (default [] cols ++ cond_cols cs)
      && forallb column_name (default [] cols ++ cond_cols cs)
  | _, _ => false
  end.

(** An [insert] whose table and columns are named by words that can be
    written into the statement as they are. *)
Definition plain_insert (table : string) (data : dict) : bool :=
  ident table && forallb ident (List.map fst data).

(** The calls whose statement is generated by the wrapper from plain
    names, or is a statement of the fragment given to [query] as it is.  A
    [select] is one whatever its arguments: its statement starts with
    [SELECT]. *)
Definition plain_call (c : wrapper_call) : bool :=
  match c with
  | CallQuery sql _ => bool_decide (is_Some (parse_sql sql))
  | CallSelect _ _ _ _ => true
  | CallInsert table data => plain_insert table data
  | CallGetLastId _ => true
  end.
(* ===================================================================== *)
(** * Properties of [execute_sql] and of the wrapper's calls *)
(* ===================================================================== *)

Lemma bind_ok {A B : Type} (m : M A) (k : A -> M B) st a st' :
  m st = (Ok a, st') -> bind m k st = k a st'.
Proof. intros H. unfold bind. now rewrite H. Qed.

Lemma bind_err {A B : Type} (m : M A) (k : A -> M B) st e st' :
  m st = (Err e, st') -> bind m k st = (Err e, st').
Proof. intros H. unfold bind. now rewrite H. Qed.

Lemma execute_sql_attrs sql db_path ps st :
  self_attrs (snd (execute_sql sql db_path ps st)) = self_attrs st.
Proof.
  unfold execute_sql, bind, sqlite3_connect, cursor_execute.
  destruct (files st !! db_path) as [db|] eqn:Hf; simpl.
  - destruct (truthy ps); rewrite Hf;
      destruct (sqlite3_execute _ _ db) as [[cur db']|e]; reflexivity.
  - destruct (truthy ps); simpl; rewrite lookup_insert_eq;
      destruct (sqlite3_execute _ _ _) as [[cur db']|e]; reflexivity.
Qed.

Lemma query_attrs sql ps st :
  self_attrs (snd (Database.query sql ps st)) = self_attrs st.
Proof.
  unfold Database.query, bind, getattr.
  destruct (self_attrs st !! "db_path") as [v|]; [|reflexivity].
  destruct v; simpl; try reflexivity.
  apply execute_sql_attrs.
Qed.

Lemma insert_attrs t data st :
  self_attrs (snd (Database.insert t data st)) = self_attrs st.
Proof.
  unfold Database.insert, bind.
  pose proof (query_attrs (Database.insert_sql t data) (PTuple (List.map snd data)) st) as H.
  destruct (Database.query _ _ st) as [[cur|e] st']; exact H.
Qed.

Lemma get_last_id_raises t st :
  Database.get_last_id t st = (Err AttributeError, st).
Proof.
  unfold Database.get_last_id, try_except, bind, getattr, Database.call_select, raise.
  destruct (self_attrs st !! "database"); reflexivity.
Qed.

(** C10: for every statement and path, [execute_sql] with the empty tuple
    of parameters does what it does with no parameters: in both calls the
    statement is executed without bindings. *)
Theorem execute_sql_empty_tuple_unbound (sql db_path : string) (st : state) :
  execute_sql sql db_path (PTuple []) st = execute_sql sql db_path PNone st
  /\ execute_sql sql db_path (PTuple []) st
     = (sqlite3_connect db_path ;; cursor_execute db_path sql []) st.
Proof. split; reflexivity. Qed.

(** C9: whatever call of the wrapper runs ([query], [select], [insert],
    [get_last_id]) and whether it returns or raises, the attributes of the
    instance are afterwards what they were: the bound file path and the
    cached schema version are not rebound. *)
Theorem wrapper_calls_keep_attributes (c : wrapper_call) (st : state) :
  self_attrs (run_call c st) = self_attrs st
  /\ self_attrs (run_call c st) !! "db_path" = self_attrs st !! "db_path"
  /\ self_attrs (run_call c st) !! "schema_ver" = self_attrs st !! "schema_ver".
Proof.
  assert (H : self_attrs (run_call c st) = self_attrs st).
  { destruct c; simpl.
    - apply query_attrs.
    - apply query_attrs.
    - apply insert_attrs.
    - now rewrite get_last_id_raises. }
  rewrite H. auto.
Qed.

(* ===================================================================== *)
(** * The schema-version pattern *)
(* ===================================================================== *)

Lemma app_String c s t : String c s +:+ t = String c (s +:+ t).
Proof. reflexivity. Qed.

Lemma app_empty_l s : "" +:+ s = s.
Proof. reflexivity. Qed.

Lemma app_empty_r s : s +:+ "" = s.
Proof. induction s as [|c s IH]; [reflexivity|]. now rewrite app_String, IH. Qed.

Lemma app_assoc_s (a b c : string) : (a +:+ b) +:+ c = a +:+ (b +:+ c).
Proof.
  induction a as [|x a IH]; [reflexivity|].
  now rewrite !app_String, IH.
Qed.

Lemma strip_prefix_spec p s r : strip_prefix p s = Some r <-> s = p +:+ r.
Proof.
  revert s. induction p as [|a p IH]; intros s; simpl.
  - rewrite app_empty_l. split; congruence.
  - destruct s as [|b s]; rewrite app_String.
    + split; discriminate.
    + destruct (Ascii.eqb_spec a b) as [->|Hne].
      * rewrite IH. split; [now intros -> | now intros [= ->]].
      * split; [discriminate | intros [= <- _]; congruence].
Qed.

Lemma strip_prefix_app a b s :
  strip_prefix (a +:+ b) s =
  match strip_prefix a s with
  | Some r => strip_prefix b r
  | None => None
  end.
Proof.
  revert s. induction a as [|x a IH]; intros s; [reflexivity|].
  rewrite app_String. destruct s as [|y s]; simpl; [reflexivity|].
  destruct (Ascii.eqb x y); [apply IH | reflexivity].
Qed.

Lemma match_at_lit_group a name b s :
  re_match_at (ReSeq (ReLit a) (ReGroup name (ReLit b))) s =
  match strip_prefix (a +:+ b) s with
  | Some rest => Some (ReMatch (a +:+ b) [(name, b)], rest)
  | None => None
  end.
Proof.
  rewrite strip_prefix_app. simpl.
  destruct (strip_prefix a s) as [r|]; [|reflexivity].
  destruct (strip_prefix b r); reflexivity.
Qed.

(** Matching the constructor's pattern at the start of [s] is stripping
    the marker text. *)
Lemma match_at_schema_ver s :
  re_match_at schema_ver_re s =
  match strip_prefix schema_ver_marker s with
  | Some rest => Some (ReMatch schema_ver_marker [("ver", "1.0.0")], rest)
  | None => None
  end.
Proof. apply match_at_lit_group. Qed.

Lemma occurs_head lit s r : strip_prefix lit s = Some r -> occurs lit s.
Proof. intros H%strip_prefix_spec. exists "", r. now rewrite app_empty_l. Qed.

Lemma occurs_tail lit c s : occurs lit s -> occurs lit (String c s).
Proof. intros (pre & post & ->). exists (String c pre), post. now rewrite app_String. Qed.

Lemma occurs_inv lit c s :
  occurs lit (String c s) -> is_Some (strip_prefix lit (String c s)) \/ occurs lit s.
Proof.
  intros (pre & post & H). destruct pre as [|x pre].
  - left. exists post. apply strip_prefix_spec. now rewrite H, app_empty_l.
  - right. rewrite app_String in H. injection H as _ ->. now exists pre, post.
Qed.

Lemma occurs_empty lit : lit <> "" -> ~ occurs lit "".
Proof.
  intros Hne (pre & post & H). destruct pre; [|discriminate].
  rewrite app_empty_l in H. destruct lit; [congruence | discriminate].
Qed.

Lemma re_search_cons r c s :
  re_search r (String c s) =
  match re_match_at r (String c s) with
  | Some (m, _) => Some m
  | None => re_search r s
  end.
Proof. reflexivity. Qed.

(** [re.search] finds the pattern exactly when the marker text occurs, and
    then group [ver] is the text [1.0.0]. *)
Lemma re_search_schema_ver s :
  (occurs schema_ver_marker s
     /\ exists m, re_search schema_ver_re s = Some m
                  /\ m_groups m = [("ver", "1.0.0")])
  \/ (~ occurs schema_ver_marker s /\ re_search schema_ver_re s = None).
Proof.
  induction s as [|c s IH].
  - right. split; [now apply occurs_empty | reflexivity].
  - rewrite re_search_cons, match_at_schema_ver.
    destruct (strip_prefix schema_ver_marker (String c s)) as [r|] eqn:Hp.
    + left. split; [eapply occurs_head; eauto | eauto].
    + destruct IH as [[Ho Hm]|[Hno Hn]].
      * left. split; [now apply occurs_tail | exact Hm].
      * right. split; [|exact Hn].
        intros [[r Hr]|Ho]%occurs_inv; [congruence | auto].
Qed.

Lemma schema_ver_group s :
  (occurs schema_ver_marker s
     /\ re_group (re_search schema_ver_re s) "ver" = Ok "1.0.0")
  \/ (~ occurs schema_ver_marker s
     /\ re_group (re_search schema_ver_re s) "ver" = Err AttributeError).
Proof.
  destruct (re_search_schema_ver s) as [[Ho (m & -> & Hg)]|[Hno ->]].
  - left. split; [exact Ho|]. unfold re_group. now rewrite Hg.
  - right. split; [exact Hno | reflexivity].
Qed.

(** C2 (as the code has it): the pattern of the constructor is the fixed
    text of a line break followed by [-- schema ver.: 1.0.0].  Either that
    text occurs in the bundled schema, and the version extracted is
    [1.0.0]; or it does not occur, and construction fails with
    [AttributeError] right after binding the path, whatever else the
    schema declares. *)
Theorem schema_ver_pattern_is_1_0_0
    (sql_schema chem_class_map : string)
    (executescript : string -> database -> result unit * database)
    (db_path : string) (st : state) :
  (occurs schema_ver_marker sql_schema
     /\ re_group (re_search schema_ver_re sql_schema) "ver" = Ok "1.0.0")
  \/ (~ occurs schema_ver_marker sql_schema
     /\ re_group (re_search schema_ver_re sql_schema) "ver" = Err AttributeError
     /\ Database.__init__ sql_schema chem_class_map executescript db_path st
        = (Err AttributeError,
           State (<["db_path" := VText db_path]> (self_attrs st)) (files st))).
Proof.
  destruct (schema_ver_group sql_schema) as [[Ho Hg]|[Hno Hg]].
  - left. auto.
  - right. repeat split; [exact Hno | exact Hg |].
    unfold Database.__init__, bind, setattr, lift. now rewrite Hg.
Qed.

(** C2 (the claim fails): a schema text with the comment line
    [-- schema ver.: 2.0.0] declares version 2.0.0 in the specification's
    reading, yet the constructor's pattern does not match it and
    construction fails with [AttributeError]. *)
Lemma schema_ver_2_0_0_not_extracted :
  spec_schema_ver schema_2_0_0 = Some "2.0.0"
  /\ re_group (re_search schema_ver_re schema_2_0_0) "ver" = Err AttributeError
  /\ fst (Database.__init__ schema_2_0_0 "" no_script "bigslice.db" no_state)
     = Err AttributeError.
Proof. repeat split; vm_compute; reflexivity. Qed.

(* ===================================================================== *)
(** * Running statements through the wrapper *)
(* ===================================================================== *)

Lemma state_same_file a (f : gmap string database) p db :
  f !! p = Some db -> State a (<[p := db]> f) = State a f.
Proof. intros H. now rewrite insert_id. Qed.

Lemma tuple_bindings (vs : list value) :
  (if truthy (PTuple vs) then bindings (PTuple vs) else []) = vs.
Proof. destruct vs; reflexivity. Qed.

(** [query] on an instance bound to an existing file runs the statement on
    the content of that file. *)
Lemma query_run a (f : gmap string database) p db sql ps :
  a !! "db_path" = Some (VText p) -> f !! p = Some db ->
  Database.query sql ps (State a f) =
  match sqlite3_execute sql (if truthy ps then bindings ps else []) db with
  | Ok (cur, db') => (Ok cur, State a (<[p := db']> f))
  | Err e => (Err e, State a f)
  end.
Proof.
  intros Ha Hf.
  unfold Database.query, bind, getattr, execute_sql, sqlite3_connect, cursor_execute.
  simpl. rewrite Ha. simpl. unfold bind. simpl. rewrite Hf.
  destruct (truthy ps); simpl; rewrite Hf; reflexivity.
Qed.

Lemma select_run a (f : gmap string database) p db table clause ps props cols tbl cs :
  a !! "db_path" = Some (VText p) -> f !! p = Some db ->
  parse_sql (Database.select_sql table clause props) = Some (SSelect cols tbl cs) ->
  Database.select table clause ps props (State a f) =
  match exec_select cols tbl cs (if truthy ps then bindings ps else []) db with
  | Ok cur => (Ok cur, State a f)
  | Err e => (Err e, State a f)
  end.
Proof.
  intros Ha Hf Hp. unfold Database.select.
  rewrite (query_run a f p db) by assumption.
  unfold sqlite3_execute. rewrite Hp.
  destruct (exec_select _ _ _ _ db); [|reflexivity].
  now rewrite state_same_file.
Qed.

Lemma insert_run a (f : gmap string database) p db table data tbl cols n :
  a !! "db_path" = Some (VText p) -> f !! p = Some db ->
  parse_sql (Database.insert_sql table data) = Some (SInsert tbl cols n) ->
  Database.insert table data (State a f) =
  match exec_insert tbl cols n (List.map snd data) db with
  | Ok (cur, db') => (Ok (lastrowid cur), State a (<[p := db']> f))
  | Err e => (Err e, State a f)
  end.
Proof.
  intros Ha Hf Hp. unfold Database.insert, bind.
  rewrite (query_run a f p db) by assumption.
  rewrite tuple_bindings. unfold sqlite3_execute. rewrite Hp.
  destruct (exec_insert _ _ _ _ db) as [[cur db']|e]; reflexivity.
Qed.

(* ===================================================================== *)
(** * The row factory *)
(* ===================================================================== *)

Lemma assoc_get_dict_set d k k' v :
  assoc_get k (dict_set d k' v) = if String.eqb k k' then Some v else assoc_get k d.
Proof.
  induction d as [|[k0 v0] d IH]; simpl.
  - reflexivity.
  - destruct (String.eqb_spec k' k0) as [->|Hne]; simpl.
    + destruct (String.eqb k k0); reflexivity.
    + rewrite IH. destruct (String.eqb_spec k k0) as [->|Hne'].
      * destruct (String.eqb_spec k0 k'); [congruence | reflexivity].
      * reflexivity.
Qed.

Lemma dict_factory_loop_map f pre desc d :
  dict_factory_loop d (List.length pre) desc (List.map f (pre ++ desc))
  = Ok (row_dict f desc d).
Proof.
  revert pre d. induction desc as [|c desc IH]; intros pre d; simpl.
  - reflexivity.
  - rewrite list_lookup_fmap, lookup_app_r by lia.
    rewrite Nat.sub_diag. simpl.
    specialize (IH (pre ++ [c]) (dict_set d c (f c))).
    rewrite length_app in IH. simpl in IH. rewrite Nat.add_1_r in IH.
    rewrite <- app_assoc in IH. exact IH.
Qed.

Lemma dict_factory_map f cols rows l :
  dict_factory (Cursor cols rows l) (List.map f cols) = Ok (row_dict f cols []).
Proof. apply (dict_factory_loop_map f [] cols []). Qed.

Lemma assoc_get_row_dict f cols d k :
  assoc_get k (row_dict f cols d) =
  if bool_decide (k ∈ cols) then Some (f k) else assoc_get k d.
Proof.
  revert d. induction cols as [|c cols IH]; intros d; simpl.
  - reflexivity.
  - rewrite IH, assoc_get_dict_set.
    destruct (String.eqb_spec k c) as [->|Hne].
    + rewrite (bool_decide_eq_true_2 (c ∈ c :: cols)) by apply list_elem_of_here.
      destruct (bool_decide (c ∈ cols)); reflexivity.
    + destruct (bool_decide (k ∈ cols)) eqn:Hin.
      * apply bool_decide_eq_true_1 in Hin.
        rewrite (bool_decide_eq_true_2 (k ∈ c :: cols)); [reflexivity|].
        now apply list_elem_of_further.
      * apply bool_decide_eq_false_1 in Hin.
        rewrite (bool_decide_eq_false_2 (k ∈ c :: cols)); [reflexivity|].
        intros [?|?]%elem_of_cons; congruence.
Qed.

(* ===================================================================== *)
(** * The version gate of the constructor *)
(* ===================================================================== *)

Lemma has_cols_incl t cols :
  (forall c, c ∈ cols -> c ∈ t_cols t) -> has_cols t cols = true.
Proof.
  intros H. unfold has_cols. apply forallb_forall. intros c Hc.
  apply bool_decide_eq_true_2, H. now apply list_elem_of_In.
Qed.

Lemma filter_all {A : Type} (p : A -> bool) (l : list A) :
  (forall x, p x = true) -> List.filter p l = l.
Proof.
  intros H. induction l as [|x l IH]; simpl; [reflexivity|].
  now rewrite H, IH.
Qed.

(** [SELECT * FROM tbl WHERE 1] yields every row with every column. *)
Lemma exec_select_all (db : database) tbl t :
  db !! tbl = Some t ->
  exec_select None tbl [CConst true] [] db =
  Ok (Cursor (t_cols t)
        (List.map (fun row => List.map (cell t row) (t_cols t)) (t_rows t)) VNull).
Proof.
  intros Ht. unfold exec_select. rewrite Ht. simpl.
  rewrite has_cols_incl by (intros c; rewrite app_nil_r; auto).
  simpl. now rewrite filter_all.
Qed.

Lemma parse_select_schema :
  parse_sql "SELECT * FROM schema WHERE 1" = Some (SSelect None "schema" [CConst true]).
Proof. reflexivity. Qed.

(** C3: when the file exists and the version stored in it differs from
    the version of the bundled schema, construction raises the
    incompatibility error whose message names first the stored and then
    the bundled version, and the files are exactly what they were: nothing
    is migrated or written. *)
Theorem version_mismatch_is_fatal
    (sql_schema chem_class_map : string)
    (executescript : string -> database -> result unit * database)
    (db_path : string) (st : state) (db : database)
    (bundled : string) (stored : value) :
  re_group (re_search schema_ver_re sql_schema) "ver" = Ok bundled ->
  files st !! db_path = Some db ->
  stored_schema_ver db = Some stored ->
  stored <> VText bundled ->
  Database.__init__ sql_schema chem_class_map executescript db_path st =
  (Err (Exception_
          ("SQLite3 database exists but contains different schema version ("
             +:+ py_str stored +:+ " rather than " +:+ bundled +:+ "), exiting!")),
   State (<["schema_ver" := VText bundled]>
            (<["db_path" := VText db_path]> (self_attrs st)))
         (files st)).
Proof.
  intros Hver Hf Hstored Hne.
  unfold stored_schema_ver in Hstored.
  destruct (db !! "schema") as [t|] eqn:Ht; [|discriminate].
  destruct (t_rows t) as [|row rows] eqn:Hrows; [discriminate|].
  destruct (bool_decide ("ver" ∈ t_cols t)) eqn:Hcol; [|discriminate].
  injection Hstored as <-.
  unfold Database.__init__, bind, setattr, lift, getattr, path_exists.
  rewrite Hver. simpl.
  rewrite lookup_insert_ne by discriminate. rewrite lookup_insert_eq. simpl.
  rewrite Hf. rewrite bool_decide_eq_true_2 by eauto.
  unfold execute_sql, bind, sqlite3_connect, cursor_execute. simpl.
  rewrite Hf. simpl. rewrite Hf.
  unfold sqlite3_execute. rewrite parse_select_schema.
  rewrite (exec_select_all db "schema" t Ht), Hrows. simpl.
  unfold py_next, lift. simpl.
  rewrite dict_factory_map. unfold dict_getitem.
  rewrite assoc_get_row_dict, Hcol. simpl.
  rewrite lookup_insert_eq.
  rewrite bool_decide_eq_true_2 by exact Hne.
  unfold raise, Database.mismatch_message. simpl py_str.
  now rewrite (insert_id (files st)) by exact Hf.
Qed.

(** The specification's example: a file stamped 0.9.0 against the bundled
    schema 1.0.0. *)
Lemma version_mismatch_is_fatal_witness :
  Database.__init__ schema_1_0_0 "" no_script "bigslice.db"
    (sample_files (sample_db "0.9.0")) =
  (Err (Exception_
          "SQLite3 database exists but contains different schema version (0.9.0 rather than 1.0.0), exiting!"),
   State (<["schema_ver" := VText "1.0.0"]> (<["db_path" := VText "bigslice.db"]> ∅))
         (files (sample_files (sample_db "0.9.0")))).
Proof.
  apply (version_mismatch_is_fatal schema_1_0_0 "" no_script "bigslice.db"
           (sample_files (sample_db "0.9.0")) (sample_db "0.9.0")
           "1.0.0" (VText "0.9.0")).
  - reflexivity.
  - reflexivity.
  - reflexivity.
  - discriminate.
Defined.

(* ===================================================================== *)
(** * Reading a line of the seed file *)
(* ===================================================================== *)

Lemma rstrip_last_char s c :
  last_char (rstrip s) = Some c -> py_isspace c = false.
Proof.
  induction s as [|x s IH]; simpl; [discriminate|].
  destruct (rstrip s) as [|d r] eqn:Hr.
  - destruct (py_isspace x) eqn:Hx; simpl; [discriminate|].
    now intros [= <-].
  - exact IH.
Qed.

Lemma split_not_nil sep s : split sep s <> [].
Proof.
  destruct s as [|c s]; simpl; [discriminate|].
  destruct (Ascii.eqb c sep); [discriminate|].
  destruct (split sep s); discriminate.
Qed.

(** The last field of a split is empty only for the empty string and for
    a string that ends with the separator. *)
Lemma split_last_empty sep s l :
  split sep s = l ++ [""] -> s = "" \/ last_char s = Some sep.
Proof.
  revert l. induction s as [|c s IH]; intros l H; [now left|].
  right. simpl in H.
  destruct (Ascii.eqb_spec c sep) as [->|Hne].
  - destruct l as [|x l]; simpl in H.
    + injection H as H. now apply split_not_nil in H.
    + injection H as _ H. destruct (IH l H) as [->|Hl]; [reflexivity|].
      simpl. destruct s; [discriminate | exact Hl].
  - destruct (split sep s) as [|h t] eqn:Hs; [now apply split_not_nil in Hs|].
    destruct l as [|x l]; simpl in H; [discriminate|].
    injection H as _ ->.
    destruct (IH (h :: l) eq_refl) as [->|Hl].
    + simpl in Hs. destruct l; discriminate.
    + simpl. destruct s; [discriminate | exact Hl].
Qed.

Lemma unpack_line_fields line a b c d :
  Database.unpack_line line = Ok (a, b, c, d) ->
  split tab (rstrip line) = [a; b; c; d].
Proof.
  unfold Database.unpack_line.
  destruct (split tab (rstrip line)) as [|x1 [|x2 [|x3 [|x4 [|x5 l]]]]];
    try discriminate.
  now intros [= -> -> -> ->].
Qed.

Lemma unpack_line_subclass_nonempty line a b c d :
  Database.unpack_line line = Ok (a, b, c, d) -> d <> "".
Proof.
  intros H%unpack_line_fields ->.
  destruct (split_last_empty tab (rstrip line) [a; b; c] H) as [He|Hl].
  - rewrite He in H. discriminate.
  - apply rstrip_last_char in Hl. discriminate.
Qed.

(** C7 (the code at every line, and at the failing line): the fourth field
    that the loop unpacks is never empty, so the replacement of an empty
    subclass by [other] is dead code: [rstrip] removes the tabs that would
    delimit an empty last field.  The data line with both target fields
    empty is cut to two fields, unpacking raises [ValueError], seeding
    stops there and no [chem_subclass] row exists afterwards. *)
Theorem empty_subclass_line_raises_ValueError :
  (forall line,
     match Database.unpack_line line with
     | Ok (_, _, _, bs_subclass) => bs_subclass <> ""
     | Err _ => True
     end)
  /\ rstrip (tsv_line ["NRPS"; "nrps"; ""; ""]) = "NRPS" +:+ String tab "nrps"
  /\ Database.unpack_line (tsv_line ["NRPS"; "nrps"; ""; ""]) = Err ValueError
  /\ Database.seed tsv_both_empty (sample_state (sample_db "1.0.0"))
     = (Err ValueError, sample_state (sample_db "1.0.0")).
Proof.
  split; [|repeat split; vm_compute; reflexivity].
  intros line.
  destruct (Database.unpack_line line) as [[[[a b] c] d]|e] eqn:H; [|exact I].
  eapply unpack_line_subclass_nonempty; eauto.
Qed.

(* ===================================================================== *)
(** * The statements of the seeding loop *)
(* ===================================================================== *)

Lemma parse_select_class :
  parse_sql (Database.select_sql "chem_class" "WHERE 1" [])
  = Some (SSelect None "chem_class" [CConst true]).
Proof. reflexivity. Qed.

Lemma parse_select_subclass :
  parse_sql (Database.select_sql "chem_subclass" "WHERE name=? AND class_id=?" [])
  = Some (SSelect None "chem_subclass" [CEqParam "name"; CEqParam "class_id"]).
Proof. reflexivity. Qed.

Lemma parse_insert_subclass v1 v2 :
  parse_sql (Database.insert_sql "chem_subclass" [("name", v1); ("class_id", v2)])
  = Some (SInsert "chem_subclass" ["name"; "class_id"] 2).
Proof. reflexivity. Qed.

Lemma parse_insert_map v1 v2 v3 :
  parse_sql (Database.insert_sql "chem_subclass_map"
               [("class_source", v1); ("type_source", v2); ("subclass_id", v3)])
  = Some (SInsert "chem_subclass_map" ["class_source"; "type_source"; "subclass_id"] 3).
Proof. reflexivity. Qed.

(** A successful insert: the table exists, the row has the chosen rowid
    and the bound cells, and [lastrowid] is that rowid. *)
Lemma exec_insert_ok tbl cols n bs (db : database) cur db' :
  exec_insert tbl cols n bs db = Ok (cur, db') ->
  exists t rid,
    db !! tbl = Some t
    /\ choose_rowid t (list_to_map (zip cols bs)) = Ok rid
    /\ lastrowid cur = VInt rid
    /\ db' = add_row tbl t (rid, list_to_map (zip cols bs)) db.
Proof.
  unfold exec_insert. destruct (db !! tbl) as [t|]; [|discriminate].
  destruct (negb (has_cols t cols)); [discriminate|].
  destruct (negb (List.length cols =? n)%nat); [discriminate|].
  destruct (negb (List.length bs =? n)%nat); [discriminate|].
  destruct (choose_rowid t _) as [rid|e] eqn:Hr; [|discriminate].
  intros [= <- <-]. exists t, rid. auto.
Qed.

(** A successful select: the table exists with the columns that are named,
    and the cursor holds the selected cells of the rows that satisfy the
    conditions. *)
Lemma exec_select_ok cols tbl cs bs (db : database) cur :
  exec_select cols tbl cs bs db = Ok cur ->
  exists t,
    db !! tbl = Some t
    /\ has_cols t (default (t_cols t) cols ++ cond_cols cs) = true
    /\ cur = Cursor (default (t_cols t) cols)
               (List.map (fun row => List.map (cell t row) (default (t_cols t) cols))
                  (List.filter (fun row => eval_conds t row cs bs) (t_rows t)))
               VNull.
Proof.
  unfold exec_select. destruct (db !! tbl) as [t|]; [|discriminate].
  destruct (has_cols t _) eqn:Hc; [|discriminate]. simpl.
  destruct (negb (List.length bs =? List.length (cond_cols cs))%nat); [discriminate|].
  intros [= <-]. exists t. auto.
Qed.

Lemma fetch_rows_map t cols l rows (hits : list (Z * gmap string value)) :
  fetch_rows (Cursor cols rows l)
    (List.map (fun row => List.map (cell t row) cols) hits)
  = Ok (List.map (fun row => row_dict (cell t row) cols []) hits).
Proof.
  induction hits as [|r hits IH]; simpl; [reflexivity|].
  now rewrite dict_factory_map, IH.
Qed.

(* ===================================================================== *)
(** * One iteration of the seeding loop *)
(* ===================================================================== *)

(** The loop body, once the line is unpacked and its class resolved: the
    lookup of the subclass, then the two branches, then the mapping
    row. *)
Lemma seed_line_unfold a (f : gmap string database) p db cls line
    src_class src bs_class bs_subclass cid :
  a !! "db_path" = Some (VText p) -> f !! p = Some db ->
  Database.unpack_line line = Ok (src_class, src, bs_class, bs_subclass) ->
  vdict_get cls (VText (target_class bs_class)) = Ok cid ->
  Database.seed_line cls line (State a f) =
  match exec_select None "chem_subclass" [CEqParam "name"; CEqParam "class_id"]
          [VText (target_subclass bs_subclass); cid] db with
  | Err e => (Err e, State a f)
  | Ok cur =>
      (let* existing := fetchall cur in
       let* bs_subclass_id :=
         match existing with
         | first :: rest =>
             match rest with
             | [] => lift (dict_getitem first "id")
             | _ :: _ => raise AssertionError
             end
         | [] =>
             Database.insert "chem_subclass"
               [("name", VText (target_subclass bs_subclass)); ("class_id", cid)]
         end in
       let* _ := Database.insert "chem_subclass_map"
                   [("class_source", VText src_class); ("type_source", VText src);
                    ("subclass_id", bs_subclass_id)] in
       ret tt) (State a f)
  end.
Proof.
  intros Ha Hf Hu Hc.
  unfold Database.seed_line.
  unfold bind at 1. unfold lift at 1. rewrite Hu.
  unfold bind at 1. unfold lift at 1.
  fold (target_class bs_class). rewrite Hc.
  unfold bind at 1.
  rewrite (select_run a f p db _ _ _ _ _ _ _ Ha Hf parse_select_subclass).
  fold (target_subclass bs_subclass). simpl truthy. simpl bindings. cbv iota.
  destruct (exec_select _ _ _ _ db) as [cur|e]; reflexivity.
Qed.

Lemma seed_line_unpack_err a (f : gmap string database) cls line e :
  Database.unpack_line line = Err e ->
  Database.seed_line cls line (State a f) = (Err e, State a f).
Proof.
  intros Hu. unfold Database.seed_line, bind, lift. now rewrite Hu.
Qed.

Lemma seed_line_class_err a (f : gmap string database) cls line
    src_class src bs_class bs_subclass e :
  Database.unpack_line line = Ok (src_class, src, bs_class, bs_subclass) ->
  vdict_get cls (VText (target_class bs_class)) = Err e ->
  Database.seed_line cls line (State a f) = (Err e, State a f).
Proof.
  intros Hu Hc. unfold Database.seed_line.
  unfold bind at 1. unfold lift at 1. rewrite Hu.
  unfold bind at 1. unfold lift at 1.
  fold (target_class bs_class). now rewrite Hc.
Qed.

(** The mapping row is inserted last, into whatever database the lookup
    left. *)
Lemma insert_map_ok a (f : gmap string database) p db src_class src sid st' :
  a !! "db_path" = Some (VText p) -> f !! p = Some db ->
  (let* _ := Database.insert "chem_subclass_map"
               [("class_source", VText src_class); ("type_source", VText src);
                ("subclass_id", sid)] in
   ret tt) (State a f) = (Ok tt, st') ->
  exists tmap rid,
    db !! "chem_subclass_map" = Some tmap
    /\ choose_rowid tmap (map_cells src_class src sid) = Ok rid
    /\ st' = State a (<[p := add_row "chem_subclass_map" tmap
                              (rid, map_cells src_class src sid) db]> f).
Proof.
  intros Ha Hf. unfold bind at 1.
  rewrite (insert_run a f p db "chem_subclass_map"
             [("class_source", VText src_class); ("type_source", VText src);
              ("subclass_id", sid)] _ _ _ Ha Hf (parse_insert_map _ _ _)).
  destruct (exec_insert _ _ _ _ db) as [[cur db']|e] eqn:Hi; [|discriminate].
  apply exec_insert_ok in Hi as (t & rid & Ht & Hrid & _ & ->).
  intros [= <-]. exists t, rid. auto.
Qed.

(** A successful iteration has the effect [line_effect] on the bound
    file. *)
Lemma seed_line_ok a (f : gmap string database) p db cls line st' :
  a !! "db_path" = Some (VText p) -> f !! p = Some db ->
  Database.seed_line cls line (State a f) = (Ok tt, st') ->
  exists db', st' = State a (<[p := db']> f) /\ line_effect cls line db db'.
Proof.
  intros Ha Hf.
  destruct (Database.unpack_line line) as [[[[src_class src] bs_class] bs_subclass]|e]
    eqn:Hu; [|now rewrite (seed_line_unpack_err _ _ _ _ _ Hu)].
  destruct (vdict_get cls (VText (target_class bs_class))) as [cid|e] eqn:Hc;
    [|now rewrite (seed_line_class_err _ _ _ _ _ _ _ _ _ Hu Hc)].
  rewrite (seed_line_unfold a f p db cls line _ _ _ _ cid Ha Hf Hu Hc).
  destruct (exec_select _ _ _ _ db) as [cur|e] eqn:Hs; [|discriminate].
  apply exec_select_ok in Hs as (tsub & Ht & Hcols & ->). simpl default.
  unfold bind at 1. unfold fetchall, lift at 1. simpl c_rows.
  rewrite fetch_rows_map.
  change (List.filter _ (t_rows tsub))
    with (subclass_hits tsub (VText (target_subclass bs_subclass)) cid).
  destruct (subclass_hits tsub _ cid) as [|r [|r2 rest]] eqn:Hh; simpl List.map.
  - (* no such subclass yet: it is inserted *)
    unfold bind at 1.
    rewrite (insert_run a f p db "chem_subclass"
               [("name", VText (target_subclass bs_subclass)); ("class_id", cid)]
               _ _ _ Ha Hf (parse_insert_subclass _ _)).
    destruct (exec_insert _ _ _ _ db) as [[cur db1]|e] eqn:Hi; [|discriminate].
    apply exec_insert_ok in Hi as (t & new & Ht' & Hnew & Hl & ->).
    rewrite Ht in Ht'. injection Ht' as <-. rewrite Hl.
    intros H.
    apply (insert_map_ok a _ p _ _ _ _ _ Ha (lookup_insert_eq _ _ _))
      in H as (tmap & rid & Htm & Hrid & ->).
    rewrite insert_insert_eq.
    eexists. split; [reflexivity|].
    exists src_class, src, bs_class, bs_subclass, cid, tsub, tmap, (VInt new).
    eexists. exists rid.
    repeat split; eauto.
    right. exists new. repeat split; auto.
  - (* found once: its id is reused *)
    unfold bind at 1. unfold lift at 1, dict_getitem.
    rewrite assoc_get_row_dict.
    destruct (bool_decide ("id" ∈ t_cols tsub)) eqn:Hid; [|discriminate].
    apply bool_decide_eq_true_1 in Hid.
    intros H.
    apply (insert_map_ok a f p db _ _ _ _ Ha Hf) in H as (tmap & rid & Htm & Hrid & ->).
    eexists. split; [reflexivity|].
    exists src_class, src, bs_class, bs_subclass, cid, tsub, tmap, (cell tsub r "id"), db, rid.
    repeat split; eauto.
    left. exists r. auto.
  - (* found more than once *)
    unfold bind at 1. discriminate.
Qed.

(* ===================================================================== *)
(** * The seeding loop *)
(* ===================================================================== *)

Lemma for_each_seed_ok a (f : gmap string database) p cls lines :
  a !! "db_path" = Some (VText p) ->
  forall db st',
    f !! p = Some db ->
    for_each lines (Database.seed_line cls) (State a f) = (Ok tt, st') ->
    exists db', st' = State a (<[p := db']> f) /\ lines_effect cls lines db db'.
Proof.
  intros Ha. revert f. induction lines as [|line lines IH]; intros f db st' Hf.
  - simpl. unfold ret. intros [= <-]. exists db. split.
    + now rewrite insert_id.
    + constructor.
  - simpl. unfold bind at 1.
    destruct (Database.seed_line cls line (State a f)) as [[[]|e] st1] eqn:H1;
      [|discriminate].
    apply (seed_line_ok a f p db) in H1 as (db1 & -> & He); [|assumption..].
    intros H2.
    apply (IH _ db1) in H2 as (db2 & -> & Hs); [|apply lookup_insert_eq].
    exists db2. split.
    + now rewrite insert_insert_eq.
    + econstructor; eauto.
Qed.

(** A successful seeding: the classes are read from [chem_class], then
    every data line has its effect, in order. *)
Lemma seed_ok chem a (f : gmap string database) p db st' :
  a !! "db_path" = Some (VText p) -> f !! p = Some db ->
  Database.seed chem (State a f) = (Ok tt, st') ->
  exists cur cls db',
    exec_select None "chem_class" [CConst true] [] db = Ok cur
    /\ Database.load_classes cur (c_rows cur) [] = Ok cls
    /\ st' = State a (<[p := db']> f)
    /\ lines_effect cls (Database.data_lines chem) db db'.
Proof.
  intros Ha Hf. unfold Database.seed. unfold bind at 1.
  rewrite (select_run a f p db _ _ _ _ _ _ _ Ha Hf parse_select_class).
  simpl truthy. cbv iota.
  destruct (exec_select _ _ _ _ db) as [cur|e] eqn:Hs; [|discriminate].
  unfold bind at 1. unfold lift at 1.
  destruct (Database.load_classes cur (c_rows cur) []) as [cls|e] eqn:Hl; [|discriminate].
  intros H.
  apply (for_each_seed_ok a f p cls _ Ha db) in H as (db' & -> & He); [|assumption].
  exists cur, cls, db'. auto.
Qed.

(* ===================================================================== *)
(** * Rows added to a table *)
(* ===================================================================== *)

Lemma insert_row_perm row rows : insert_row row rows ≡ₚ row :: rows.
Proof.
  induction rows as [|r rows IH]; simpl; [reflexivity|].
  destruct (fst row <? fst r); [reflexivity|].
  rewrite IH. apply perm_swap.
Qed.

Lemma add_row_lookup tbl t row (db : database) :
  add_row tbl t row db !! tbl
  = Some (Table (t_cols t) (t_pk t) (insert_row row (t_rows t))).
Proof. apply lookup_insert_eq. Qed.

Lemma add_row_lookup_ne tbl tbl' t row (db : database) :
  tbl <> tbl' -> add_row tbl t row db !! tbl' = db !! tbl'.
Proof. intros H. now apply lookup_insert_ne. Qed.

Lemma map_cells_class_source src_class src sid :
  map_cells src_class src sid !! "class_source" = Some (VText src_class).
Proof. reflexivity. Qed.

Lemma map_cells_type_source src_class src sid :
  map_cells src_class src sid !! "type_source" = Some (VText src).
Proof. reflexivity. Qed.

Lemma map_cells_subclass_id src_class src sid :
  map_cells src_class src sid !! "subclass_id" = Some sid.
Proof. reflexivity. Qed.





(* ===================================================================== *)
(** * Subclass rows are shared *)
(* ===================================================================== *)

Lemma sql_eq_true a b : sql_eq a b = true -> a = b /\ b <> VNull.
Proof.
  destruct a, b; simpl; try discriminate;
    intros H%bool_decide_eq_true_1; split; congruence.
Qed.

Lemma sql_eq_refl a : a <> VNull -> sql_eq a a = true.
Proof.
  destruct a; simpl; intros H; try congruence; now apply bool_decide_eq_true_2.
Qed.

Lemma subclass_hit_eq t name cid row :
  subclass_hit t name cid row
  = sql_eq (cell t row "name") name && sql_eq (cell t row "class_id") cid.
Proof. unfold subclass_hit. simpl. now rewrite andb_true_r. Qed.

Lemma cell_same_pk t t' row c : t_pk t = t_pk t' -> cell t row c = cell t' row c.
Proof. intros H. unfold cell. now rewrite H. Qed.

Lemma subclass_hit_same_pk t t' name cid row :
  t_pk t = t_pk t' -> subclass_hit t name cid row = subclass_hit t' name cid row.
Proof.
  intros H. rewrite !subclass_hit_eq.
  now rewrite (cell_same_pk t t' row "name" H), (cell_same_pk t t' row "class_id" H).
Qed.

Lemma filter_insert_row_length (q : Z * gmap string value -> bool) row rows :
  List.length (List.filter q (insert_row row rows))
  = ((if q row then 1 else 0) + List.length (List.filter q rows))%nat.
Proof.
  induction rows as [|r rows IH]; simpl.
  - destruct (q row); reflexivity.
  - destruct (fst row <? fst r); simpl.
    + destruct (q row), (q r); reflexivity.
    + destruct (q r); simpl; rewrite IH; destruct (q row); simpl; lia.
Qed.

Lemma elem_of_insert_row (x row : Z * gmap string value) rows :
  x ∈ insert_row row rows <-> x = row \/ x ∈ rows.
Proof. rewrite insert_row_perm. apply elem_of_cons. Qed.

Lemma filter_singleton {A : Type} (q : A -> bool) (l : list A) (x : A) :
  (List.length (List.filter q l) <= 1)%nat -> x ∈ l -> q x = true ->
  List.filter q l = [x].
Proof.
  intros Hlen Hin Hq.
  assert (Hx : In x (List.filter q l)).
  { apply filter_In. split; [now apply list_elem_of_In | exact Hq]. }
  destruct (List.filter q l) as [|y [|z l']]; simpl in *.
  - contradiction.
  - destruct Hx as [->|[]]. reflexivity.
  - lia.
Qed.

Lemma cell_other t row c :
  t_pk t <> Some c -> cell t row c = default VNull (snd row !! c).
Proof. intros H. unfold cell. destruct (decide _); [contradiction | reflexivity]. Qed.

Lemma cell_pk t row c : t_pk t = Some c -> cell t row c = VInt (fst row).
Proof. intros H. unfold cell. destruct (decide _); [reflexivity | contradiction]. Qed.

Lemma subclass_cells_name name cid : subclass_cells name cid !! "name" = Some name.
Proof. reflexivity. Qed.

Lemma subclass_cells_class_id name cid :
  subclass_cells name cid !! "class_id" = Some cid.
Proof. reflexivity. Qed.

(** The row that the loop inserts into [chem_subclass] is a hit for its
    own name and class id, and for no other pair. *)
Lemma new_subclass_row_hit t new name cid name' cid' :
  t_pk t = Some "id" ->
  subclass_hit t name' cid' (new, subclass_cells name cid) = true ->
  name' = name /\ cid' = cid.
Proof.
  intros Hpk. rewrite subclass_hit_eq.
  rewrite !cell_other by (rewrite Hpk; discriminate). simpl snd.
  rewrite subclass_cells_name, subclass_cells_class_id. simpl.
  intros [H1 H2]%andb_true_iff.
  apply sql_eq_true in H1 as [H1 _]. apply sql_eq_true in H2 as [H2 _]. auto.
Qed.

Lemma new_subclass_row_is_hit t new name cid :
  t_pk t = Some "id" -> name <> VNull -> cid <> VNull ->
  subclass_hit t name cid (new, subclass_cells name cid) = true.
Proof.
  intros Hpk Hn Hc. rewrite subclass_hit_eq.
  rewrite !cell_other by (rewrite Hpk; discriminate). simpl snd.
  rewrite subclass_cells_name, subclass_cells_class_id. simpl.
  now rewrite !sql_eq_refl.
Qed.

(** One iteration keeps [chem_subclass] free of duplicates, keeps its
    rows, and points the new mapping row to a row of the line's pair. *)
Lemma line_effect_subclass cls line (db db' : database) tsub tmap :
  line_effect cls line db db' ->
  (forall k v, vdict_get cls k = Ok v -> v <> VNull) ->
  db !! "chem_subclass" = Some tsub -> t_pk tsub = Some "id" ->
  unique_pairs tsub ->
  db !! "chem_subclass_map" = Some tmap ->
  exists tsub' row,
    db' !! "chem_subclass" = Some tsub'
    /\ t_pk tsub' = Some "id"
    /\ unique_pairs tsub'
    /\ (forall r, r ∈ t_rows tsub -> r ∈ t_rows tsub')
    /\ db' !! "chem_subclass_map"
       = Some (Table (t_cols tmap) (t_pk tmap) (insert_row row (t_rows tmap)))
    /\ subclass_row_of_line cls tsub' line row.
Proof.
  intros (sc & s & c & sb & cid & tsub0 & tmap0 & sid & db1 & rid &
          Hu & Hc & Ht & Hcase & Htm & Hrid & ->) Hnn Hsub Hpk Huniq Hm.
  rewrite Hsub in Ht. injection Ht as <-.
  destruct Hcase as [(r & Hh & Hid & -> & ->)|(new & Hh & Hnew & -> & ->)].
  - (* reused *)
    rewrite Hm in Htm. injection Htm as <-.
    assert (Hr : In r (subclass_hits tsub (VText (target_subclass sb)) cid))
      by (rewrite Hh; now left).
    apply filter_In in Hr as [Hr1 Hr2]. apply list_elem_of_In in Hr1.
    exists tsub, (rid, map_cells sc s (cell tsub r "id")).
    rewrite add_row_lookup_ne by discriminate. rewrite add_row_lookup.
    repeat split; auto.
    exists sc, s, c, sb, cid, r. repeat split; auto.
    simpl. now rewrite cell_pk.
  - (* inserted *)
    rewrite add_row_lookup_ne in Htm by discriminate.
    rewrite Hm in Htm. injection Htm as <-.
    set (row := (new, subclass_cells (VText (target_subclass sb)) cid)).
    set (tsub' := Table (t_cols tsub) (t_pk tsub) (insert_row row (t_rows tsub))).
    exists tsub', (rid, map_cells sc s (VInt new)).
    rewrite add_row_lookup_ne by discriminate. rewrite !add_row_lookup.
    assert (Hcid : cid <> VNull) by (eapply Hnn; eauto).
    repeat split; auto.
    + intros name' cid'. unfold subclass_hits. simpl t_rows.
      rewrite filter_insert_row_length.
      destruct (subclass_hit tsub' name' cid' row) eqn:Hhit.
      * apply (new_subclass_row_hit tsub') in Hhit as [-> ->]; [|exact Hpk].
        rewrite (filter_ext _ (subclass_hit tsub (VText (target_subclass sb)) cid))
          by (intros x; now apply subclass_hit_same_pk).
        fold (subclass_hits tsub (VText (target_subclass sb)) cid).
        rewrite Hh. simpl. lia.
      * rewrite (filter_ext _ (subclass_hit tsub name' cid'))
          by (intros x; now apply subclass_hit_same_pk).
        apply (Huniq name' cid').
    + intros r Hr. simpl. apply elem_of_insert_row. now right.
    + exists sc, s, c, sb, cid, row. repeat split; auto.
      * simpl. apply elem_of_insert_row. now left.
      * apply new_subclass_row_is_hit; [exact Hpk | discriminate | exact Hcid].
Qed.

Lemma lines_effect_subclass cls lines (db db' : database) :
  lines_effect cls lines db db' ->
  (forall k v, vdict_get cls k = Ok v -> v <> VNull) ->
  forall tsub tmap,
    db !! "chem_subclass" = Some tsub -> t_pk tsub = Some "id" ->
    unique_pairs tsub ->
    db !! "chem_subclass_map" = Some tmap ->
    exists tsub' tmap' news,
      db' !! "chem_subclass" = Some tsub'
      /\ t_pk tsub' = Some "id"
      /\ unique_pairs tsub'
      /\ (forall r, r ∈ t_rows tsub -> r ∈ t_rows tsub')
      /\ db' !! "chem_subclass_map" = Some tmap'
      /\ t_rows tmap' ≡ₚ t_rows tmap ++ news
      /\ Forall2 (subclass_row_of_line cls tsub') lines news.
Proof.
  intros H Hnn.
  induction H as [db|line lines db db1 db2 He Hs IH]; intros tsub tmap Hsub Hpk Hu Hm.
  - exists tsub, tmap, []. rewrite app_nil_r. repeat split; auto.
  - destruct (line_effect_subclass _ _ _ _ _ _ He Hnn Hsub Hpk Hu Hm)
      as (tsub1 & row & Hsub1 & Hpk1 & Hu1 & Hmono1 & Hm1 & Hrow).
    destruct (IH _ _ Hsub1 Hpk1 Hu1 Hm1)
      as (tsub2 & tmap2 & news & Hsub2 & Hpk2 & Hu2 & Hmono2 & Hm2 & Hperm & Hall).
    exists tsub2, tmap2, (row :: news). repeat split; auto.
    + rewrite Hperm. simpl. rewrite insert_row_perm. simpl. apply Permutation_middle.
    + constructor; [|exact Hall].
      destruct Hrow as (sc & s & c & sb & cid & r & Hun & Hc & Hr & Hhit & Hsid & Hcs & Hts).
      exists sc, s, c, sb, cid, r. repeat split; auto.
      rewrite <- Hhit. apply subclass_hit_same_pk. congruence.
Qed.

(* ===================================================================== *)
(** * The class dictionary *)
(* ===================================================================== *)

Lemma vdict_get_set d k v k' :
  vdict_get (vdict_set d k v) k'
  = if bool_decide (k' = k) then Ok v else vdict_get d k'.
Proof.
  induction d as [|[k0 v0] d IH]; simpl; [reflexivity|].
  destruct (bool_decide (k = k0)) eqn:Hk; simpl.
  - apply bool_decide_eq_true_1 in Hk as <-.
    destruct (bool_decide (k' = k)); reflexivity.
  - apply bool_decide_eq_false_1 in Hk. rewrite IH.
    destruct (bool_decide (k' = k0)) eqn:Hk0; [|reflexivity].
    apply bool_decide_eq_true_1 in Hk0 as ->.
    rewrite bool_decide_eq_false_2 by congruence. reflexivity.
Qed.

(** Every entry of the class dictionary comes from a row of the cursor:
    its key is the [name] and its value the [id] of that row. *)
Lemma load_classes_get t cols rows0 l (hits : list (Z * gmap string value)) :
  forall acc cls,
    Database.load_classes (Cursor cols rows0 l)
      (List.map (fun row => List.map (cell t row) cols) hits) acc = Ok cls ->
    forall k v,
      vdict_get cls k = Ok v ->
      vdict_get acc k = Ok v
      \/ exists rc, rc ∈ hits /\ cell t rc "name" = k /\ cell t rc "id" = v.
Proof.
  induction hits as [|r hits IH]; intros acc cls; simpl.
  - intros [= <-] k v Hk. now left.
  - rewrite dict_factory_map. unfold dict_getitem.
    rewrite !assoc_get_row_dict.
    destruct (bool_decide ("name" ∈ cols)); [|discriminate].
    destruct (bool_decide ("id" ∈ cols)); [|discriminate].
    intros Hl k v Hk.
    destruct (IH _ _ Hl k v Hk) as [Hacc|(rc & Hin & Hn & Hi)].
    + rewrite vdict_get_set in Hacc.
      destruct (bool_decide (k = cell t r "name")) eqn:Hkn.
      * apply bool_decide_eq_true_1 in Hkn. injection Hacc as <-.
        right. exists r. split; [apply list_elem_of_here | auto].
      * now left.
    + right. exists rc. split; [now apply list_elem_of_further | auto].
Qed.

(** The classes that [seed] loads from a table whose [id] is its key. *)
Lemma seed_classes (db : database) tclass cur cls :
  db !! "chem_class" = Some tclass -> t_pk tclass = Some "id" ->
  exec_select None "chem_class" [CConst true] [] db = Ok cur ->
  Database.load_classes cur (c_rows cur) [] = Ok cls ->
  forall k v,
    vdict_get cls k = Ok v ->
    exists rc, rc ∈ t_rows tclass /\ cell tclass rc "name" = k /\ v = VInt (fst rc).
Proof.
  intros Hc Hpk Hs Hl k v Hk.
  rewrite (exec_select_all db _ _ Hc) in Hs. injection Hs as <-.
  simpl c_rows in Hl.
  destruct (load_classes_get _ _ _ _ _ _ _ Hl k v Hk) as [Hacc|(rc & Hin & Hn & Hi)].
  - discriminate.
  - exists rc. rewrite (cell_pk _ _ _ Hpk) in Hi. auto.
Qed.

(* ===================================================================== *)
(** * Deduplication of subclasses *)
(* ===================================================================== *)

(** The lookup that finds two rows stops the loop with the assertion. *)
Lemma seed_line_assertion a (f : gmap string database) p db cls line
    src_class src bs_class bs_subclass cid tsub r1 r2 rest :
  a !! "db_path" = Some (VText p) -> f !! p = Some db ->
  Database.unpack_line line = Ok (src_class, src, bs_class, bs_subclass) ->
  vdict_get cls (VText (target_class bs_class)) = Ok cid ->
  db !! "chem_subclass" = Some tsub ->
  "name" ∈ t_cols tsub -> "class_id" ∈ t_cols tsub ->
  subclass_hits tsub (VText (target_subclass bs_subclass)) cid = r1 :: r2 :: rest ->
  Database.seed_line cls line (State a f) = (Err AssertionError, State a f).
Proof.
  intros Ha Hf Hu Hc Ht Hn Hci Hh.
  rewrite (seed_line_unfold a f p db cls line _ _ _ _ cid Ha Hf Hu Hc).
  unfold exec_select. rewrite Ht. simpl default.
  rewrite has_cols_incl.
  2:{ intros c [Hin|Hin]%elem_of_app; [exact Hin|].
      simpl in Hin. apply elem_of_cons in Hin as [->|Hin]; [exact Hn|].
      apply elem_of_cons in Hin as [->|Hin]; [exact Hci|].
      now apply elem_of_nil in Hin. }
  simpl negb. cbv iota.
  unfold bind at 1. unfold fetchall, lift at 1. simpl c_rows.
  rewrite fetch_rows_map.
  change (List.filter _ (t_rows tsub))
    with (subclass_hits tsub (VText (target_subclass bs_subclass)) cid).
  rewrite Hh. reflexivity.
Qed.

(** C4: (1) Let seeding complete on a database whose [chem_class] and
    [chem_subclass] have [id] as their key and whose [chem_subclass] has no
    two rows with the same name and class.  For any two data lines with the
    same target class and target subclass, [chem_subclass] then holds
    exactly one row with that subclass name (after defaulting) under the id
    of that class, and the mapping rows of both lines carry the id of that
    row as their [subclass_id].  (2) When the lookup of the loop finds more
    than one row for the pair of a line, the loop stops at that line with
    [AssertionError], leaving the file as it is. *)
Theorem seeding_shares_subclass_rows :
  (forall (chem_class_map : string) (a : gmap string value)
          (f : gmap string database) (p : string) (db : database)
          (tclass tsub tmap : table) (st' : state)
          (i j : nat) (line_i line_j : string)
          (src_class_i src_i src_class_j src_j bs_class bs_subclass : string),
      a !! "db_path" = Some (VText p) ->
      f !! p = Some db ->
      db !! "chem_class" = Some tclass -> t_pk tclass = Some "id" ->
      db !! "chem_subclass" = Some tsub -> t_pk tsub = Some "id" ->
      unique_pairs tsub ->
      db !! "chem_subclass_map" = Some tmap ->
      Database.seed chem_class_map (State a f) = (Ok tt, st') ->
      Database.data_lines chem_class_map !! i = Some line_i ->
      Database.data_lines chem_class_map !! j = Some line_j ->
      Database.unpack_line line_i = Ok (src_class_i, src_i, bs_class, bs_subclass) ->
      Database.unpack_line line_j = Ok (src_class_j, src_j, bs_class, bs_subclass) ->
      exists db' tsub' tmap' news rc r row_i row_j,
        files st' !! p = Some db'
        /\ db' !! "chem_subclass" = Some tsub'
        /\ db' !! "chem_subclass_map" = Some tmap'
        /\ t_rows tmap' ≡ₚ t_rows tmap ++ news
        /\ rc ∈ t_rows tclass
        /\ cell tclass rc "name" = VText (target_class bs_class)
        /\ subclass_hits tsub' (VText (target_subclass bs_subclass)) (VInt (fst rc)) = [r]
        /\ news !! i = Some row_i /\ news !! j = Some row_j
        /\ snd row_i !! "class_source" = Some (VText src_class_i)
        /\ snd row_j !! "class_source" = Some (VText src_class_j)
        /\ snd row_i !! "subclass_id" = Some (cell tsub' r "id")
        /\ snd row_j !! "subclass_id" = Some (cell tsub' r "id"))
  /\ (forall (a : gmap string value) (f : gmap string database) (p : string)
             (db : database) (cls : list (value * value)) (line : string)
             (lines : list string)
             (src_class src bs_class bs_subclass : string) (cid : value)
             (tsub : table) (r1 r2 : Z * gmap string value)
             (rest : list (Z * gmap string value)),
         a !! "db_path" = Some (VText p) ->
         f !! p = Some db ->
         Database.unpack_line line = Ok (src_class, src, bs_class, bs_subclass) ->
         vdict_get cls (VText (target_class bs_class)) = Ok cid ->
         db !! "chem_subclass" = Some tsub ->
         "name" ∈ t_cols tsub -> "class_id" ∈ t_cols tsub ->
         subclass_hits tsub (VText (target_subclass bs_subclass)) cid = r1 :: r2 :: rest ->
         for_each (line :: lines) (Database.seed_line cls) (State a f)
         = (Err AssertionError, State a f)).
Proof.
  split.
  - intros chem a f p db tclass tsub tmap st' i j li lj sci si scj sj c sb
      Ha Hf Hc Hcpk Hs Hspk Hu Hm Hseed Hi Hj Hui Huj.
    apply (seed_ok _ a f p db) in Hseed as (cur & cls & db' & Hsel & Hload & -> & He);
      [|assumption..].
    pose proof (seed_classes db tclass cur cls Hc Hcpk Hsel Hload) as Hcls.
    assert (Hnn : forall k v, vdict_get cls k = Ok v -> v <> VNull).
    { intros k v Hk. destruct (Hcls k v Hk) as (rc & _ & _ & ->). discriminate. }
    destruct (lines_effect_subclass _ _ _ _ He Hnn tsub tmap Hs Hspk Hu Hm)
      as (tsub' & tmap' & news & Hs' & Hpk' & Hu' & _ & Hm' & Hperm & Hall).
    destruct (Forall2_lookup_l _ _ _ _ _ Hall Hi)
      as (mi & Hmi & (sc1 & s1 & c1 & sb1 & cid1 & r1 & Hu1 & Hc1 & Hr1 & Hh1 & Hsid1 & Hcs1 & _)).
    destruct (Forall2_lookup_l _ _ _ _ _ Hall Hj)
      as (mj & Hmj & (sc2 & s2 & c2 & sb2 & cid2 & r2 & Hu2 & Hc2 & Hr2 & Hh2 & Hsid2 & Hcs2 & _)).
    rewrite Hui in Hu1. injection Hu1 as <- <- <- <-.
    rewrite Huj in Hu2. injection Hu2 as <- <- <- <-.
    rewrite Hc1 in Hc2. injection Hc2 as <-.
    destruct (Hcls _ _ Hc1) as (rc & Hrc & Hname & ->).
    pose proof (filter_singleton _ _ r1 (Hu' (VText (target_subclass sb)) (VInt (fst rc)))
                  Hr1 Hh1) as Hone.
    pose proof (filter_singleton _ _ r2 (Hu' (VText (target_subclass sb)) (VInt (fst rc)))
                  Hr2 Hh2) as Htwo.
    rewrite Hone in Htwo. injection Htwo as <-.
    exists db', tsub', tmap', news, rc, r1, mi, mj.
    simpl files. rewrite lookup_insert_eq.
    rewrite (cell_pk tsub' r1 "id" Hpk').
    repeat split; auto.
  - intros a f p db cls line lines sc s c sb cid tsub r1 r2 rest
      Ha Hf Hu Hc Ht Hn Hci Hh.
    simpl for_each. apply bind_err.
    eapply seed_line_assertion; eauto.
Qed.

(** Two lines for (Polyketide, Type I) share one subclass row; a table
    holding that subclass twice stops the loop. *)
Lemma seeding_shares_subclass_rows_witness :
  (exists db' tsub' tmap' news rc r row_i row_j,
      files (snd (Database.seed tsv_shared (sample_state (sample_db "1.0.0"))))
        !! "bigslice.db" = Some db'
      /\ db' !! "chem_subclass" = Some tsub'
      /\ db' !! "chem_subclass_map" = Some tmap'
      /\ t_rows tmap' ≡ₚ t_rows sample_chem_subclass_map ++ news
      /\ rc ∈ t_rows sample_chem_class
      /\ cell sample_chem_class rc "name" = VText (target_class "Polyketide")
      /\ subclass_hits tsub' (VText (target_subclass "Type I")) (VInt (fst rc)) = [r]
      /\ news !! 0%nat = Some row_i /\ news !! 1%nat = Some row_j
      /\ snd row_i !! "class_source" = Some (VText "PKS")
      /\ snd row_j !! "class_source" = Some (VText "PKS")
      /\ snd row_i !! "subclass_id" = Some (cell tsub' r "id")
      /\ snd row_j !! "subclass_id" = Some (cell tsub' r "id"))
  /\ for_each [tsv_line ["PKS"; "t1pks"; "Polyketide"; "Type I"]]
       (Database.seed_line [(VText "Polyketide", VInt 1); (VText "Other", VInt 2)])
       (sample_state sample_db_corrupt)
     = (Err AssertionError, sample_state sample_db_corrupt).
Proof.
  destruct seeding_shares_subclass_rows as [Hshare Hassert]. split.
  - apply (Hshare tsv_shared
             (self_attrs (sample_state (sample_db "1.0.0")))
             (files (sample_state (sample_db "1.0.0")))
             "bigslice.db" (sample_db "1.0.0")
             sample_chem_class sample_chem_subclass sample_chem_subclass_map
             (snd (Database.seed tsv_shared (sample_state (sample_db "1.0.0"))))
             0%nat 1%nat
             (tsv_line ["PKS"; "t1pks"; "Polyketide"; "Type I"])
             (tsv_line ["PKS"; "transatpks"; "Polyketide"; "Type I"])
             "PKS" "t1pks" "PKS" "transatpks" "Polyketide" "Type I").
    + reflexivity.
    + reflexivity.
    + reflexivity.
    + reflexivity.
    + reflexivity.
    + reflexivity.
    + intros name cid. simpl. lia.
    + reflexivity.
    + vm_compute. reflexivity.
    + reflexivity.
    + reflexivity.
    + reflexivity.
    + reflexivity.
  - apply (Hassert (self_attrs (sample_state sample_db_corrupt))
             (files (sample_state sample_db_corrupt))
             "bigslice.db" sample_db_corrupt
             [(VText "Polyketide", VInt 1); (VText "Other", VInt 2)]
             (tsv_line ["PKS"; "t1pks"; "Polyketide"; "Type I"]) []
             "PKS" "t1pks" "Polyketide" "Type I" (VInt 1)
             (Table ["id"; "class_id"; "name"] (Some "id")
                [(1, subclass_cells (VText "Type I") (VInt 1));
                 (2, subclass_cells (VText "Type I") (VInt 1))])
             (1, subclass_cells (VText "Type I") (VInt 1))
             (2, subclass_cells (VText "Type I") (VInt 1)) []).
    + reflexivity.
    + reflexivity.
    + reflexivity.
    + reflexivity.
    + reflexivity.
    + apply (bool_decide_unpack _). vm_compute. exact I.
    + apply (bool_decide_unpack _). vm_compute. exact I.
    + vm_compute. reflexivity.
Defined.

(* ===================================================================== *)
(** * Lexing generated statements *)
(* ===================================================================== *)

Lemma lex_skip c s :
  is_word_char c = false -> is_sql_space c = true -> lex (String c s) = lex s.
Proof.
  intros Hw Hs. simpl. rewrite Hw, Hs. now destruct (lex s).
Qed.

Lemma lex_punct c t s :
  is_word_char c = false -> is_sql_space c = false -> punct c = Some t ->
  lex (String c s) = option_map (cons t) (lex s).
Proof.
  intros Hw Hs Hp. simpl. rewrite Hw, Hs, Hp. now destruct (lex s).
Qed.

Lemma lex_word_last c s :
  is_word_char c = true -> starts_word s = false ->
  lex (String c s) = option_map (cons (TWord (String c ""))) (lex s).
Proof.
  intros Hw Hs. simpl. rewrite Hw, Hs.
  destruct (lex s) as [[|[] ts]|]; reflexivity.
Qed.

Lemma lex_word_more c w s ts :
  is_word_char c = true -> starts_word s = true ->
  lex s = Some (TWord w :: ts) ->
  lex (String c s) = Some (TWord (String c w) :: ts).
Proof.
  intros Hw Hs Hl. simpl. now rewrite Hl, Hw, Hs.
Qed.

(** A word followed by something that cannot continue it is one token. *)
Lemma lex_word w rest :
  w <> "" -> all_word_chars w = true -> starts_word rest = false ->
  lex (w +:+ rest) = option_map (cons (TWord w)) (lex rest).
Proof.
  induction w as [|c w IH]; intros Hne Hall Hrest; [congruence|].
  simpl in Hall. apply andb_true_iff in Hall as [Hc Hall].
  rewrite app_String. destruct w as [|c' w].
  - rewrite app_empty_l. now apply lex_word_last.
  - assert (Hs : starts_word (String c' w +:+ rest) = true).
    { rewrite app_String. simpl in *. now apply andb_true_iff in Hall as [-> _]. }
    specialize (IH ltac:(discriminate) Hall Hrest).
    destruct (lex rest) as [ts|] eqn:Hl; simpl in IH.
    + now apply lex_word_more.
    + simpl. now rewrite IH.
Qed.

Lemma ident_word w : ident w = true -> w <> "" /\ all_word_chars w = true /\ is_name w = true.
Proof.
  unfold ident. intros [Hn Ha]%andb_true_iff. repeat split; auto.
  intros ->. discriminate.
Qed.

Lemma lex_ident w rest :
  ident w = true -> starts_word rest = false ->
  lex (w +:+ rest) = option_map (cons (TWord w)) (lex rest).
Proof. intros (Hne & Ha & _)%ident_word Hr. now apply lex_word. Qed.

(* ===================================================================== *)
(** * [select] *)
(* ===================================================================== *)

(** A call of [query] that returns has run its statement on some content
    of the bound file. *)
Lemma query_ok sql ps st cur st' :
  Database.query sql ps st = (Ok cur, st') ->
  exists db bs db', sqlite3_execute sql bs db = Ok (cur, db').
Proof.
  unfold Database.query, bind, getattr.
  destruct (self_attrs st !! "db_path") as [[| |p]|]; simpl; try discriminate.
  unfold execute_sql, bind, sqlite3_connect, cursor_execute.
  destruct (files st !! p) as [db|] eqn:Hf; simpl.
  - destruct (truthy ps); rewrite Hf;
      destruct (sqlite3_execute sql _ db) as [[c db']|e] eqn:He;
      intros [= <- <-]; eauto.
  - destruct (truthy ps); simpl; rewrite lookup_insert_eq;
      destruct (sqlite3_execute sql _ ∅) as [[c db']|e] eqn:He;
      intros [= <- <-]; eauto.
Qed.

Lemma lex_select_a rest :
  lex ("SELECT a FROM " +:+ rest)
  = option_map (fun ts => TWord "SELECT" :: TWord "a" :: TWord "FROM" :: ts) (lex rest).
Proof.
  change ("SELECT a FROM " +:+ rest)
    with ("SELECT" +:+ String " " ("a" +:+ String " " ("FROM" +:+ String " " rest))).
  rewrite lex_word by (discriminate || reflexivity).
  rewrite lex_skip by reflexivity.
  rewrite lex_word by (discriminate || reflexivity).
  rewrite lex_skip by reflexivity.
  rewrite lex_word by (discriminate || reflexivity).
  rewrite lex_skip by reflexivity.
  destruct (lex rest); reflexivity.
Qed.

Lemma parse_tokens_select_a ts stmt :
  parse_tokens (TWord "SELECT" :: TWord "a" :: TWord "FROM" :: ts) = Some stmt ->
  exists tbl cs, stmt = SSelect (Some ["a"]) tbl cs.
Proof.
  change (parse_tokens (TWord "SELECT" :: TWord "a" :: TWord "FROM" :: ts))
    with (parse_from (Some ["a"]) (TWord "FROM" :: ts)).
  unfold parse_from.
  destruct ts as [|[w| | | | | | ] ts]; try discriminate.
  change (is_kw "FROM" (TWord "FROM")) with true. cbv beta iota delta [andb].
  destruct (is_name w); [|discriminate].
  destruct (parse_where ts) as [cs|]; [|discriminate].
  intros [= <-]. eauto.
Qed.

(** Whatever follows [SELECT a FROM], a statement that parses selects the
    one column [a]. *)
Lemma parse_select_a rest stmt :
  parse_sql ("SELECT a FROM " +:+ rest) = Some stmt ->
  exists tbl cs, stmt = SSelect (Some ["a"]) tbl cs.
Proof.
  unfold parse_sql. rewrite lex_select_a.
  destruct (lex rest) as [ts|]; [|discriminate].
  apply parse_tokens_select_a.
Qed.

(** C6: (1) for every table, clause and list of properties, the statement
    that [select] passes on to [query] is exactly
    [SELECT <props|*> FROM <table> <clause>]: [*] for the empty list, the
    names joined by commas otherwise.  (2) With [props = ["a"]], on a table
    of the bound file that declares a column [a], with a clause that is
    empty or a conjunction of comparisons [col=?] of declared columns, every
    row of a call that returns is a dictionary whose only key is [a], and
    its value is the cell of a row of the table in that column. *)
Theorem select_builds_statement :
  (forall (table clause : string) (props : list string) (ps : params) (st : state),
      Database.select_sql table clause props
      = "SELECT " +:+ match props with
                      | [] => "*"
                      | _ :: _ => join "," props
                      end +:+ " FROM " +:+ table +:+ " " +:+ clause
      /\ Database.select table clause ps props st
         = Database.query
             ("SELECT " +:+ match props with
                            | [] => "*"
                            | _ :: _ => join "," props
                            end +:+ " FROM " +:+ table +:+ " " +:+ clause) ps st)
  /\ (forall (a : gmap string value) (f : gmap string database) (p : string)
             (db : database) (t : table) (table clause : string) (ps : params)
             (st' : state) (cur : cursor),
         a !! "db_path" = Some (VText p) ->
         f !! p = Some db ->
         db !! table = Some t ->
         plain_select db table clause ["a"] = true ->
         Database.select table clause ps ["a"] (State a f) = (Ok cur, st') ->
         exists rows,
           fetchall cur st' = (Ok rows, st')
           /\ Forall (fun row => List.map fst row = ["a"]) rows
           /\ Forall (fun row => exists r, r ∈ t_rows t
                                           /\ row = [("a", cell t r "a")]) rows).
Proof.
  split.
  - intros table clause props ps st.
    assert (H : Database.select_sql table clause props
                = "SELECT " +:+ match props with
                                | [] => "*"
                                | _ :: _ => join "," props
                                end +:+ " FROM " +:+ table +:+ " " +:+ clause)
      by (destruct props; reflexivity).
    split; [exact H|]. unfold Database.select. now rewrite H.
  - intros a f p db t table clause ps st' cur Ha Hf Ht Hplain Hsel.
    unfold plain_select in Hplain. rewrite Ht in Hplain.
    destruct (parse_sql (Database.select_sql table clause ["a"])) as [stmt|] eqn:Hp;
      [|discriminate].
    pose proof Hp as Hp'.
    change (Database.select_sql table clause ["a"])
      with ("SELECT a FROM " +:+ (table +:+ " " +:+ clause)) in Hp'.
    apply parse_select_a in Hp' as (tbl & cs & ->).
    apply andb_true_iff in Hplain as [[Htbl%bool_decide_eq_true_1 _]%andb_true_iff _].
    subst tbl.
    rewrite (select_run a f p db _ _ _ _ _ _ _ Ha Hf Hp) in Hsel.
    destruct (exec_select _ _ _ _ db) as [c|e] eqn:Hs; [|discriminate].
    injection Hsel as <- <-.
    apply exec_select_ok in Hs as (t' & Ht' & Hc & ->).
    rewrite Ht in Ht'. injection Ht' as <-.
    unfold fetchall, lift. cbn [c_rows default]. rewrite fetch_rows_map.
    eexists. split; [reflexivity|]. split.
    + apply List.Forall_forall. intros row (r & <- & _)%in_map_iff. reflexivity.
    + apply List.Forall_forall. intros row (r & <- & Hr)%in_map_iff.
      exists r. split; [|reflexivity].
      apply list_elem_of_In. now apply filter_In in Hr as [Hr _].
Qed.

(** The specification's example: property [a] of the row with id 1. *)
Lemma select_builds_statement_witness :
  (Database.select_sql "t" "WHERE id=?" ["a"] = "SELECT a FROM t WHERE id=?"
   /\ Database.select "t" "WHERE id=?" (PTuple [VInt 1]) ["a"] (sample_state sample_t_db)
      = Database.query "SELECT a FROM t WHERE id=?" (PTuple [VInt 1])
          (sample_state sample_t_db))
  /\ exists rows,
       fetchall (Cursor ["a"] [[VInt 7]] VNull) (sample_state sample_t_db)
       = (Ok rows, sample_state sample_t_db)
       /\ Forall (fun row => List.map fst row = ["a"]) rows
       /\ Forall (fun row => exists r, r ∈ t_rows sample_t
                                       /\ row = [("a", cell sample_t r "a")]) rows.
Proof.
  destruct select_builds_statement as [Hsql Hrows]. split.
  - apply (Hsql "t" "WHERE id=?" ["a"] (PTuple [VInt 1]) (sample_state sample_t_db)).
  - apply (Hrows (self_attrs (sample_state sample_t_db))
             (files (sample_state sample_t_db)) "bigslice.db" sample_t_db sample_t
             "t" "WHERE id=?" (PTuple [VInt 1])).
    + reflexivity.
    + reflexivity.
    + reflexivity.
    + vm_compute. reflexivity.
    + vm_compute. reflexivity.
Defined.

(* ===================================================================== *)
(** * Parsing the statement of [insert] *)
(* ===================================================================== *)

Lemma join_cons2 sep x y l :
  join sep (x :: y :: l) = x +:+ sep +:+ join sep (y :: l).
Proof. reflexivity. Qed.

Lemma lex_names keys rest :
  keys <> [] -> forallb ident keys = true -> starts_word rest = false ->
  lex (join "," keys +:+ rest) = option_map (app (names_tokens keys)) (lex rest).
Proof.
  induction keys as [|k keys IH]; intros Hne Hall Hrest; [congruence|].
  simpl in Hall. apply andb_true_iff in Hall as [Hk Hall].
  destruct keys as [|k' keys].
  - change (join "," [k]) with k. rewrite lex_ident by assumption.
    destruct (lex rest); reflexivity.
  - rewrite join_cons2, !app_assoc_s.
    change ("," +:+ (join "," (k' :: keys) +:+ rest))
      with (String "," (join "," (k' :: keys) +:+ rest)).
    rewrite lex_ident by (assumption || reflexivity).
    rewrite (lex_punct _ TComma) by reflexivity.
    rewrite IH by (assumption || discriminate).
    destruct (lex rest); reflexivity.
Qed.

Lemma lex_qmarks {A : Type} (l : list A) rest :
  l <> [] ->
  lex (join "," (List.map (fun _ => "?") l) +:+ rest)
  = option_map (app (qmark_tokens (List.length l))) (lex rest).
Proof.
  induction l as [|x l IH]; intros Hne; [congruence|].
  destruct l as [|y l].
  - change (join "," (List.map (fun _ => "?") [x]) +:+ rest) with (String "?" rest).
    rewrite (lex_punct _ TQMark) by reflexivity.
    destruct (lex rest); reflexivity.
  - change (List.map (fun _ : A => "?") (x :: y :: l))
      with ("?" :: List.map (fun _ : A => "?") (y :: l)).
    change (List.map (fun _ : A => "?") (y :: l))
      with ("?" :: List.map (fun _ : A => "?") l) at 1.
    rewrite join_cons2, !app_assoc_s.
    change ("?" +:+ ("," +:+ (join "," ("?" :: List.map (fun _ : A => "?") l) +:+ rest)))
      with (String "?" (String "," (join "," (List.map (fun _ : A => "?") (y :: l)) +:+ rest))).
    rewrite (lex_punct _ TQMark) by reflexivity.
    rewrite (lex_punct _ TComma) by reflexivity.
    rewrite IH by discriminate.
    destruct (lex rest); reflexivity.
Qed.

Lemma parse_names_tokens keys rest :
  keys <> [] -> forallb is_name keys = true ->
  parse_names (names_tokens keys ++ TRParen :: rest) = Some (keys, TRParen :: rest).
Proof.
  induction keys as [|k keys IH]; intros Hne Hall; [congruence|].
  simpl in Hall. apply andb_true_iff in Hall as [Hk Hall].
  destruct keys as [|k' keys].
  - simpl. now rewrite Hk.
  - change (names_tokens (k :: k' :: keys) ++ TRParen :: rest)
      with (TWord k :: TComma :: (names_tokens (k' :: keys) ++ TRParen :: rest)).
    cbn [parse_names]. rewrite Hk.
    now rewrite IH by (assumption || discriminate).
Qed.

Lemma parse_qmark_tokens n :
  parse_qmarks (qmark_tokens (S n) ++ [TRParen]) = Some (S n, [TRParen]).
Proof.
  induction n as [|n IH]; [reflexivity|].
  change (qmark_tokens (S (S n)) ++ [TRParen])
    with (TQMark :: TComma :: (qmark_tokens (S n) ++ [TRParen])).
  cbn [parse_qmarks]. now rewrite IH.
Qed.

Lemma forallb_ident_name keys :
  forallb ident keys = true -> forallb is_name keys = true.
Proof.
  induction keys as [|k keys IH]; simpl; [reflexivity|].
  intros [Hk Hall]%andb_true_iff. apply ident_word in Hk as (_ & _ & ->). auto.
Qed.

Lemma qmarks_seq {A : Type} (l : list A) s :
  List.map (fun _ => "?") (seq s (List.length l)) = List.map (fun _ => "?") l.
Proof.
  revert s. induction l as [|x l IH]; intros s; simpl; [reflexivity|].
  now rewrite IH.
Qed.

(** The text of the statement that [insert] formats. *)
Lemma insert_sql_text table (data : dict) :
  Database.insert_sql table data
  = "INSERT INTO " +:+ table +:+ "(" +:+ join "," (List.map fst data)
      +:+ ") VALUES (" +:+ join "," (List.map (fun _ => "?") data) +:+ ")".
Proof.
  unfold Database.insert_sql. now rewrite qmarks_seq, List.map_map.
Qed.

(** With names that can be written as they are, the statement of
    [insert] is the insertion of one bound value per column of [data]. *)
Lemma parse_insert_sql table (data : dict) :
  ident table = true -> data <> [] -> forallb ident (List.map fst data) = true ->
  parse_sql (Database.insert_sql table data)
  = Some (SInsert table (List.map fst data) (List.length data)).
Proof.
  intros Ht Hne Hkeys. rewrite insert_sql_text. unfold parse_sql.
  change ("INSERT INTO " +:+ table +:+ "(" +:+ join "," (List.map fst data)
            +:+ ") VALUES (" +:+ join "," (List.map (fun _ => "?") data) +:+ ")")
    with ("INSERT" +:+ String " " ("INTO" +:+ String " "
            (table +:+ String "(" (join "," (List.map fst data)
               +:+ String ")" (String " " ("VALUES" +:+ String " " (String "("
                   (join "," (List.map (fun _ => "?") data) +:+ ")")))))))).
  rewrite lex_word by (discriminate || reflexivity).
  rewrite lex_skip by reflexivity.
  rewrite lex_word by (discriminate || reflexivity).
  rewrite lex_skip by reflexivity.
  rewrite lex_ident by (assumption || reflexivity).
  rewrite (lex_punct _ TLParen) by reflexivity.
  rewrite lex_names; [|destruct data; [congruence | discriminate] | assumption | reflexivity].
  rewrite (lex_punct _ TRParen) by reflexivity.
  rewrite lex_skip by reflexivity.
  rewrite lex_word by (discriminate || reflexivity).
  rewrite lex_skip by reflexivity.
  rewrite (lex_punct _ TLParen) by reflexivity.
  rewrite lex_qmarks by assumption.
  change (lex ")") with (Some [TRParen]).
  cbn [option_map].
  apply ident_word in Ht as (_ & _ & Ht).
  change (parse_tokens (TWord "INSERT" :: TWord "INTO" :: TWord table :: TLParen :: ?x))
    with (parse_insert (TWord "INTO" :: TWord table :: TLParen :: x)).
  unfold parse_insert.
  change (is_kw "INTO" (TWord "INTO")) with true. rewrite Ht. cbn [andb].
  rewrite parse_names_tokens;
    [|destruct data; [congruence | discriminate] | now apply forallb_ident_name].
  change (is_kw "VALUES" (TWord "VALUES")) with true. cbv iota.
  destruct data as [|d data]; [congruence|].
  cbn [List.length]. rewrite parse_qmark_tokens.
  reflexivity.
Qed.

(** The statement that selects a row by its key. *)
Lemma parse_select_by_key table pk :
  ident table = true -> ident pk = true ->
  parse_sql (Database.select_sql table ("WHERE " +:+ pk +:+ "=?") [])
  = Some (SSelect None table [CEqParam pk]).
Proof.
  intros Ht Hpk. unfold parse_sql.
  change (Database.select_sql table ("WHERE " +:+ pk +:+ "=?") [])
    with ("SELECT" +:+ String " " (String "*" (String " " ("FROM" +:+ String " "
            (table +:+ String " " ("WHERE" +:+ String " " (pk +:+ "=?"))))))).
  rewrite lex_word by (discriminate || reflexivity).
  rewrite lex_skip by reflexivity.
  rewrite (lex_punct _ TStar) by reflexivity.
  rewrite lex_skip by reflexivity.
  rewrite lex_word by (discriminate || reflexivity).
  rewrite lex_skip by reflexivity.
  rewrite lex_ident by (assumption || reflexivity).
  rewrite lex_skip by reflexivity.
  rewrite lex_word by (discriminate || reflexivity).
  rewrite lex_skip by reflexivity.
  rewrite lex_ident by (assumption || reflexivity).
  change (lex "=?") with (Some [TEq; TQMark]).
  cbn [option_map].
  apply ident_word in Ht as (_ & _ & Ht). apply ident_word in Hpk as (_ & _ & Hpk).
  change (parse_tokens (TWord "SELECT" :: TStar :: ?x)) with (parse_from None x).
  unfold parse_from.
  change (is_kw "FROM" (TWord "FROM")) with true. rewrite Ht. cbn [andb].
  unfold parse_where.
  change (is_kw "WHERE" (TWord "WHERE")) with true. cbv iota.
  cbn [List.length parse_conds parse_cond]. now rewrite Hpk.
Qed.

(* ===================================================================== *)
(** * The row of an insert *)
(* ===================================================================== *)

Lemma zip_fst_snd_map {A B : Type} (l : list (A * B)) :
  zip (List.map fst l) (List.map snd l) = l.
Proof. induction l as [|[a b] l IH]; simpl; [reflexivity | now rewrite IH]. Qed.

Lemma rowid_le_max (r0 : Z * gmap string value) rs x :
  x ∈ r0 :: rs -> fst x <= foldr Z.max (fst r0) (List.map fst rs).
Proof.
  induction rs as [|r rs IH]; simpl.
  - intros ->%list_elem_of_singleton. lia.
  - intros [->|[->|Hin]%elem_of_cons]%elem_of_cons.
    + assert (fst r0 <= foldr Z.max (fst r0) (List.map fst rs))
        by (apply IH, list_elem_of_here). lia.
    + lia.
    + assert (fst x <= foldr Z.max (fst r0) (List.map fst rs))
        by (apply IH; now apply list_elem_of_further). lia.
Qed.

(** The rowid of an insert without key is larger than every rowid in
    use. *)
Lemma next_rowid_fresh rows r : r ∈ rows -> fst r < next_rowid rows.
Proof.
  destruct rows as [|r0 rs]; [now intros ?%elem_of_nil|].
  intros H%rowid_le_max. simpl. lia.
Qed.

Lemma filter_insert_row_only (q : Z * gmap string value -> bool) new rows :
  q new = true -> (forall r, r ∈ rows -> q r = false) ->
  List.filter q (insert_row new rows) = [new].
Proof.
  intros Hnew. induction rows as [|r rows IH]; intros Hold; simpl.
  - now rewrite Hnew.
  - assert (Hr : q r = false) by apply Hold, list_elem_of_here.
    assert (IH' : List.filter q (insert_row new rows) = [new]).
    { apply IH. intros x Hx. now apply Hold, list_elem_of_further. }
    assert (Hrs : List.filter q rows = []).
    { clear -Hold. induction rows as [|x rows IHr]; [reflexivity|]. simpl.
      rewrite (Hold x) by (apply list_elem_of_further, list_elem_of_here).
      apply IHr. intros y [->|Hy]%elem_of_cons.
      - apply Hold, list_elem_of_here.
      - apply Hold. now do 2 apply list_elem_of_further. }
    destruct (fst new <? fst r); simpl.
    + now rewrite Hnew, Hr, Hrs.
    + now rewrite Hr.
Qed.

Lemma choose_rowid_auto t pk (given : gmap string value) :
  t_pk t = Some pk -> given !! pk = None ->
  choose_rowid t given = Ok (next_rowid (t_rows t)).
Proof. intros Hpk Hg. unfold choose_rowid. now rewrite Hpk, Hg. Qed.

(** An insert of [data] that names no key, into a table that has the
    columns: the row gets the next rowid. *)
Lemma exec_insert_auto (db : database) table t pk (data : dict) :
  db !! table = Some t -> t_pk t = Some pk ->
  (forall k, k ∈ List.map fst data -> k ∈ t_cols t /\ k <> pk) ->
  exec_insert table (List.map fst data) (List.length data) (List.map snd data) db
  = Ok (Cursor [] [] (VInt (next_rowid (t_rows t))),
        add_row table t (next_rowid (t_rows t), list_to_map data) db).
Proof.
  intros Ht Hpk Hkeys. unfold exec_insert. rewrite Ht.
  rewrite has_cols_incl by (intros c Hc; now apply Hkeys).
  rewrite !length_map, Nat.eqb_refl. simpl negb. cbv iota.
  rewrite zip_fst_snd_map.
  rewrite (choose_rowid_auto t pk); [reflexivity | exact Hpk |].
  apply not_elem_of_list_to_map_1.
  intros Hin. now destruct (Hkeys pk Hin).
Qed.

(** Selecting by the key value of the new row yields that row alone. *)
Lemma exec_select_new_row (db : database) table t pk m :
  t_pk t = Some pk -> pk ∈ t_cols t ->
  exec_select None table [CEqParam pk] [VInt (next_rowid (t_rows t))]
    (add_row table t (next_rowid (t_rows t), m) db)
  = Ok (Cursor (t_cols t)
          [List.map (cell t (next_rowid (t_rows t), m)) (t_cols t)] VNull).
Proof.
  intros Hpk Hcol. unfold exec_select. rewrite add_row_lookup.
  cbn [default t_cols cond_cols].
  rewrite has_cols_incl.
  2:{ cbn [t_cols]. intros c [Hc|Hc]%elem_of_app; [exact Hc|].
      apply list_elem_of_singleton in Hc as ->. exact Hcol. }
  simpl negb. cbv iota. cbn [t_rows].
  rewrite filter_insert_row_only.
  - reflexivity.
  - cbn [eval_conds]. rewrite cell_pk by exact Hpk. simpl.
    rewrite bool_decide_eq_true_2; reflexivity.
  - intros r Hr. cbn [eval_conds]. rewrite cell_pk by exact Hpk.
    apply next_rowid_fresh in Hr. simpl.
    rewrite bool_decide_eq_false_2; [reflexivity|].
    intros [= H]. lia.
Qed.

(* ===================================================================== *)
(** * [insert] *)
(* ===================================================================== *)

(** C5: (1) for every table name and data mapping, [insert] passes to
    [query] the statement [INSERT INTO <table>(<cols>) VALUES (<?,...>)]
    whose columns are the keys of the mapping in iteration order, one
    placeholder per entry, together with the values in the same order as
    parameters, and returns the cursor's [lastrowid].  (2) When the table
    exists with key column [pk], the mapping is not empty and names
    columns of the table other than the key (all names writable as they
    are, the key one that reads as a column in a comparison), its integers
    have 64 bits and the table has a rowid left after its largest, the
    call returns the rowid that the new row received,
    which no other row has, and a [select] on that id then yields exactly
    one row, which holds the id and every inserted value. *)
Theorem insert_returns_new_rowid :
  (forall (table : string) (data : dict) (st : state),
      Database.insert_sql table data
      = "INSERT INTO " +:+ table +:+ "(" +:+ join "," (List.map fst data)
          +:+ ") VALUES (" +:+ join "," (List.map (fun _ => "?") data) +:+ ")"
      /\ Database.insert table data st
         = (let* query :=
              Database.query
                ("INSERT INTO " +:+ table +:+ "(" +:+ join "," (List.map fst data)
                   +:+ ") VALUES (" +:+ join "," (List.map (fun _ => "?") data) +:+ ")")
                (PTuple (List.map snd data)) in
            ret (lastrowid query)) st)
  /\ (forall (a : gmap string value) (f : gmap string database) (p : string)
             (db : database) (t : table) (table : string) (pk : string)
             (data : dict),
         a !! "db_path" = Some (VText p) ->
         f !! p = Some db ->
         db !! table = Some t ->
         ident table = true ->
         t_pk t = Some pk -> column_name pk = true -> pk ∈ t_cols t ->
         data <> [] ->
         NoDup (List.map fst data) ->
         (forall k, k ∈ List.map fst data -> ident k = true /\ k ∈ t_cols t /\ k <> pk) ->
         forallb bindable (List.map snd data) = true ->
         int64 (next_rowid (t_rows t)) = true ->
         Database.insert table data (State a f)
         = (Ok (VInt (next_rowid (t_rows t))),
            State a (<[p := add_row table t (next_rowid (t_rows t), list_to_map data) db]> f))
         /\ (forall r, r ∈ t_rows t -> fst r <> next_rowid (t_rows t))
         /\ exists row,
              (let* cur := Database.select table ("WHERE " +:+ pk +:+ "=?")
                             (PTuple [VInt (next_rowid (t_rows t))]) [] in
               fetchall cur)
                (State a (<[p := add_row table t
                                   (next_rowid (t_rows t), list_to_map data) db]> f))
              = (Ok [row],
                 State a (<[p := add_row table t
                                   (next_rowid (t_rows t), list_to_map data) db]> f))
              /\ dict_getitem row pk = Ok (VInt (next_rowid (t_rows t)))
              /\ forall k v, (k, v) ∈ data -> dict_getitem row k = Ok v).
Proof.
  split.
  - intros table data st. split; [apply insert_sql_text|].
    unfold Database.insert. now rewrite insert_sql_text.
  - intros a f p db t table pk data Ha Hf Ht Hid Hpk Hpkid Hpkcol Hne Hnd Hkeys _ _.
    apply andb_true_iff in Hpkid as [Hpkid _].
    assert (Hall : forallb ident (List.map fst data) = true).
    { apply forallb_forall. intros k Hk%list_elem_of_In. now apply Hkeys. }
    split; [|split].
    + rewrite (insert_run a f p db table data _ _ _ Ha Hf
                 (parse_insert_sql table data Hid Hne Hall)).
      rewrite (exec_insert_auto db table t pk data Ht Hpk); [reflexivity|].
      intros k Hk. now apply Hkeys.
    + intros r Hr%next_rowid_fresh. lia.
    + set (id := next_rowid (t_rows t)).
      set (db1 := add_row table t (id, list_to_map data) db).
      exists (row_dict (cell t (id, list_to_map data)) (t_cols t) []).
      split; [|split].
      * unfold bind.
        rewrite (select_run a (<[p := db1]> f) p db1 _ _ _ _ _ _ _ Ha
                   (lookup_insert_eq _ _ _) (parse_select_by_key table pk Hid Hpkid)).
        simpl truthy. cbv iota. simpl bindings.
        unfold db1, id. rewrite (exec_select_new_row db table t pk _ Hpk Hpkcol).
        unfold fetchall, lift. cbn [c_rows fetch_rows].
        now rewrite dict_factory_map.
      * unfold dict_getitem. rewrite assoc_get_row_dict.
        rewrite bool_decide_eq_true_2 by exact Hpkcol.
        now rewrite cell_pk.
      * intros k v Hkv.
        assert (Hk : k ∈ List.map fst data).
        { apply list_elem_of_In, in_map_iff. exists (k, v).
          split; [reflexivity | now apply list_elem_of_In]. }
        destruct (Hkeys k Hk) as (_ & Hcol & Hne').
        unfold dict_getitem. rewrite assoc_get_row_dict.
        rewrite bool_decide_eq_true_2 by exact Hcol.
        rewrite cell_other by (rewrite Hpk; congruence). cbn [snd].
        now rewrite (elem_of_list_to_map_1 data k v Hnd Hkv).
Qed.

(** The specification's example: [insert("t", {"a": 1, "b": "x"})] into
    [t(id INTEGER PRIMARY KEY, a, b)], which already holds row 1. *)
Lemma insert_returns_new_rowid_witness :
  (Database.insert_sql "t" [("a", VInt 1); ("b", VText "x")]
   = "INSERT INTO t(a,b) VALUES (?,?)"
   /\ Database.insert "t" [("a", VInt 1); ("b", VText "x")] (sample_state sample_t_db)
      = (let* query :=
           Database.query "INSERT INTO t(a,b) VALUES (?,?)"
             (PTuple [VInt 1; VText "x"]) in
         ret (lastrowid query)) (sample_state sample_t_db))
  /\ (Database.insert "t" [("a", VInt 1); ("b", VText "x")] (sample_state sample_t_db)
      = (Ok (VInt 2),
         State (self_attrs (sample_state sample_t_db))
           (<["bigslice.db" :=
                add_row "t" sample_t
                  (2, list_to_map [("a", VInt 1); ("b", VText "x")]) sample_t_db]>
              (files (sample_state sample_t_db))))
      /\ (forall r, r ∈ t_rows sample_t -> fst r <> 2)
      /\ exists row,
           (let* cur := Database.select "t" "WHERE id=?" (PTuple [VInt 2]) [] in
            fetchall cur)
             (State (self_attrs (sample_state sample_t_db))
                (<["bigslice.db" :=
                     add_row "t" sample_t
                       (2, list_to_map [("a", VInt 1); ("b", VText "x")]) sample_t_db]>
                   (files (sample_state sample_t_db))))
           = (Ok [row],
              State (self_attrs (sample_state sample_t_db))
                (<["bigslice.db" :=
                     add_row "t" sample_t
                       (2, list_to_map [("a", VInt 1); ("b", VText "x")]) sample_t_db]>
                   (files (sample_state sample_t_db))))
           /\ dict_getitem row "id" = Ok (VInt 2)
           /\ forall k v, (k, v) ∈ [("a", VInt 1); ("b", VText "x")] ->
                          dict_getitem row k = Ok v).
Proof.
  destruct insert_returns_new_rowid as [Hsql Hrow]. split.
  - apply (Hsql "t" [("a", VInt 1); ("b", VText "x")] (sample_state sample_t_db)).
  - apply (Hrow (self_attrs (sample_state sample_t_db))
             (files (sample_state sample_t_db)) "bigslice.db" sample_t_db
             sample_t "t" "id" [("a", VInt 1); ("b", VText "x")]).
    + reflexivity.
    + reflexivity.
    + reflexivity.
    + reflexivity.
    + reflexivity.
    + reflexivity.
    + apply (bool_decide_unpack _). vm_compute. exact I.
    + discriminate.
    + apply (bool_decide_unpack _). vm_compute. exact I.
    + intros k Hk. simpl in Hk.
      apply elem_of_cons in Hk as [->|Hk];
        [|apply elem_of_cons in Hk as [->|Hk]; [|now apply elem_of_nil in Hk]].
      * repeat split; [apply (bool_decide_unpack _); vm_compute; exact I | discriminate].
      * repeat split; [apply (bool_decide_unpack _); vm_compute; exact I | discriminate].
    + reflexivity.
    + reflexivity.
Defined.

(* ===================================================================== *)
(** * The attributes that construction binds *)
(* ===================================================================== *)

Lemma keeps_ret {A : Type} (x : A) : keeps_attrs (ret x).
Proof. intros st. reflexivity. Qed.

Lemma keeps_raise {A : Type} e : keeps_attrs (@raise A e).
Proof. intros st. reflexivity. Qed.

Lemma keeps_lift {A : Type} (r : result A) : keeps_attrs (lift r).
Proof. intros st. reflexivity. Qed.

Lemma keeps_bind {A B : Type} (m : M A) (k : A -> M B) :
  keeps_attrs m -> (forall x, keeps_attrs (k x)) -> keeps_attrs (bind m k).
Proof.
  intros Hm Hk st. unfold bind. specialize (Hm st).
  destruct (m st) as [[x|e] st1]; simpl in *; [|exact Hm].
  now rewrite Hk.
Qed.

Lemma keeps_getattr name : keeps_attrs (getattr name).
Proof. intros st. unfold getattr. now destruct (self_attrs st !! name). Qed.

Lemma keeps_as_str v : keeps_attrs (as_str v).
Proof. destruct v; [apply keeps_raise | apply keeps_raise | apply keeps_ret]. Qed.

Lemma keeps_path_exists p : keeps_attrs (path_exists p).
Proof. intros st. reflexivity. Qed.

Lemma keeps_connect p : keeps_attrs (sqlite3_connect p).
Proof. intros st. unfold sqlite3_connect. now destruct (files st !! p). Qed.

Lemma keeps_execute_sql sql p ps : keeps_attrs (execute_sql sql p ps).
Proof. intros st. apply execute_sql_attrs. Qed.

Lemma keeps_query sql ps : keeps_attrs (Database.query sql ps).
Proof. intros st. apply query_attrs. Qed.

Lemma keeps_select t cl ps props : keeps_attrs (Database.select t cl ps props).
Proof. apply keeps_query. Qed.

Lemma keeps_insert t data : keeps_attrs (Database.insert t data).
Proof. intros st. apply insert_attrs. Qed.

Lemma keeps_fetchall cur : keeps_attrs (fetchall cur).
Proof. apply keeps_lift. Qed.

Lemma keeps_py_next cur : keeps_attrs (py_next cur).
Proof. unfold py_next. destruct (c_rows cur); [apply keeps_raise | apply keeps_lift]. Qed.

Lemma keeps_for_each {A : Type} (l : list A) (body : A -> M unit) :
  (forall x, keeps_attrs (body x)) -> keeps_attrs (for_each l body).
Proof.
  intros Hb. induction l as [|x l IH]; simpl; [apply keeps_ret|].
  apply keeps_bind; auto.
Qed.

Lemma keeps_seed_line cls line : keeps_attrs (Database.seed_line cls line).
Proof.
  unfold Database.seed_line.
  apply keeps_bind; [apply keeps_lift|]. intros [[[src_class src] bs_class] bs_subclass].
  apply keeps_bind; [apply keeps_lift|]. intros cid.
  apply keeps_bind; [apply keeps_select|]. intros cur.
  apply keeps_bind; [apply keeps_fetchall|]. intros existing.
  apply keeps_bind.
  - destruct existing as [|first [|second rest]];
      [apply keeps_insert | apply keeps_lift | apply keeps_raise].
  - intros sid. apply keeps_bind; [apply keeps_insert|]. intros _. apply keeps_ret.
Qed.

Lemma keeps_seed chem : keeps_attrs (Database.seed chem).
Proof.
  unfold Database.seed.
  apply keeps_bind; [apply keeps_select|]. intros cur.
  apply keeps_bind; [apply keeps_lift|]. intros cls.
  apply keeps_for_each. intros line. apply keeps_seed_line.
Qed.

Lemma keeps_executescript exec p script :
  keeps_attrs (Database.cursor_executescript exec p script).
Proof.
  intros st. unfold Database.cursor_executescript.
  destruct (files st !! p) as [db|]; [|reflexivity].
  now destruct (exec script db).
Qed.

Lemma bind_setattr {B : Type} name v (k : unit -> M B) st :
  bind (setattr name v) k st
  = k tt (State (<[name := v]> (self_attrs st)) (files st)).
Proof. reflexivity. Qed.

Lemma bind_lift_ok {A B : Type} (x : A) (k : A -> M B) st :
  bind (lift (Ok x)) k st = k x st.
Proof. reflexivity. Qed.

Lemma bind_lift_err {A B : Type} e (k : A -> M B) st :
  bind (lift (Err e)) k st = (Err e, st).
Proof. reflexivity. Qed.

Lemma bind_getattr {B : Type} name v (k : value -> M B) st :
  self_attrs st !! name = Some v -> bind (getattr name) k st = k v st.
Proof. intros H. unfold bind, getattr. now rewrite H. Qed.

Lemma bind_as_str {B : Type} s (k : string -> M B) st :
  bind (as_str (VText s)) k st = k s st.
Proof. reflexivity. Qed.

Lemma bind_path_exists {B : Type} p (k : bool -> M B) st :
  bind (path_exists p) k st = k (bool_decide (is_Some (files st !! p))) st.
Proof. reflexivity. Qed.

(** Construction binds [db_path], then [schema_ver], and no other
    attribute. *)
Lemma init_attrs sql chem exec p st :
  self_attrs (snd (Database.__init__ sql chem exec p st))
    = <["db_path" := VText p]> (self_attrs st)
  \/ self_attrs (snd (Database.__init__ sql chem exec p st))
    = <["schema_ver" := VText "1.0.0"]> (<["db_path" := VText p]> (self_attrs st)).
Proof.
  unfold Database.__init__. rewrite bind_setattr.
  destruct (schema_ver_group sql) as [[_ ->]|[_ ->]].
  2:{ left. now rewrite bind_lift_err. }
  rewrite bind_lift_ok, bind_setattr. right.
  match goal with
  | |- self_attrs (snd (?m ?st1)) = _ =>
      assert (Hk : keeps_attrs m); [|exact (Hk st1)]
  end.
  apply keeps_bind; [apply keeps_getattr|]. intros v.
  apply keeps_bind; [apply keeps_as_str|]. intros q.
  apply keeps_bind; [apply keeps_path_exists|]. intros [|].
  - apply keeps_bind; [apply keeps_execute_sql|]. intros cur.
    apply keeps_bind; [apply keeps_py_next|]. intros row.
    apply keeps_bind; [apply keeps_lift|]. intros v1.
    apply keeps_bind; [apply keeps_getattr|]. intros v2.
    destruct (bool_decide (v1 <> v2)); [apply keeps_raise | apply keeps_ret].
  - apply keeps_bind; [apply keeps_getattr|]. intros v1.
    apply keeps_bind; [apply keeps_as_str|]. intros q1.
    apply keeps_bind; [apply keeps_connect|]. intros _.
    apply keeps_bind; [apply keeps_executescript|]. intros _.
    apply keeps_seed.
Qed.

Lemma init_no_database sql chem exec p st :
  self_attrs (snd (Database.__init__ sql chem exec p st)) !! "database"
  = self_attrs st !! "database".
Proof.
  destruct (init_attrs sql chem exec p st) as [-> | ->];
    now rewrite ?lookup_insert_ne by discriminate.
Qed.

(** Construction on a path where no file exists: the file is created, the
    schema script runs on the empty database, and the new database is
    seeded. *)
Lemma init_fresh sql chem exec p st db0 :
  occurs schema_ver_marker sql ->
  files st !! p = None ->
  exec sql ∅ = (Ok tt, db0) ->
  Database.__init__ sql chem exec p st
  = Database.seed chem
      (State (<["schema_ver" := VText "1.0.0"]> (<["db_path" := VText p]> (self_attrs st)))
             (<[p := db0]> (files st))).
Proof.
  intros Ho Hf Hexec. unfold Database.__init__. rewrite bind_setattr.
  destruct (schema_ver_group sql) as [[_ ->]|[Hno _]]; [|contradiction].
  rewrite bind_lift_ok, bind_setattr.
  assert (Hp : forall fs,
             self_attrs (State (<["schema_ver" := VText "1.0.0"]>
                                  (<["db_path" := VText p]> (self_attrs st))) fs)
               !! "db_path" = Some (VText p)).
  { intros fs. cbn [self_attrs].
    rewrite lookup_insert_ne by discriminate. apply lookup_insert_eq. }
  rewrite (bind_getattr _ _ _ _ (Hp _)), bind_as_str, bind_path_exists.
  cbn [files]. rewrite Hf.
  rewrite bool_decide_eq_false_2 by (intros [? ?]; discriminate).
  rewrite (bind_getattr _ _ _ _ (Hp _)), bind_as_str.
  unfold bind at 1. unfold sqlite3_connect at 1. cbn [files self_attrs]. rewrite Hf.
  unfold bind at 1. unfold Database.cursor_executescript at 1. cbn [files self_attrs].
  rewrite lookup_insert_eq, Hexec. now rewrite insert_insert_eq.
Qed.

(* ===================================================================== *)
(** * [get_last_id] *)
(* ===================================================================== *)

(** C1 (the code at every input): [get_last_id] never reaches the sequence
    table.  Construction never binds an attribute [database], so the call
    raises [AttributeError], which the handler for [ValueError] lets
    through: no sequence value and no sentinel [-1] is ever returned, and
    the state is left as it was. *)
Theorem get_last_id_raises_AttributeError
    (table : string) (st : state)
    (sql_schema chem_class_map : string)
    (executescript : string -> database -> result unit * database)
    (db_path : string) (st0 : state) :
  Database.get_last_id table st = (Err AttributeError, st)
  /\ fst (Database.get_last_id table st) <> Ok (-1)
  /\ self_attrs (snd (Database.__init__ sql_schema chem_class_map executescript
                        db_path st0)) !! "database"
     = self_attrs st0 !! "database".
Proof.
  rewrite get_last_id_raises.
  repeat split; [discriminate | apply init_no_database].
Qed.

(* ===================================================================== *)
(** * The row factory on any row *)
(* ===================================================================== *)

Lemma dict_set_fresh (d : dict) k v :
  k ∉ List.map fst d -> dict_set d k v = d ++ [(k, v)].
Proof.
  induction d as [|[k0 v0] d IH]; simpl; intros Hk; [reflexivity|].
  apply not_elem_of_cons in Hk as [Hne Hk].
  destruct (String.eqb_spec k k0) as [->|_]; [congruence|].
  now rewrite IH.
Qed.

Lemma zip_keys_incl (pre : list string) (row : list value) k :
  k ∈ List.map fst (zip pre row) -> k ∈ pre.
Proof.
  revert row. induction pre as [|c pre IH]; intros [|v row]; simpl;
    try (intros H; now apply elem_of_nil in H).
  intros [->|H]%elem_of_cons; [apply list_elem_of_here|].
  apply list_elem_of_further. eauto.
Qed.

Lemma zip_snoc (pre : list string) (row : list value) c v :
  row !! List.length pre = Some v ->
  zip (pre ++ [c]) row = zip pre row ++ [(c, v)].
Proof.
  revert row. induction pre as [|c0 pre IH]; intros [|v0 row]; simpl;
    try discriminate.
  - now intros [= ->].
  - intros H. now rewrite IH.
Qed.

Lemma dict_factory_loop_zip (row : list value) desc :
  forall pre,
    NoDup (pre ++ desc) -> (List.length pre <= List.length row)%nat ->
    dict_factory_loop (zip pre row) (List.length pre) desc row
    = if (List.length (pre ++ desc) <=? List.length row)%nat
      then Ok (zip (pre ++ desc) row) else Err IndexError.
Proof.
  induction desc as [|c desc IH]; intros pre Hnd Hlen; simpl.
  - rewrite app_nil_r. now rewrite (proj2 (Nat.leb_le _ _) Hlen).
  - destruct (row !! List.length pre) as [v|] eqn:Hv.
    + rewrite dict_set_fresh.
      2:{ intros Hin%zip_keys_incl. apply NoDup_app in Hnd as (_ & Hd & _).
          apply (Hd c Hin), list_elem_of_here. }
      rewrite <- (zip_snoc pre row c v Hv).
      specialize (IH (pre ++ [c])).
      rewrite length_app in IH. simpl in IH. rewrite Nat.add_1_r in IH.
      rewrite <- app_assoc in IH. simpl in IH.
      apply IH; [exact Hnd|]. apply lookup_lt_Some in Hv. lia.
    + apply lookup_ge_None in Hv.
      rewrite length_app. simpl.
      destruct (Nat.leb_spec (List.length pre + S (List.length desc)) (List.length row));
        [lia | reflexivity].
Qed.

(** X1: when the column names of the cursor are distinct, the row factory
    pairs them, in order, with the values of the row at the same
    positions (values beyond the last column are dropped); a row with
    fewer values than the cursor has columns raises [IndexError]. *)
Theorem dict_factory_zips_columns (cur : cursor) (row : list value) :
  NoDup (description cur) ->
  dict_factory cur row
  = if (List.length (description cur) <=? List.length row)%nat
    then Ok (zip (description cur) row) else Err IndexError.
Proof.
  intros Hnd. unfold dict_factory.
  apply (dict_factory_loop_zip row (description cur) []); [exact Hnd | simpl; lia].
Qed.

(** Two columns: a full row, and a row that is one value short. *)
Lemma dict_factory_zips_columns_witness :
  dict_factory sample_cursor [VInt 1; VInt 7] = Ok [("id", VInt 1); ("a", VInt 7)]
  /\ dict_factory sample_cursor [VInt 1] = Err IndexError.
Proof.
  split.
  - apply (dict_factory_zips_columns sample_cursor [VInt 1; VInt 7]).
    apply (bool_decide_unpack _). vm_compute. exact I.
  - apply (dict_factory_zips_columns sample_cursor [VInt 1]).
    apply (bool_decide_unpack _). vm_compute. exact I.
Defined.

(* ===================================================================== *)
(** * What [select] and [insert] can do to the bound file *)
(* ===================================================================== *)

Lemma parse_from_is_select cols ts stmt :
  parse_from cols ts = Some stmt -> exists tbl cs, stmt = SSelect cols tbl cs.
Proof.
  unfold parse_from.
  destruct ts as [|t [|[w| | | | | | ] ts]]; try discriminate.
  destruct (is_kw "FROM" t && is_name w); [|discriminate].
  destruct (parse_where ts) as [cs|]; [|discriminate].
  intros [= <-]. eauto.
Qed.

Lemma parse_select_is_select ts stmt :
  parse_select ts = Some stmt -> exists cols tbl cs, stmt = SSelect cols tbl cs.
Proof.
  unfold parse_select.
  assert (Hn : match parse_names ts with
               | Some (cols, rest) => parse_from (Some cols) rest
               | None => None
               end = Some stmt -> exists cols tbl cs, stmt = SSelect cols tbl cs).
  { destruct (parse_names ts) as [[cols rest]|]; [|discriminate].
    intros (tbl & cs & ->)%parse_from_is_select. eauto. }
  destruct ts as [|[w| | | | | | ] ts]; try exact Hn.
  intros (tbl & cs & ->)%parse_from_is_select. eauto.
Qed.

(** The statement of [select] starts with the word [SELECT]: it parses as
    a selection or not at all. *)
Lemma parse_select_sql table clause props stmt :
  parse_sql (Database.select_sql table clause props) = Some stmt ->
  exists cols tbl cs, stmt = SSelect cols tbl cs.
Proof.
  unfold parse_sql, Database.select_sql.
  set (rest := ((if (List.length props <? 1)%nat then "*" else join "," props)
                  +:+ " FROM " +:+ table +:+ " " +:+ clause)).
  change ("SELECT " +:+ rest) with ("SELECT" +:+ String " " rest).
  rewrite lex_word by (discriminate || reflexivity).
  rewrite lex_skip by reflexivity.
  destruct (lex rest) as [ts|]; [|discriminate]. cbn [option_map].
  change (parse_tokens (TWord "SELECT" :: ts)) with (parse_select ts).
  apply parse_select_is_select.
Qed.

(** X2: on an instance bound to an existing file, [select] never writes:
    whatever the table, clause, parameters and properties, and whether the
    call returns or raises, the whole state is afterwards what it was. *)
Theorem select_is_read_only
    (table clause : string) (parameters : params) (props : list string)
    (st : state) (p : string) (db : database) :
  self_attrs st !! "db_path" = Some (VText p) ->
  files st !! p = Some db ->
  snd (Database.select table clause parameters props st) = st.
Proof.
  destruct st as [a f]. cbn [self_attrs files]. intros Ha Hf.
  unfold Database.select. rewrite (query_run a f p db _ _ Ha Hf).
  unfold sqlite3_execute.
  destruct (parse_sql _) as [stmt|] eqn:Hp; [|reflexivity].
  apply parse_select_sql in Hp as (cols & tbl & cs & ->).
  destruct (exec_select _ _ _ _ db); [|reflexivity].
  simpl. now rewrite insert_id.
Qed.

(** A selection that returns and one that raises (no such column). *)
Lemma select_is_read_only_witness :
  snd (Database.select "t" "WHERE id=?" (PTuple [VInt 1]) ["a"] (sample_state sample_t_db))
  = sample_state sample_t_db
  /\ snd (Database.select "t" "WHERE id=?" (PTuple [VInt 1]) ["zz"] (sample_state sample_t_db))
     = sample_state sample_t_db.
Proof.
  split.
  - apply (select_is_read_only "t" "WHERE id=?" (PTuple [VInt 1]) ["a"]
             (sample_state sample_t_db) "bigslice.db" sample_t_db); reflexivity.
  - apply (select_is_read_only "t" "WHERE id=?" (PTuple [VInt 1]) ["zz"]
             (sample_state sample_t_db) "bigslice.db" sample_t_db); reflexivity.
Defined.

(** The statement of an empty mapping is none of the fragment. *)
Lemma parse_insert_empty table :
  ident table = true -> parse_sql (Database.insert_sql table []) = None.
Proof.
  intros Ht. unfold parse_sql.
  change (Database.insert_sql table [])
    with ("INSERT" +:+ String " " ("INTO" +:+ String " " (table +:+ "() VALUES ()"))).
  rewrite lex_word by (discriminate || reflexivity).
  rewrite lex_skip by reflexivity.
  rewrite lex_word by (discriminate || reflexivity).
  rewrite lex_skip by reflexivity.
  rewrite lex_ident by (assumption || reflexivity).
  change (lex "() VALUES ()")
    with (Some [TLParen; TRParen; TWord "VALUES"; TLParen; TRParen]).
  cbn [option_map].
  apply ident_word in Ht as (_ & _ & Ht).
  change (parse_tokens (TWord "INSERT" :: ?x)) with (parse_insert x).
  unfold parse_insert.
  change (is_kw "INTO" (TWord "INTO")) with true. rewrite Ht. reflexivity.
Qed.



(* ===================================================================== *)
(** * The rows that [select] returns *)
(* ===================================================================== *)

Lemma parse_names_tokens_then keys t rest :
  keys <> [] -> forallb is_name keys = true -> t <> TComma ->
  parse_names (names_tokens keys ++ t :: rest) = Some (keys, t :: rest).
Proof.
  induction keys as [|k keys IH]; intros Hne Hall Ht; [congruence|].
  simpl in Hall. apply andb_true_iff in Hall as [Hk Hall].
  destruct keys as [|k' keys].
  - simpl. rewrite Hk. destruct t; congruence.
  - change (names_tokens (k :: k' :: keys) ++ t :: rest)
      with (TWord k :: TComma :: (names_tokens (k' :: keys) ++ t :: rest)).
    cbn [parse_names]. rewrite Hk.
    now rewrite IH by (assumption || discriminate).
Qed.

Lemma row_dict_zip f cols :
  NoDup cols -> row_dict f cols [] = zip cols (List.map f cols).
Proof.
  intros Hnd.
  pose proof (dict_factory_loop_zip (List.map f cols) cols [] Hnd ltac:(simpl; lia)) as H2.
  simpl in H2. rewrite length_map, Nat.leb_refl in H2.
  pose proof (dict_factory_loop_map f [] cols []) as H1. simpl in H1.
  rewrite H1 in H2. now injection H2.
Qed.

Lemma row_dict_keys f cols : NoDup cols -> List.map fst (row_dict f cols []) = cols.
Proof.
  intros Hnd. rewrite row_dict_zip by exact Hnd.
  apply fst_zip. now rewrite length_map.
Qed.

(** With names that can be written as they are, the statement of [select]
    for a list of properties selects exactly these columns. *)
Lemma parse_select_props table clause props stmt :
  props <> [] -> forallb ident props = true ->
  parse_sql (Database.select_sql table clause props) = Some stmt ->
  exists tbl cs, stmt = SSelect (Some props) tbl cs.
Proof.
  intros Hne Hall. unfold parse_sql, Database.select_sql.
  destruct props as [|x props']; [congruence|].
  set (props := x :: props') in *.
  change ((List.length props <? 1)%nat) with false. cbv iota.
  set (rest := table +:+ " " +:+ clause).
  change ("SELECT " +:+ join "," props +:+ " FROM " +:+ rest)
    with ("SELECT" +:+ String " " (join "," props +:+ String " " ("FROM" +:+ String " " rest))).
  rewrite lex_word by (discriminate || reflexivity).
  rewrite lex_skip by reflexivity.
  rewrite lex_names by (assumption || reflexivity).
  rewrite lex_skip by reflexivity.
  rewrite lex_word by (discriminate || reflexivity).
  rewrite lex_skip by reflexivity.
  destruct (lex rest) as [ts|]; [|discriminate]. cbn [option_map].
  change (parse_tokens (TWord "SELECT" :: ?x)) with (parse_select x).
  unfold parse_select.
  assert (Hn : parse_names (names_tokens props ++ TWord "FROM" :: ts)
               = Some (props, TWord "FROM" :: ts)).
  { apply parse_names_tokens_then;
      [assumption | now apply forallb_ident_name | discriminate]. }
  unfold props in *. clear props.
  destruct props' as [|y props'].
  - cbn [names_tokens app] in *. rewrite Hn. apply parse_from_is_select.
  - change (names_tokens (x :: y :: props') ++ TWord "FROM" :: ts)
      with (TWord x :: TComma :: (names_tokens (y :: props') ++ TWord "FROM" :: ts)) in *.
    rewrite Hn. apply parse_from_is_select.
Qed.

(** X4: on a table of the bound file, when the properties are distinct
    columns of the table, named as declared by words that can be written
    as they are, and the clause is empty or a conjunction of comparisons
    [col=?] of declared columns, every row of a [select] that returns is a
    dictionary whose keys are exactly the properties, in the order in
    which they were asked. *)
Theorem select_rows_have_the_properties
    (a : gmap string value) (f : gmap string database) (p : string)
    (db : database) (table clause : string) (parameters : params)
    (props : list string) (st' : state) (cur : cursor) :
  a !! "db_path" = Some (VText p) ->
  f !! p = Some db ->
  plain_select db table clause props = true ->
  props <> [] ->
  forallb ident props = true ->
  NoDup props ->
  Database.select table clause parameters props (State a f) = (Ok cur, st') ->
  exists rows,
    fetchall cur st' = (Ok rows, st')
    /\ Forall (fun row => List.map fst row = props) rows.
Proof.
  intros Ha Hf _ Hne Hall Hnd Hsel.
  unfold Database.select in Hsel.
  apply query_ok in Hsel as (db0 & bs & db' & Hex).
  unfold sqlite3_execute in Hex.
  destruct (parse_sql _) as [stmt|] eqn:Hp; [|discriminate].
  apply parse_select_props in Hp as (tbl & cs & ->); [|assumption..].
  destruct (exec_select _ _ _ _ db0) as [c|e] eqn:Hs; [|discriminate].
  injection Hex as <- <-.
  apply exec_select_ok in Hs as (t & Ht & Hc & ->).
  unfold fetchall, lift. cbn [c_rows default]. rewrite fetch_rows_map.
  eexists. split; [reflexivity|].
  apply List.Forall_forall. intros row (r & <- & _)%in_map_iff.
  now apply row_dict_keys.
Qed.

(** Properties [b] and [a], in this order, of the row with id 1. *)
Lemma select_rows_have_the_properties_witness :
  exists rows,
    fetchall (Cursor ["b"; "a"] [[VText "w"; VInt 7]] VNull) (sample_state sample_t_db)
    = (Ok rows, sample_state sample_t_db)
    /\ Forall (fun row => List.map fst row = ["b"; "a"]) rows.
Proof.
  apply (select_rows_have_the_properties
           (self_attrs (sample_state sample_t_db))
           (files (sample_state sample_t_db)) "bigslice.db" sample_t_db
           "t" "WHERE id=?" (PTuple [VInt 1]) ["b"; "a"]).
  - reflexivity.
  - reflexivity.
  - vm_compute. reflexivity.
  - discriminate.
  - reflexivity.
  - apply (bool_decide_unpack _). vm_compute. exact I.
  - vm_compute. reflexivity.
Defined.

Lemma parse_select_where_1 table :
  ident table = true ->
  parse_sql (Database.select_sql table "WHERE 1" [])
  = Some (SSelect None table [CConst true]).
Proof.
  intros Ht. unfold parse_sql.
  change (Database.select_sql table "WHERE 1" [])
    with ("SELECT" +:+ String " " (String "*" (String " " ("FROM" +:+ String " "
            (table +:+ " WHERE 1"))))).
  rewrite lex_word by (discriminate || reflexivity).
  rewrite lex_skip by reflexivity.
  rewrite (lex_punct _ TStar) by reflexivity.
  rewrite lex_skip by reflexivity.
  rewrite lex_word by (discriminate || reflexivity).
  rewrite lex_skip by reflexivity.
  rewrite lex_ident by (assumption || reflexivity).
  change (lex " WHERE 1") with (Some [TWord "WHERE"; TWord "1"]).
  cbn [option_map].
  apply ident_word in Ht as (_ & _ & Ht).
  change (parse_tokens (TWord "SELECT" :: TStar :: ?x)) with (parse_from None x).
  unfold parse_from.
  change (is_kw "FROM" (TWord "FROM")) with true. rewrite Ht. reflexivity.
Qed.

(** X5: [select(table, "WHERE 1")], the form in which the constructor
    reads [chem_class], returns every row of the table, in the order of
    the table, each as the dictionary of all its columns; the state is
    unchanged. *)
Theorem select_where_1_returns_every_row
    (a : gmap string value) (f : gmap string database) (p : string)
    (db : database) (t : table) (table : string) :
  a !! "db_path" = Some (VText p) ->
  f !! p = Some db ->
  ident table = true ->
  db !! table = Some t ->
  NoDup (t_cols t) ->
  (let* cur := Database.select table "WHERE 1" PNone [] in fetchall cur) (State a f)
  = (Ok (List.map (fun row => zip (t_cols t) (List.map (cell t row) (t_cols t)))
           (t_rows t)),
     State a f).
Proof.
  intros Ha Hf Hid Ht Hnd. unfold bind.
  rewrite (select_run a f p db _ _ _ _ _ _ _ Ha Hf (parse_select_where_1 table Hid)).
  simpl truthy. cbv iota.
  rewrite (exec_select_all db table t Ht).
  unfold fetchall, lift. cbn [c_rows]. rewrite fetch_rows_map.
  do 2 f_equal. apply map_ext. intros row. now apply row_dict_zip.
Qed.

(** The two classes of the sample database. *)
Lemma select_where_1_returns_every_row_witness :
  (let* cur := Database.select "chem_class" "WHERE 1" PNone [] in fetchall cur)
    (sample_state (sample_db "1.0.0"))
  = (Ok [[("id", VInt 1); ("name", VText "Polyketide")];
         [("id", VInt 2); ("name", VText "Other")]],
     sample_state (sample_db "1.0.0")).
Proof.
  apply (select_where_1_returns_every_row
           (self_attrs (sample_state (sample_db "1.0.0")))
           (files (sample_state (sample_db "1.0.0")))
           "bigslice.db" (sample_db "1.0.0") sample_chem_class "chem_class").
  - reflexivity.
  - reflexivity.
  - reflexivity.
  - reflexivity.
  - apply (bool_decide_unpack _). vm_compute. exact I.
Defined.

(* ===================================================================== *)
(** * [insert]: the empty mapping, and consecutive calls *)
(* ===================================================================== *)

(** X6: [insert] with an empty mapping formats
    [INSERT INTO <table>() VALUES ()], which is not a statement: on an
    instance bound to an existing file the call raises [OperationalError]
    and writes nothing. *)
Theorem insert_of_empty_mapping_raises
    (table : string) (a : gmap string value) (f : gmap string database)
    (p : string) (db : database) :
  a !! "db_path" = Some (VText p) ->
  f !! p = Some db ->
  ident table = true ->
  Database.insert_sql table [] = "INSERT INTO " +:+ table +:+ "() VALUES ()"
  /\ Database.insert table [] (State a f) = (Err OperationalError, State a f).
Proof.
  intros Ha Hf Hid. split; [reflexivity|].
  unfold Database.insert, bind.
  rewrite (query_run a f p db _ _ Ha Hf). unfold sqlite3_execute.
  now rewrite (parse_insert_empty table Hid).
Qed.

Lemma insert_of_empty_mapping_raises_witness :
  Database.insert_sql "t" [] = "INSERT INTO t() VALUES ()"
  /\ Database.insert "t" [] (sample_state sample_t_db)
     = (Err OperationalError, sample_state sample_t_db).
Proof.
  apply (insert_of_empty_mapping_raises "t"
           (self_attrs (sample_state sample_t_db))
           (files (sample_state sample_t_db)) "bigslice.db" sample_t_db);
    reflexivity.
Defined.

Lemma foldr_max_bound (r0 : Z * gmap string value) rs n :
  (forall x, x ∈ r0 :: rs -> fst x <= n) ->
  foldr Z.max (fst r0) (List.map fst rs) <= n.
Proof.
  induction rs as [|r rs IH]; simpl; intros H.
  - apply H, list_elem_of_here.
  - apply Z.max_lub.
    + apply H, list_elem_of_further, list_elem_of_here.
    + apply IH. intros x [->|Hx]%elem_of_cons.
      * apply H, list_elem_of_here.
      * apply H. now do 2 apply list_elem_of_further.
Qed.

(** After an insert without key, the next rowid is one more. *)
Lemma next_rowid_after_insert rows cells :
  next_rowid (insert_row (next_rowid rows, cells) rows) = next_rowid rows + 1.
Proof.
  set (n := next_rowid rows). set (new := (n, cells)).
  assert (Hin : new ∈ insert_row new rows) by (apply elem_of_insert_row; now left).
  assert (Hle : forall x, x ∈ insert_row new rows -> fst x <= n).
  { intros x [->|Hx]%elem_of_insert_row; [simpl; lia|].
    apply next_rowid_fresh in Hx. fold n in Hx. lia. }
  destruct (insert_row new rows) as [|r0 rs] eqn:Hrows;
    [now apply elem_of_nil in Hin|].
  unfold next_rowid at 1.
  pose proof (foldr_max_bound r0 rs n Hle) as Hub.
  pose proof (rowid_le_max r0 rs new Hin) as Hlb. simpl in Hlb. lia.
Qed.

(** X7: two consecutive inserts without key into the same table, of
    values whose integers have 64 bits, while the table has two rowids
    left after its largest, return consecutive rowids: the first the
    rowid after the largest in use, the second one more. *)
Theorem consecutive_inserts_return_consecutive_ids
    (a : gmap string value) (f : gmap string database) (p : string)
    (db : database) (t : table) (table : string) (pk : string)
    (data1 data2 : dict) :
  a !! "db_path" = Some (VText p) ->
  f !! p = Some db ->
  db !! table = Some t ->
  ident table = true ->
  t_pk t = Some pk ->
  data1 <> [] -> data2 <> [] ->
  (forall k, k ∈ List.map fst data1 ++ List.map fst data2 ->
             ident k = true /\ k ∈ t_cols t /\ k <> pk) ->
  forallb bindable (List.map snd data1 ++ List.map snd data2) = true ->
  int64 (next_rowid (t_rows t)) = true ->
  int64 (next_rowid (t_rows t) + 1) = true ->
  exists st1 st2,
    Database.insert table data1 (State a f) = (Ok (VInt (next_rowid (t_rows t))), st1)
    /\ Database.insert table data2 st1 = (Ok (VInt (next_rowid (t_rows t) + 1)), st2).
Proof.
  intros Ha Hf Ht Hid Hpk Hne1 Hne2 Hkeys _ _ _.
  assert (Hall : forall data : dict, (forall k, k ∈ List.map fst data ->
                   ident k = true /\ k ∈ t_cols t /\ k <> pk) ->
                 forallb ident (List.map fst data) = true).
  { intros data H. apply forallb_forall. intros k Hk%list_elem_of_In. now apply H. }
  assert (H1 : forall k, k ∈ List.map fst data1 -> ident k = true /\ k ∈ t_cols t /\ k <> pk)
    by (intros k Hk; apply Hkeys, elem_of_app; now left).
  assert (H2 : forall k, k ∈ List.map fst data2 -> ident k = true /\ k ∈ t_cols t /\ k <> pk)
    by (intros k Hk; apply Hkeys, elem_of_app; now right).
  set (n := next_rowid (t_rows t)).
  set (t1 := Table (t_cols t) (t_pk t) (insert_row (n, list_to_map data1) (t_rows t))).
  set (db1 := add_row table t (n, list_to_map data1) db).
  exists (State a (<[p := db1]> f)).
  exists (State a (<[p := add_row table t1 (n + 1, list_to_map data2) db1]> (<[p := db1]> f))).
  split.
  - rewrite (insert_run a f p db table data1 _ _ _ Ha Hf
               (parse_insert_sql table data1 Hid Hne1 (Hall _ H1))).
    rewrite (exec_insert_auto db table t pk data1 Ht Hpk); [reflexivity|].
    intros k Hk. now apply H1.
  - rewrite (insert_run a (<[p := db1]> f) p db1 table data2 _ _ _ Ha
               (lookup_insert_eq _ _ _)
               (parse_insert_sql table data2 Hid Hne2 (Hall _ H2))).
    rewrite (exec_insert_auto db1 table t1 pk data2);
      [| apply add_row_lookup | exact Hpk | intros k Hk; now apply H2].
    subst t1 db1 n. cbn [t_rows].
    now rewrite next_rowid_after_insert.
Qed.

(** Two inserts into the sample table, which holds row 1. *)
Lemma consecutive_inserts_return_consecutive_ids_witness :
  exists st1 st2,
    Database.insert "t" [("a", VInt 1)] (sample_state sample_t_db) = (Ok (VInt 2), st1)
    /\ Database.insert "t" [("b", VText "x")] st1 = (Ok (VInt (2 + 1)), st2).
Proof.
  apply (consecutive_inserts_return_consecutive_ids
           (self_attrs (sample_state sample_t_db))
           (files (sample_state sample_t_db)) "bigslice.db" sample_t_db
           sample_t "t" "id" [("a", VInt 1)] [("b", VText "x")]).
  - reflexivity.
  - reflexivity.
  - reflexivity.
  - reflexivity.
  - reflexivity.
  - discriminate.
  - discriminate.
  - intros k Hk. simpl in Hk.
    apply elem_of_cons in Hk as [->|Hk];
      [|apply elem_of_cons in Hk as [->|Hk]; [|now apply elem_of_nil in Hk]].
    + repeat split; [apply (bool_decide_unpack _); vm_compute; exact I | discriminate].
    + repeat split; [apply (bool_decide_unpack _); vm_compute; exact I | discriminate].
  - reflexivity.
  - reflexivity.
  - reflexivity.
Defined.

(* ===================================================================== *)
(** * Construction on an existing file *)
(* ===================================================================== *)

(** On an existing file, construction binds the two attributes and reads
    the table [schema]. *)
Lemma init_existing sql chem exec p st db bundled :
  re_group (re_search schema_ver_re sql) "ver" = Ok bundled ->
  files st !! p = Some db ->
  Database.__init__ sql chem exec p st =
  match exec_select None "schema" [CConst true] [] db with
  | Err e =>
      (Err e, State (<["schema_ver" := VText bundled]>
                       (<["db_path" := VText p]> (self_attrs st))) (files st))
  | Ok cur =>
      (let* row := py_next cur in
       let* db_schema_ver := lift (dict_getitem row "ver") in
       let* schema_ver := getattr "schema_ver" in
       if bool_decide (db_schema_ver <> schema_ver) then
         raise (Exception_ (Database.mismatch_message db_schema_ver schema_ver))
       else ret tt)
        (State (<["schema_ver" := VText bundled]>
                  (<["db_path" := VText p]> (self_attrs st))) (files st))
  end.
Proof.
  intros Hver Hf. unfold Database.__init__.
  rewrite bind_setattr, Hver, bind_lift_ok, bind_setattr.
  cbn [self_attrs files].
  rewrite (bind_getattr "db_path" (VText p))
    by (cbn [self_attrs]; rewrite lookup_insert_ne by discriminate;
        apply lookup_insert_eq).
  rewrite bind_as_str, bind_path_exists. cbn [files]. rewrite Hf.
  rewrite bool_decide_eq_true_2 by eauto.
  unfold bind at 1. unfold execute_sql, bind, sqlite3_connect, cursor_execute.
  cbn [files self_attrs]. rewrite Hf. cbn [truthy files self_attrs]. rewrite Hf.
  unfold sqlite3_execute. rewrite parse_select_schema.
  destruct (exec_select None "schema" [CConst true] [] db) as [cur|e]; [|reflexivity].
  now rewrite (insert_id (files st)) by exact Hf.
Qed.

(** X8: when the file exists and the version stored in it is the version
    of the bundled schema, construction returns normally: the instance is
    bound to the path and the version, no script runs, nothing is seeded,
    and the files are what they were. *)
Theorem matching_version_is_accepted
    (sql_schema chem_class_map : string)
    (executescript : string -> database -> result unit * database)
    (db_path : string) (st : state) (db : database) (bundled : string) :
  re_group (re_search schema_ver_re sql_schema) "ver" = Ok bundled ->
  files st !! db_path = Some db ->
  stored_schema_ver db = Some (VText bundled) ->
  Database.__init__ sql_schema chem_class_map executescript db_path st =
  (Ok tt,
   State (<["schema_ver" := VText bundled]>
            (<["db_path" := VText db_path]> (self_attrs st)))
         (files st)).
Proof.
  intros Hver Hf Hstored.
  unfold stored_schema_ver in Hstored.
  destruct (db !! "schema") as [t|] eqn:Ht; [|discriminate].
  destruct (t_rows t) as [|row rows] eqn:Hrows; [discriminate|].
  destruct (bool_decide ("ver" ∈ t_cols t)) eqn:Hcol; [|discriminate].
  injection Hstored as Hcell.
  rewrite (init_existing _ _ _ _ _ db bundled Hver Hf).
  rewrite (exec_select_all db "schema" t Ht), Hrows.
  unfold bind at 1. unfold py_next, lift at 1. cbn [c_rows List.map].
  rewrite dict_factory_map.
  unfold bind at 1. unfold lift at 1, dict_getitem.
  rewrite assoc_get_row_dict, Hcol, Hcell.
  rewrite (bind_getattr "schema_ver" (VText bundled))
    by (cbn [self_attrs]; apply lookup_insert_eq).
  now rewrite bool_decide_eq_false_2 by (intros H; now apply H).
Qed.

(** A file stamped 1.0.0 against the bundled schema 1.0.0. *)
Lemma matching_version_is_accepted_witness :
  Database.__init__ schema_1_0_0 "" no_script "bigslice.db"
    (sample_files (sample_db "1.0.0")) =
  (Ok tt,
   State (<["schema_ver" := VText "1.0.0"]> (<["db_path" := VText "bigslice.db"]> ∅))
         (files (sample_files (sample_db "1.0.0")))).
Proof.
  apply (matching_version_is_accepted schema_1_0_0 "" no_script "bigslice.db"
           (sample_files (sample_db "1.0.0")) (sample_db "1.0.0") "1.0.0");
    reflexivity.
Defined.



(* ===================================================================== *)
(** * The tables that seeding writes *)
(* ===================================================================== *)

Lemma same_but_taxonomy_refl db : same_but_taxonomy db db.
Proof. intros tbl _ _. reflexivity. Qed.

Lemma same_but_taxonomy_trans db1 db2 db3 :
  same_but_taxonomy db1 db2 -> same_but_taxonomy db2 db3 -> same_but_taxonomy db1 db3.
Proof. intros H1 H2 tbl Ha Hb. now rewrite H2, H1. Qed.

(** Whatever an insert with a statement for table [tbl] does, it leaves
    the bound file with the other tables as they were. *)
Lemma insert_frame a (f : gmap string database) p db table data tbl cols n :
  a !! "db_path" = Some (VText p) -> f !! p = Some db ->
  parse_sql (Database.insert_sql table data) = Some (SInsert tbl cols n) ->
  exists r db',
    Database.insert table data (State a f) = (r, State a (<[p := db']> f))
    /\ forall other, other <> tbl -> db' !! other = db !! other.
Proof.
  intros Ha Hf Hp. rewrite (insert_run a f p db _ _ _ _ _ Ha Hf Hp).
  destruct (exec_insert _ _ _ _ db) as [[cur db']|e] eqn:Hi.
  - apply exec_insert_ok in Hi as (t & rid & _ & _ & _ & ->).
    eexists _, _. split; [reflexivity|].
    intros other Hne. apply add_row_lookup_ne. congruence.
  - exists (Err e), db. split; [now rewrite insert_id | auto].
Qed.

Lemma insert_map_frame a (f : gmap string database) p db src_class src sid :
  a !! "db_path" = Some (VText p) -> f !! p = Some db ->
  exists r db',
    (let* _ := Database.insert "chem_subclass_map"
                 [("class_source", VText src_class); ("type_source", VText src);
                  ("subclass_id", sid)] in
     ret tt) (State a f) = (r, State a (<[p := db']> f))
    /\ same_but_taxonomy db db'.
Proof.
  intros Ha Hf.
  destruct (insert_frame a f p db "chem_subclass_map"
              [("class_source", VText src_class); ("type_source", VText src);
               ("subclass_id", sid)] _ _ _ Ha Hf (parse_insert_map _ _ _))
    as (r & db' & Hr & Hframe).
  unfold bind. rewrite Hr.
  destruct r as [v|e]; eexists _, db'; (split; [reflexivity|]);
    intros tbl _ Hne; now apply Hframe.
Qed.

(** One iteration of the loop, whether it completes or raises, leaves the
    bound file with all tables but the two of the taxonomy as they
    were. *)
Lemma seed_line_frame a (f : gmap string database) p db cls line :
  a !! "db_path" = Some (VText p) -> f !! p = Some db ->
  exists r db',
    Database.seed_line cls line (State a f) = (r, State a (<[p := db']> f))
    /\ same_but_taxonomy db db'.
Proof.
  intros Ha Hf.
  assert (Hsame : forall (r : result unit),
             exists r' db', (r, State a f) = (r', State a (<[p := db']> f))
                            /\ same_but_taxonomy db db').
  { intros r. exists r, db. split; [now rewrite insert_id | apply same_but_taxonomy_refl]. }
  destruct (Database.unpack_line line) as [[[[src_class src] bs_class] bs_subclass]|e]
    eqn:Hu; [|rewrite (seed_line_unpack_err _ _ _ _ _ Hu); apply Hsame].
  destruct (vdict_get cls (VText (target_class bs_class))) as [cid|e] eqn:Hc;
    [|rewrite (seed_line_class_err _ _ _ _ _ _ _ _ _ Hu Hc); apply Hsame].
  rewrite (seed_line_unfold a f p db cls line _ _ _ _ cid Ha Hf Hu Hc).
  destruct (exec_select _ _ _ _ db) as [cur|e] eqn:Hs; [|apply Hsame].
  apply exec_select_ok in Hs as (tsub & Ht & Hcols & ->).
  unfold bind at 1. unfold fetchall, lift at 1. cbn [c_rows].
  rewrite fetch_rows_map.
  destruct (List.filter _ (t_rows tsub)) as [|r [|r2 rest]]; cbn [List.map].
  - unfold bind at 1.
    destruct (insert_frame a f p db "chem_subclass"
                [("name", VText (target_subclass bs_subclass)); ("class_id", cid)]
                _ _ _ Ha Hf (parse_insert_subclass _ _))
      as (r1 & db1 & Hr1 & Hframe1).
    rewrite Hr1. destruct r1 as [sid|e].
    + destruct (insert_map_frame a (<[p := db1]> f) p db1 src_class src sid Ha
                  (lookup_insert_eq _ _ _)) as (r2 & db2 & Hr2 & Hframe2).
      rewrite Hr2, insert_insert_eq. exists r2, db2. split; [reflexivity|].
      eapply same_but_taxonomy_trans; [|exact Hframe2].
      intros tbl Hne _. now apply Hframe1.
    + exists (Err e), db1. split; [reflexivity|].
      intros tbl Hne _. now apply Hframe1.
  - unfold bind at 1. unfold lift at 1.
    destruct (dict_getitem _ "id") as [sid|e]; [|apply Hsame].
    apply insert_map_frame; assumption.
  - unfold bind at 1. apply Hsame.
Qed.

Lemma for_each_seed_frame a (f : gmap string database) p cls lines :
  a !! "db_path" = Some (VText p) ->
  forall db,
    f !! p = Some db ->
    exists r db',
      for_each lines (Database.seed_line cls) (State a f)
      = (r, State a (<[p := db']> f))
      /\ same_but_taxonomy db db'.
Proof.
  intros Ha. revert f. induction lines as [|line lines IH]; intros f db Hf.
  - exists (Ok tt), db. split; [simpl; unfold ret; now rewrite insert_id|].
    apply same_but_taxonomy_refl.
  - destruct (seed_line_frame a f p db cls line Ha Hf) as (r1 & db1 & Hr1 & Hf1).
    simpl. unfold bind at 1. rewrite Hr1. destruct r1 as [[]|e].
    + destruct (IH (<[p := db1]> f) db1 (lookup_insert_eq _ _ _))
        as (r2 & db2 & Hr2 & Hf2).
      rewrite Hr2, insert_insert_eq. exists r2, db2. split; [reflexivity|].
      eapply same_but_taxonomy_trans; eauto.
    + exists (Err e), db1. auto.
Qed.

Lemma seed_frame chem a (f : gmap string database) p db :
  a !! "db_path" = Some (VText p) -> f !! p = Some db ->
  exists r db',
    Database.seed chem (State a f) = (r, State a (<[p := db']> f))
    /\ same_but_taxonomy db db'.
Proof.
  intros Ha Hf. unfold Database.seed. unfold bind at 1.
  rewrite (select_run a f p db _ _ _ _ _ _ _ Ha Hf parse_select_class).
  simpl truthy. cbv iota.
  assert (Hsame : forall (r : result unit),
             exists r' db', (r, State a f) = (r', State a (<[p := db']> f))
                            /\ same_but_taxonomy db db').
  { intros r. exists r, db. split; [now rewrite insert_id | apply same_but_taxonomy_refl]. }
  destruct (exec_select _ _ _ _ db) as [cur|e]; [|apply Hsame].
  unfold bind at 1. unfold lift at 1.
  destruct (Database.load_classes cur (c_rows cur) []) as [cls|e]; [|apply Hsame].
  now apply for_each_seed_frame.
Qed.

(** X10: seeding, whether it completes or stops at a bad line, writes to
    the bound file only and there only to [chem_subclass] and
    [chem_subclass_map]: the attributes, the other files and every other
    table ([chem_class], [schema], ...) are afterwards what they were. *)
Theorem seeding_writes_only_the_taxonomy_tables
    (chem_class_map : string) (a : gmap string value)
    (f : gmap string database) (p : string) (db : database) :
  a !! "db_path" = Some (VText p) ->
  f !! p = Some db ->
  exists r db',
    Database.seed chem_class_map (State a f) = (r, State a (<[p := db']> f))
    /\ forall tbl, tbl <> "chem_subclass" -> tbl <> "chem_subclass_map" ->
                   db' !! tbl = db !! tbl.
Proof. apply seed_frame. Qed.

(** A seeding that completes and one that stops at its first line. *)
Lemma seeding_writes_only_the_taxonomy_tables_witness :
  (exists r db',
     Database.seed tsv_shared (sample_state (sample_db "1.0.0"))
     = (r, State (self_attrs (sample_state (sample_db "1.0.0")))
             (<["bigslice.db" := db']> (files (sample_state (sample_db "1.0.0")))))
     /\ forall tbl, tbl <> "chem_subclass" -> tbl <> "chem_subclass_map" ->
                    db' !! tbl = sample_db "1.0.0" !! tbl)
  /\ (exists r db',
        Database.seed tsv_both_empty (sample_state (sample_db "1.0.0"))
        = (r, State (self_attrs (sample_state (sample_db "1.0.0")))
                (<["bigslice.db" := db']> (files (sample_state (sample_db "1.0.0")))))
        /\ forall tbl, tbl <> "chem_subclass" -> tbl <> "chem_subclass_map" ->
                       db' !! tbl = sample_db "1.0.0" !! tbl).
Proof.
  split.
  - apply (seeding_writes_only_the_taxonomy_tables tsv_shared
             (self_attrs (sample_state (sample_db "1.0.0")))
             (files (sample_state (sample_db "1.0.0")))
             "bigslice.db" (sample_db "1.0.0")); reflexivity.
  - apply (seeding_writes_only_the_taxonomy_tables tsv_both_empty
             (self_attrs (sample_state (sample_db "1.0.0")))
             (files (sample_state (sample_db "1.0.0")))
             "bigslice.db" (sample_db "1.0.0")); reflexivity.
Defined.

(* ===================================================================== *)
(** * Construction on a new path *)
(* ===================================================================== *)

(** X11: construction on a path where no file exists, with a bundled
    schema that carries the version marker and a script that runs: the
    instance is bound, the file is created, and whether seeding then
    completes or stops at a bad line, the file holds what the script
    produced in every table other than [chem_subclass] and
    [chem_subclass_map]; no other file is touched. *)
Theorem fresh_construction_creates_the_store
    (sql_schema chem_class_map : string)
    (executescript : string -> database -> result unit * database)
    (db_path : string) (st : state) (db0 : database) :
  occurs schema_ver_marker sql_schema ->
  files st !! db_path = None ->
  executescript sql_schema ∅ = (Ok tt, db0) ->
  exists r db',
    Database.__init__ sql_schema chem_class_map executescript db_path st
    = (r, State (<["schema_ver" := VText "1.0.0"]>
                   (<["db_path" := VText db_path]> (self_attrs st)))
                (<[db_path := db']> (files st)))
    /\ forall tbl, tbl <> "chem_subclass" -> tbl <> "chem_subclass_map" ->
                   db' !! tbl = db0 !! tbl.
Proof.
  intros Ho Hf Hexec.
  rewrite (init_fresh _ _ _ _ _ db0 Ho Hf Hexec).
  destruct (seed_frame chem_class_map
              (<["schema_ver" := VText "1.0.0"]>
                 (<["db_path" := VText db_path]> (self_attrs st)))
              (<[db_path := db0]> (files st)) db_path db0)
    as (r & db' & Hr & Hframe).
  - rewrite lookup_insert_ne by discriminate. apply lookup_insert_eq.
  - apply lookup_insert_eq.
  - rewrite Hr, insert_insert_eq. eauto.
Qed.

(** A schema stamped 1.0.0 whose script creates the sample database, and
    the seed file with three data lines. *)
Lemma fresh_construction_creates_the_store_witness :
  exists r db',
    Database.__init__ schema_1_0_0 tsv_shared sample_script "bigslice.db" no_state
    = (r, State (<["schema_ver" := VText "1.0.0"]>
                   (<["db_path" := VText "bigslice.db"]> (self_attrs no_state)))
                (<["bigslice.db" := db']> (files no_state)))
    /\ forall tbl, tbl <> "chem_subclass" -> tbl <> "chem_subclass_map" ->
                   db' !! tbl = sample_db "1.0.0" !! tbl.
Proof.
  apply (fresh_construction_creates_the_store schema_1_0_0 tsv_shared sample_script
           "bigslice.db" no_state (sample_db "1.0.0")).
  - exists "-- SQLite3 schema", (String newline "").
    reflexivity.
  - reflexivity.
  - reflexivity.
Defined.

(* ===================================================================== *)
(** * The one file of an instance *)
(* ===================================================================== *)

Lemma confined_ret p {A : Type} (x : A) : confined p (ret x).
Proof. intros st _. split; reflexivity. Qed.

Lemma confined_raise p {A : Type} e : confined p (@raise A e).
Proof. intros st _. split; reflexivity. Qed.

Lemma confined_lift p {A : Type} (r : result A) : confined p (lift r).
Proof. intros st _. split; reflexivity. Qed.

Lemma confined_bind p {A B : Type} (m : M A) (k : A -> M B) :
  confined p m -> (forall x, confined p (k x)) -> confined p (bind m k).
Proof.
  intros Hm Hk st Ha. unfold bind. destruct (Hm st Ha) as [Hattrs Hfiles].
  destruct (m st) as [[x|e] st1]; simpl in *; [|auto].
  assert (Ha1 : self_attrs st1 !! "db_path" = Some (VText p)) by now rewrite Hattrs.
  destruct (Hk x st1 Ha1) as [Hattrs' Hfiles']. split.
  - now rewrite Hattrs'.
  - intros q Hq. now rewrite Hfiles', Hfiles.
Qed.

Lemma confined_getattr p name : confined p (getattr name).
Proof.
  intros st _. unfold getattr. destruct (self_attrs st !! name); split; reflexivity.
Qed.

(** Reading [self.db_path] yields the path to which the instance is
    confined. *)
Lemma confined_bind_db_path p {B : Type} (k : string -> M B) :
  confined p (k p) ->
  confined p (let* v := getattr "db_path" in let* q := as_str v in k q).
Proof.
  intros Hk st Ha. rewrite (bind_getattr _ _ _ _ Ha), bind_as_str. now apply Hk.
Qed.

Lemma confined_execute_sql p sql ps : confined p (execute_sql sql p ps).
Proof.
  intros st _. split; [apply execute_sql_attrs|]. intros q Hq.
  unfold execute_sql, bind, sqlite3_connect, cursor_execute.
  destruct (files st !! p) as [db|] eqn:Hf; simpl.
  - destruct (truthy ps); rewrite Hf;
      destruct (sqlite3_execute _ _ db) as [[cur db']|e]; simpl;
      rewrite ?lookup_insert_ne by congruence; reflexivity.
  - destruct (truthy ps); simpl; rewrite lookup_insert_eq;
      destruct (sqlite3_execute _ _ _) as [[cur db']|e]; simpl;
      rewrite ?lookup_insert_ne by congruence; reflexivity.
Qed.

Lemma confined_query p sql ps : confined p (Database.query sql ps).
Proof. apply (confined_bind_db_path p), confined_execute_sql. Qed.

Lemma confined_select p t cl ps props : confined p (Database.select t cl ps props).
Proof. apply confined_query. Qed.

Lemma confined_insert p t data : confined p (Database.insert t data).
Proof.
  apply confined_bind; [apply confined_query|]. intros cur. apply confined_ret.
Qed.

Lemma confined_for_each p {A : Type} (l : list A) (body : A -> M unit) :
  (forall x, confined p (body x)) -> confined p (for_each l body).
Proof.
  intros Hb. induction l as [|x l IH]; simpl; [apply confined_ret|].
  apply confined_bind; auto.
Qed.

Lemma confined_seed_line p cls line : confined p (Database.seed_line cls line).
Proof.
  unfold Database.seed_line.
  apply confined_bind; [apply confined_lift|]. intros [[[src_class src] bs_class] bs_subclass].
  apply confined_bind; [apply confined_lift|]. intros cid.
  apply confined_bind; [apply confined_select|]. intros cur.
  apply confined_bind; [apply confined_lift|]. intros existing.
  apply confined_bind.
  - destruct existing as [|first [|second rest]];
      [apply confined_insert | apply confined_lift | apply confined_raise].
  - intros sid. apply confined_bind; [apply confined_insert|]. intros _. apply confined_ret.
Qed.

Lemma confined_seed p chem : confined p (Database.seed chem).
Proof.
  unfold Database.seed.
  apply confined_bind; [apply confined_select|]. intros cur.
  apply confined_bind; [apply confined_lift|]. intros cls.
  apply confined_for_each. intros line. apply confined_seed_line.
Qed.

Lemma confined_connect p : confined p (sqlite3_connect p).
Proof.
  intros st _. unfold sqlite3_connect.
  destruct (files st !! p); simpl; split; try reflexivity.
  intros q Hq. now rewrite lookup_insert_ne by congruence.
Qed.

Lemma confined_executescript p exec script :
  confined p (Database.cursor_executescript exec p script).
Proof.
  intros st _. unfold Database.cursor_executescript.
  destruct (files st !! p) as [db|]; [|split; reflexivity].
  destruct (exec script db) as [r db']. simpl. split; [reflexivity|].
  intros q Hq. now rewrite lookup_insert_ne by congruence.
Qed.

Lemma confined_py_next p cur : confined p (py_next cur).
Proof.
  unfold py_next. destruct (c_rows cur); [apply confined_raise | apply confined_lift].
Qed.

(** A call on an instance whose [db_path] is not a string raises before
    it touches a file. *)
Lemma query_unbound sql ps st :
  (forall p, self_attrs st !! "db_path" <> Some (VText p)) ->
  snd (Database.query sql ps st) = st.
Proof.
  intros H. unfold Database.query, bind, getattr.
  destruct (self_attrs st !! "db_path") as [[| |p]|] eqn:Ha; try reflexivity.
  now destruct (H p).
Qed.

(** X12: a call of the wrapper whose statement is generated from plain
    names ([select], [insert], [get_last_id]) or is a statement of the
    fragment passed to [query], whether it returns or raises, leaves every
    file other than the one to which the instance is bound exactly as it
    was. *)
Theorem wrapper_calls_touch_only_the_bound_file
    (c : wrapper_call) (st : state) (q : string) :
  plain_call c = true ->
  self_attrs st !! "db_path" <> Some (VText q) ->
  files (run_call c st) !! q = files st !! q.
Proof.
  intros _ Hq.
  assert (Hquery : forall sql ps, files (snd (Database.query sql ps st)) !! q = files st !! q).
  { intros sql ps.
    destruct (self_attrs st !! "db_path") as [[| |p]|] eqn:Ha;
      try (rewrite query_unbound; [reflexivity | intros p'; rewrite Ha; discriminate]).
    apply (confined_query p sql ps st Ha). congruence. }
  destruct c as [sql ps|t cl ps props|t data|t]; simpl.
  - apply Hquery.
  - apply Hquery.
  - unfold Database.insert, bind.
    specialize (Hquery (Database.insert_sql t data) (PTuple (List.map snd data))).
    destruct (Database.query _ _ st) as [[cur|e] st']; exact Hquery.
  - now rewrite get_last_id_raises.
Qed.

(** An insert through an instance bound to [bigslice.db] leaves the file
    [other.db] alone. *)
Lemma wrapper_calls_touch_only_the_bound_file_witness :
  files (run_call (CallInsert "t" [("a", VInt 1)]) (sample_state sample_t_db)) !! "other.db"
  = files (sample_state sample_t_db) !! "other.db".
Proof.
  apply (wrapper_calls_touch_only_the_bound_file (CallInsert "t" [("a", VInt 1)])
           (sample_state sample_t_db) "other.db").
  - reflexivity.
  - vm_compute. discriminate.
Defined.

(** X13: construction, whatever its outcome (version accepted or
    rejected, file created and seeded, or an error on the way), leaves
    every file other than the one at [db_path] exactly as it was. *)
Theorem construction_touches_only_its_file
    (sql_schema chem_class_map : string)
    (executescript : string -> database -> result unit * database)
    (db_path : string) (st : state) (q : string) :
  q <> db_path ->
  files (snd (Database.__init__ sql_schema chem_class_map executescript db_path st)) !! q
  = files st !! q.
Proof.
  intros Hq. unfold Database.__init__. rewrite bind_setattr.
  destruct (re_group (re_search schema_ver_re sql_schema) "ver") as [ver|e];
    [|now rewrite bind_lift_err].
  rewrite bind_lift_ok, bind_setattr.
  match goal with
  | |- files (snd (?m ?st1)) !! q = _ =>
      assert (Hc : confined db_path m);
        [|destruct (Hc st1) as [_ Hfiles];
          [cbn [self_attrs]; rewrite lookup_insert_ne by discriminate;
           apply lookup_insert_eq
          |now rewrite Hfiles]]
  end.
  apply (confined_bind_db_path db_path).
  apply confined_bind; [intros s _; split; reflexivity|]. intros [|].
  - apply confined_bind; [apply confined_execute_sql|]. intros cur.
    apply confined_bind; [apply confined_py_next|]. intros row.
    apply confined_bind; [apply confined_lift|]. intros v1.
    apply confined_bind; [apply confined_getattr|]. intros v2.
    destruct (bool_decide (v1 <> v2)); [apply confined_raise | apply confined_ret].
  - apply (confined_bind_db_path db_path).
    apply confined_bind; [apply confined_connect|]. intros _.
    apply confined_bind; [apply confined_executescript|]. intros _.
    apply confined_seed.
Qed.

Lemma construction_touches_only_its_file_witness :
  files (snd (Database.__init__ schema_1_0_0 tsv_shared sample_script "bigslice.db"
                (sample_files sample_t_db))) !! "other.db"
  = files (sample_files sample_t_db) !! "other.db".
Proof.
  apply (construction_touches_only_its_file schema_1_0_0 tsv_shared sample_script
           "bigslice.db" (sample_files sample_t_db) "other.db").
  discriminate.
Defined.

(* ===================================================================== *)
(** * Construction over an existing file writes nothing *)
(* ===================================================================== *)

(** Construction on a path where a file exists leaves every file as it
    is, whatever its outcome. *)
Lemma init_existing_files sql chem exec p st db :
  files st !! p = Some db ->
  files (snd (Database.__init__ sql chem exec p st)) = files st.
Proof.
  intros Hf.
  destruct (re_group (re_search schema_ver_re sql) "ver") as [bundled|e] eqn:Hver.
  - rewrite (init_existing _ _ _ _ _ _ _ Hver Hf).
    destruct (exec_select None "schema" [CConst true] [] db) as [cur|e]; [|reflexivity].
    unfold bind, py_next, getattr.
    destruct (c_rows cur) as [|r rows]; [reflexivity|].
    unfold lift. destruct (dict_factory cur r) as [row|e]; [|reflexivity].
    destruct (dict_getitem row "ver") as [v|e]; [|reflexivity].
    cbn [self_attrs]. rewrite lookup_insert_eq.
    destruct (bool_decide _); reflexivity.
  - unfold Database.__init__. rewrite bind_setattr, Hver. reflexivity.
Qed.

(** X14: when a file exists at the path, construction never writes:
    whether the schema text lacks the marker, the stored version is read
    and accepted, rejected, or cannot be read at all, every file is
    afterwards what it was; the schema script is not run and nothing is
    seeded. *)
Theorem construction_over_existing_file_writes_nothing
    (sql_schema chem_class_map : string)
    (executescript : string -> database -> result unit * database)
    (db_path : string) (st : state) (db : database) :
  files st !! db_path = Some db ->
  files (snd (Database.__init__ sql_schema chem_class_map executescript db_path st))
  = files st.
Proof. apply init_existing_files. Qed.

(** A script that would wipe the file is bundled, the stored version is
    the bundled one in the first case and another in the second. *)
Lemma construction_over_existing_file_writes_nothing_witness :
  files (snd (Database.__init__ schema_1_0_0 tsv_shared no_script "bigslice.db"
                (sample_files (sample_db "1.0.0"))))
  = files (sample_files (sample_db "1.0.0"))
  /\ files (snd (Database.__init__ schema_1_0_0 tsv_shared no_script "bigslice.db"
                   (sample_files (sample_db "0.9.0"))))
     = files (sample_files (sample_db "0.9.0")).
Proof.
  split.
  - apply (construction_over_existing_file_writes_nothing schema_1_0_0 tsv_shared
             no_script "bigslice.db" (sample_files (sample_db "1.0.0"))
             (sample_db "1.0.0")).
    reflexivity.
  - apply (construction_over_existing_file_writes_nothing schema_1_0_0 tsv_shared
             no_script "bigslice.db" (sample_files (sample_db "0.9.0"))
             (sample_db "0.9.0")).
    reflexivity.
Defined.

(* ===================================================================== *)
(** * Reading a line of the seed file *)
(* ===================================================================== *)

Lemma rstrip_all_space ws : all_space ws = true -> rstrip ws = "".
Proof.
  induction ws as [|c ws IH]; simpl; [reflexivity|].
  intros [Hc Hws]%andb_prop. now rewrite (IH Hws), Hc.
Qed.

Lemma rstrip_app_space s ws x :
  last_char s = Some x -> py_isspace x = false -> all_space ws = true ->
  rstrip (s +:+ ws) = s.
Proof.
  intros Hl Hx Hws. induction s as [|c s IH]; [discriminate|].
  destruct s as [|c' s'].
  - injection Hl as ->.
    change (match rstrip ws with
            | EmptyString => if py_isspace x then EmptyString else String x EmptyString
            | String _ _ as r => String x r
            end = String x "").
    now rewrite (rstrip_all_space _ Hws), Hx.
  - change (match rstrip (String c' s' +:+ ws) with
            | EmptyString => if py_isspace c then EmptyString else String c EmptyString
            | String _ _ as r => String c r
            end = String c (String c' s')).
    now rewrite (IH Hl).
Qed.

Lemma last_char_app s d x : last_char d = Some x -> last_char (s +:+ d) = Some x.
Proof.
  intros Hd. induction s as [|c s IH]; [exact Hd|].
  change (match s +:+ d with
          | EmptyString => Some c
          | String _ _ => last_char (s +:+ d)
          end = Some x).
  destruct (s +:+ d); [discriminate | exact IH].
Qed.

Lemma split_tab_free s : tab_free s = true -> split tab s = [s].
Proof.
  induction s as [|c s IH]; simpl; [reflexivity|].
  intros [Hc Hs]%andb_prop. apply negb_true_iff in Hc.
  now rewrite Hc, (IH Hs).
Qed.

Lemma split_app_tab s r :
  tab_free s = true -> split tab (s +:+ String tab r) = s :: split tab r.
Proof.
  induction s as [|c s IH]; simpl; [reflexivity|].
  intros [Hc Hs]%andb_prop. apply negb_true_iff in Hc.
  now rewrite Hc, (IH Hs).
Qed.

(** A line of four tab-free fields, the last one ending in a character
    that is no whitespace, followed by whitespace only, unpacks into its
    fields. *)
Lemma unpack_line_fields_ok a b c d ws x :
  tab_free a = true -> tab_free b = true -> tab_free c = true -> tab_free d = true ->
  last_char d = Some x -> py_isspace x = false -> all_space ws = true ->
  Database.unpack_line (join (String tab "") [a; b; c; d] +:+ ws) = Ok (a, b, c, d).
Proof.
  intros Ha Hb Hc Hd Hl Hx Hws. unfold Database.unpack_line, join.
  change (String.concat (String tab "") [a; b; c; d])
    with (a +:+ String tab (b +:+ String tab (c +:+ String tab d))).
  rewrite (rstrip_app_space _ ws x); [| |exact Hx|exact Hws].
  - rewrite (split_app_tab a) by exact Ha.
    rewrite (split_app_tab b) by exact Hb.
    rewrite (split_app_tab c) by exact Hc.
    rewrite (split_tab_free d) by exact Hd. reflexivity.
  - apply last_char_app.
    apply (last_char_app (String tab b)).
    apply (last_char_app (String tab c)).
    apply (last_char_app (String tab "")). exact Hl.
Qed.

(** X15: a line of the seed file made of four tab-free fields, the last
    of which ends in a character that is no whitespace, followed by any
    run of whitespace (the line end, a carriage return, trailing blanks,
    or nothing on a last line without terminator), is unpacked into
    exactly these four fields: empty first, second and third fields are
    kept, and only trailing whitespace is dropped. *)
Theorem unpack_line_reads_the_four_fields
    (src_class src bs_class bs_subclass ws : string) (x : ascii) :
  tab_free src_class = true -> tab_free src = true ->
  tab_free bs_class = true -> tab_free bs_subclass = true ->
  last_char bs_subclass = Some x -> py_isspace x = false ->
  all_space ws = true ->
  Database.unpack_line
    (join (String tab "") [src_class; src; bs_class; bs_subclass] +:+ ws)
  = Ok (src_class, src, bs_class, bs_subclass).
Proof. apply unpack_line_fields_ok. Qed.

(** A line with an empty class, closed by a carriage return and a line
    feed. *)
Lemma unpack_line_reads_the_four_fields_witness :
  Database.unpack_line
    (join (String tab "") ["Saccharide"; "amglyccycl"; ""; "aminoglycoside"]
       +:+ String "013" (String newline ""))
  = Ok ("Saccharide", "amglyccycl", "", "aminoglycoside").
Proof.
  apply (unpack_line_reads_the_four_fields "Saccharide" "amglyccycl" ""
           "aminoglycoside" (String "013" (String newline "")) "e"%char);
    reflexivity.
Defined.

(** X16: a line of whitespace only (a blank line in the seed file, or
    one of tabs alone) stops the loop with [ValueError]: the unpacking
    finds one field where four are expected, and nothing is written for
    that line. *)
Theorem blank_line_raises_ValueError
    (bs_classes_id : list (value * value)) (line : string) (st : state) :
  all_space line = true ->
  Database.seed_line bs_classes_id line st = (Err ValueError, st).
Proof.
  intros Hl. destruct st as [a f]. apply seed_line_unpack_err.
  unfold Database.unpack_line. now rewrite (rstrip_all_space _ Hl).
Qed.

Lemma blank_line_raises_ValueError_witness :
  Database.seed_line [(VText "Other", VInt 2)] (String newline "")
    (sample_state (sample_db "1.0.0"))
  = (Err ValueError, sample_state (sample_db "1.0.0"))
  /\ Database.seed_line [(VText "Other", VInt 2)]
       (String tab (String tab (String tab (String newline ""))))
       (sample_state (sample_db "1.0.0"))
     = (Err ValueError, sample_state (sample_db "1.0.0")).
Proof.
  split.
  - apply (blank_line_raises_ValueError [(VText "Other", VInt 2)] (String newline "")
             (sample_state (sample_db "1.0.0"))).
    reflexivity.
  - apply (blank_line_raises_ValueError [(VText "Other", VInt 2)]
             (String tab (String tab (String tab (String newline ""))))
             (sample_state (sample_db "1.0.0"))).
    reflexivity.
Defined.

(** X17: a line whose target class is left empty is seeded exactly as
    the same line with the class [Other] written out: same result, same
    rows, same final state. *)
Theorem empty_class_is_seeded_as_Other
    (bs_classes_id : list (value * value))
    (src_class src bs_subclass ws : string) (x : ascii) (st : state) :
  tab_free src_class = true -> tab_free src = true -> tab_free bs_subclass = true ->
  last_char bs_subclass = Some x -> py_isspace x = false ->
  all_space ws = true ->
  Database.seed_line bs_classes_id
    (join (String tab "") [src_class; src; ""; bs_subclass] +:+ ws) st
  = Database.seed_line bs_classes_id
      (join (String tab "") [src_class; src; "Other"; bs_subclass] +:+ ws) st.
Proof.
  intros Ha Hb Hd Hl Hx Hws. unfold Database.seed_line.
  rewrite !(unpack_line_fields_ok _ _ _ _ ws x) by (assumption || reflexivity).
  reflexivity.
Qed.

Lemma empty_class_is_seeded_as_Other_witness :
  Database.seed_line [(VText "Polyketide", VInt 1); (VText "Other", VInt 2)]
    (join (String tab "") ["Saccharide"; "amglyccycl"; ""; "aminoglycoside"]
       +:+ String newline "")
    (sample_state (sample_db "1.0.0"))
  = Database.seed_line [(VText "Polyketide", VInt 1); (VText "Other", VInt 2)]
      (join (String tab "") ["Saccharide"; "amglyccycl"; "Other"; "aminoglycoside"]
         +:+ String newline "")
      (sample_state (sample_db "1.0.0")).
Proof.
  apply (empty_class_is_seeded_as_Other
           [(VText "Polyketide", VInt 1); (VText "Other", VInt 2)]
           "Saccharide" "amglyccycl" "aminoglycoside" (String newline "") "e"%char
           (sample_state (sample_db "1.0.0")));
    reflexivity.
Defined.

(* ===================================================================== *)
(** * A class that [chem_class] lacks *)
(* ===================================================================== *)

Lemma vdict_get_err d k e : vdict_get d k = Err e -> e = KeyError.
Proof.
  induction d as [|[k' v] d IH]; simpl; [now intros [= <-]|].
  destruct (bool_decide (k = k')); [discriminate | exact IH].
Qed.

(** Loading the classes from a cursor over a table fails only when the
    table lacks the column [name] or [id]. *)
Lemma load_classes_err t cols rows0 l (hits : list (Z * gmap string value)) :
  forall acc e,
    Database.load_classes (Cursor cols rows0 l)
      (List.map (fun row => List.map (cell t row) cols) hits) acc = Err e ->
    e = KeyError.
Proof.
  induction hits as [|r hits IH]; intros acc e; simpl; [discriminate|].
  rewrite dict_factory_map. unfold dict_getitem.
  rewrite !assoc_get_row_dict.
  destruct (bool_decide ("name" ∈ cols)); [|now intros [= <-]].
  destruct (bool_decide ("id" ∈ cols)); [|now intros [= <-]].
  apply IH.
Qed.

(** X18: when the first data line of the seed file names a target class
    (or, left empty, the class [Other]) that no row of [chem_class]
    carries, seeding raises [KeyError] and has written nothing: neither a
    subclass nor a mapping row. *)
Theorem unknown_class_stops_seeding
    (chem_class_map : string) (a : gmap string value)
    (f : gmap string database) (p : string) (db : database) (tclass : table)
    (line : string) (rest : list string)
    (src_class src bs_class bs_subclass : string) :
  a !! "db_path" = Some (VText p) ->
  f !! p = Some db ->
  db !! "chem_class" = Some tclass ->
  Database.data_lines chem_class_map = line :: rest ->
  Database.unpack_line line = Ok (src_class, src, bs_class, bs_subclass) ->
  (forall rc, rc ∈ t_rows tclass ->
              cell tclass rc "name" <> VText (target_class bs_class)) ->
  Database.seed chem_class_map (State a f) = (Err KeyError, State a f).
Proof.
  intros Ha Hf Hc Hlines Hu Hnone. unfold Database.seed. unfold bind at 1.
  rewrite (select_run a f p db _ _ _ _ _ _ _ Ha Hf parse_select_class).
  simpl truthy. cbv iota.
  rewrite (exec_select_all db _ _ Hc).
  unfold bind at 1. unfold lift at 1. cbn [c_rows].
  destruct (Database.load_classes _ _ []) as [cls|e] eqn:Hl.
  - rewrite Hlines. cbn [for_each]. unfold bind at 1.
    destruct (vdict_get cls (VText (target_class bs_class))) as [cid|e] eqn:Hg.
    + destruct (load_classes_get _ _ _ _ _ _ _ Hl _ _ Hg) as [Hacc|(rc & Hin & Hn & _)];
        [discriminate|].
      now destruct (Hnone rc Hin).
    + rewrite (seed_line_class_err _ _ _ _ _ _ _ _ _ Hu Hg).
      now rewrite (vdict_get_err _ _ _ Hg).
  - now rewrite (load_classes_err _ _ _ _ _ _ _ Hl).
Qed.

(** The sample [chem_class] holds [Polyketide] and [Other]; the first
    data line names [Alkaloid]. *)
Lemma unknown_class_stops_seeding_witness :
  Database.seed tsv_unknown_class (sample_state (sample_db "1.0.0"))
  = (Err KeyError, sample_state (sample_db "1.0.0")).
Proof.
  apply (unknown_class_stops_seeding tsv_unknown_class
           (self_attrs (sample_state (sample_db "1.0.0")))
           (files (sample_state (sample_db "1.0.0")))
           "bigslice.db" (sample_db "1.0.0") sample_chem_class
           (tsv_line ["PKS"; "t1pks"; "Alkaloid"; "Type I"])
           [tsv_line ["PKS"; "transatpks"; "Polyketide"; "Type I"]]
           "PKS" "t1pks" "Alkaloid" "Type I");
    try reflexivity.
  intros rc Hin. apply list_elem_of_In in Hin. simpl in Hin.
  destruct Hin as [<-|[<-|[]]]; vm_compute; discriminate.
Defined.

(* ===================================================================== *)
(** * A construction that fails, and the next one *)
(* ===================================================================== *)

(** Construction on a path where no file exists, when the schema script
    raises. *)
Lemma init_fresh_err sql chem exec p st e db0 :
  occurs schema_ver_marker sql ->
  files st !! p = None ->
  exec sql ∅ = (Err e, db0) ->
  Database.__init__ sql chem exec p st
  = (Err e,
     State (<["schema_ver" := VText "1.0.0"]> (<["db_path" := VText p]> (self_attrs st)))
           (<[p := db0]> (files st))).
Proof.
  intros Ho Hf Hexec. unfold Database.__init__. rewrite bind_setattr.
  destruct (schema_ver_group sql) as [[_ ->]|[Hno _]]; [|contradiction].
  rewrite bind_lift_ok, bind_setattr.
  assert (Hp : forall fs,
             self_attrs (State (<["schema_ver" := VText "1.0.0"]>
                                  (<["db_path" := VText p]> (self_attrs st))) fs)
               !! "db_path" = Some (VText p)).
  { intros fs. cbn [self_attrs].
    rewrite lookup_insert_ne by discriminate. apply lookup_insert_eq. }
  rewrite (bind_getattr _ _ _ _ (Hp _)), bind_as_str, bind_path_exists.
  cbn [files]. rewrite Hf.
  rewrite bool_decide_eq_false_2 by (intros [? ?]; discriminate).
  rewrite (bind_getattr _ _ _ _ (Hp _)), bind_as_str.
  unfold bind at 1. unfold sqlite3_connect at 1. cbn [files self_attrs]. rewrite Hf.
  unfold bind at 1. unfold Database.cursor_executescript at 1. cbn [files self_attrs].
  rewrite lookup_insert_eq, Hexec. now rewrite insert_insert_eq.
Qed.

(** After a construction with a stamped schema, a file exists at the
    path. *)
Lemma init_file_exists sql chem exec p st :
  occurs schema_ver_marker sql ->
  is_Some (files (snd (Database.__init__ sql chem exec p st)) !! p).
Proof.
  intros Ho. destruct (files st !! p) as [db|] eqn:Hf.
  - rewrite (init_existing_files _ _ _ _ _ _ Hf), Hf. eauto.
  - destruct (exec sql ∅) as [[[]|e] db0] eqn:Hexec.
    + rewrite (init_fresh _ _ _ _ _ _ Ho Hf Hexec).
      destruct (seed_frame chem
                  (<["schema_ver" := VText "1.0.0"]>
                     (<["db_path" := VText p]> (self_attrs st)))
                  (<[p := db0]> (files st)) p db0) as (r & db' & -> & _).
      * rewrite lookup_insert_ne by discriminate. apply lookup_insert_eq.
      * apply lookup_insert_eq.
      * cbn [snd files]. rewrite lookup_insert_eq. eauto.
    + rewrite (init_fresh_err _ _ _ _ _ _ _ Ho Hf Hexec).
      cbn [snd files]. rewrite lookup_insert_eq. eauto.
Qed.

(** X19: when the schema script raises on a new path, construction
    raises the same exception after it has bound both attributes; the
    file has been created and holds what the script left, and the seed
    file is not read. *)
Theorem failed_schema_script_leaves_the_file
    (sql_schema chem_class_map : string)
    (executescript : string -> database -> result unit * database)
    (db_path : string) (st : state) (e : exn) (db0 : database) :
  occurs schema_ver_marker sql_schema ->
  files st !! db_path = None ->
  executescript sql_schema ∅ = (Err e, db0) ->
  Database.__init__ sql_schema chem_class_map executescript db_path st
  = (Err e,
     State (<["schema_ver" := VText "1.0.0"]>
              (<["db_path" := VText db_path]> (self_attrs st)))
           (<[db_path := db0]> (files st))).
Proof. apply init_fresh_err. Qed.

Lemma failed_schema_script_leaves_the_file_witness :
  Database.__init__ schema_1_0_0 tsv_shared sample_failing_script "bigslice.db" no_state
  = (Err OperationalError,
     State (<["schema_ver" := VText "1.0.0"]>
              (<["db_path" := VText "bigslice.db"]> (self_attrs no_state)))
           (<["bigslice.db" := ∅]> (files no_state))).
Proof.
  apply (failed_schema_script_leaves_the_file schema_1_0_0 tsv_shared
           sample_failing_script "bigslice.db" no_state OperationalError ∅).
  - exists "-- SQLite3 schema", (String newline "").
    reflexivity.
  - reflexivity.
  - reflexivity.
Defined.

(** X20: after a construction with a stamped schema, whatever its
    outcome (success, a script that failed, a seeding that stopped at a
    bad line), a later construction on the same path, with whatever
    bundled files, finds the file and writes nothing: a file left half
    seeded is neither completed nor replaced. *)
Theorem later_construction_writes_nothing
    (sql_schema chem_class_map : string)
    (executescript : string -> database -> result unit * database)
    (sql_schema' chem_class_map' : string)
    (executescript' : string -> database -> result unit * database)
    (db_path : string) (st : state) :
  occurs schema_ver_marker sql_schema ->
  files (snd (Database.__init__ sql_schema' chem_class_map' executescript' db_path
                (snd (Database.__init__ sql_schema chem_class_map executescript
                        db_path st))))
  = files (snd (Database.__init__ sql_schema chem_class_map executescript db_path st)).
Proof.
  intros Ho.
  destruct (init_file_exists sql_schema chem_class_map executescript db_path st Ho)
    as [db Hdb].
  now apply (init_existing_files _ _ _ _ _ db).
Qed.

(** A first construction that stops at the first line of the seed file,
    then one with the same bundled files. *)
Lemma later_construction_writes_nothing_witness :
  files (snd (Database.__init__ schema_1_0_0 tsv_both_empty sample_script "bigslice.db"
                (snd (Database.__init__ schema_1_0_0 tsv_both_empty sample_script
                        "bigslice.db" no_state))))
  = files (snd (Database.__init__ schema_1_0_0 tsv_both_empty sample_script
                  "bigslice.db" no_state)).
Proof.
  apply (later_construction_writes_nothing schema_1_0_0 tsv_both_empty sample_script
           schema_1_0_0 tsv_both_empty sample_script "bigslice.db" no_state).
  exists "-- SQLite3 schema", (String newline "").
  reflexivity.
Defined.

(* ===================================================================== *)
(** * An insert that names the key *)
(* ===================================================================== *)

Lemma choose_rowid_given t pk (given : gmap string value) z :
  t_pk t = Some pk -> given !! pk = Some (VInt z) ->
  choose_rowid t given
  = if bool_decide (z ∈ List.map fst (t_rows t)) then Err IntegrityError else Ok z.
Proof. intros Hpk Hg. unfold choose_rowid. now rewrite Hpk, Hg. Qed.

(** X21: an insert whose mapping gives the integer key of the table
    itself, all its integers having 64 bits: when a row with that key
    exists the call raises [IntegrityError] and writes nothing; otherwise
    the new row receives exactly that key, which is what the call
    returns. *)
Theorem insert_with_explicit_key
    (a : gmap string value) (f : gmap string database) (p : string)
    (db : database) (t : table) (table : string) (pk : string)
    (data : dict) (z : Z) :
  a !! "db_path" = Some (VText p) ->
  f !! p = Some db ->
  db !! table = Some t ->
  ident table = true ->
  t_pk t = Some pk ->
  NoDup (List.map fst data) ->
  (forall k, k ∈ List.map fst data -> ident k = true /\ k ∈ t_cols t) ->
  (pk, VInt z) ∈ data ->
  forallb bindable (List.map snd data) = true ->
  Database.insert table data (State a f)
  = if bool_decide (z ∈ List.map fst (t_rows t))
    then (Err IntegrityError, State a f)
    else (Ok (VInt z),
          State a (<[p := add_row table t (z, list_to_map data) db]> f)).
Proof.
  intros Ha Hf Ht Hid Hpk Hnd Hkeys Hin _.
  assert (Hne : data <> []) by (intros ->; inversion Hin).
  assert (Hall : forallb ident (List.map fst data) = true).
  { apply forallb_forall. intros k Hk%list_elem_of_In. now apply Hkeys. }
  rewrite (insert_run a f p db table data _ _ _ Ha Hf
             (parse_insert_sql table data Hid Hne Hall)).
  unfold exec_insert. rewrite Ht.
  rewrite has_cols_incl by (intros c Hc; now apply Hkeys).
  rewrite !length_map, Nat.eqb_refl. simpl negb. cbv iota.
  rewrite zip_fst_snd_map.
  rewrite (choose_rowid_given t pk _ z Hpk (elem_of_list_to_map_1 data pk _ Hnd Hin)).
  destruct (bool_decide (z ∈ List.map fst (t_rows t))); reflexivity.
Qed.

(** Into [t], which holds row 1: an insert with key 1, and one with
    key 5. *)
Lemma insert_with_explicit_key_witness :
  Database.insert "t" [("id", VInt 1); ("a", VInt 9)] (sample_state sample_t_db)
  = (Err IntegrityError, sample_state sample_t_db)
  /\ Database.insert "t" [("id", VInt 5); ("a", VInt 9)] (sample_state sample_t_db)
     = (Ok (VInt 5),
        State (self_attrs (sample_state sample_t_db))
          (<["bigslice.db" :=
               add_row "t" sample_t
                 (5, list_to_map [("id", VInt 5); ("a", VInt 9)]) sample_t_db]>
             (files (sample_state sample_t_db)))).
Proof.
  split.
  - apply (insert_with_explicit_key (self_attrs (sample_state sample_t_db))
             (files (sample_state sample_t_db)) "bigslice.db" sample_t_db sample_t
             "t" "id" [("id", VInt 1); ("a", VInt 9)] 1);
      try reflexivity.
    + apply (bool_decide_unpack _). vm_compute. exact I.
    + intros k Hk. apply list_elem_of_In in Hk. simpl in Hk.
      destruct Hk as [<-|[<-|[]]];
        (split; [reflexivity | apply (bool_decide_unpack _); vm_compute; exact I]).
    + apply list_elem_of_here.
  - apply (insert_with_explicit_key (self_attrs (sample_state sample_t_db))
             (files (sample_state sample_t_db)) "bigslice.db" sample_t_db sample_t
             "t" "id" [("id", VInt 5); ("a", VInt 9)] 5);
      try reflexivity.
    + apply (bool_decide_unpack _). vm_compute. exact I.
    + intros k Hk. apply list_elem_of_In in Hk. simpl in Hk.
      destruct Hk as [<-|[<-|[]]];
        (split; [reflexivity | apply (bool_decide_unpack _); vm_compute; exact I]).
    + apply list_elem_of_here.
Defined.

(* ===================================================================== *)
(** * The invariants of the taxonomy tables *)
(* ===================================================================== *)

(** What a seeding that completes has done to the two tables, on a
    database whose [chem_class] and [chem_subclass] have the key [id]. *)
Lemma seed_tables chem a (f : gmap string database) p db tclass tsub tmap st' :
  a !! "db_path" = Some (VText p) -> f !! p = Some db ->
  db !! "chem_class" = Some tclass -> t_pk tclass = Some "id" ->
  db !! "chem_subclass" = Some tsub -> t_pk tsub = Some "id" ->
  unique_pairs tsub ->
  db !! "chem_subclass_map" = Some tmap ->
  Database.seed chem (State a f) = (Ok tt, st') ->
  exists cls db' tsub' tmap' news,
    files st' !! p = Some db'
    /\ db' !! "chem_subclass" = Some tsub'
    /\ unique_pairs tsub'
    /\ (forall r, r ∈ t_rows tsub -> r ∈ t_rows tsub')
    /\ db' !! "chem_subclass_map" = Some tmap'
    /\ t_rows tmap' ≡ₚ t_rows tmap ++ news
    /\ Forall2 (subclass_row_of_line cls tsub') (Database.data_lines chem) news.
Proof.
  intros Ha Hf Hc Hcpk Hs Hspk Hu Hm Hseed.
  apply (seed_ok _ a f p db) in Hseed as (cur & cls & db' & Hsel & Hload & -> & He);
    [|assumption..].
  pose proof (seed_classes db tclass cur cls Hc Hcpk Hsel Hload) as Hcls.
  assert (Hnn : forall k v, vdict_get cls k = Ok v -> v <> VNull).
  { intros k v Hk. destruct (Hcls k v Hk) as (rc & _ & _ & ->). discriminate. }
  destruct (lines_effect_subclass _ _ _ _ He Hnn tsub tmap Hs Hspk Hu Hm)
    as (tsub' & tmap' & news & Hs' & Hpk' & Hu' & Hold & Hm' & Hperm & Hall).
  exists cls, db', tsub', tmap', news.
  simpl files. rewrite lookup_insert_eq. repeat split; auto.
Qed.

(** X22: a seeding that completes preserves the invariant of
    [chem_subclass]: when no two of its rows had the same name under the
    same class before, none have afterwards; and every row that the table
    held is still there, unchanged. *)
Theorem seeding_keeps_subclasses_unique
    (chem_class_map : string) (a : gmap string value)
    (f : gmap string database) (p : string) (db : database)
    (tclass tsub tmap : table) (st' : state) :
  a !! "db_path" = Some (VText p) ->
  f !! p = Some db ->
  db !! "chem_class" = Some tclass -> t_pk tclass = Some "id" ->
  db !! "chem_subclass" = Some tsub -> t_pk tsub = Some "id" ->
  unique_pairs tsub ->
  db !! "chem_subclass_map" = Some tmap ->
  Database.seed chem_class_map (State a f) = (Ok tt, st') ->
  exists db' tsub',
    files st' !! p = Some db'
    /\ db' !! "chem_subclass" = Some tsub'
    /\ unique_pairs tsub'
    /\ forall r, r ∈ t_rows tsub -> r ∈ t_rows tsub'.
Proof.
  intros Ha Hf Hc Hcpk Hs Hspk Hu Hm Hseed.
  destruct (seed_tables _ _ _ _ _ _ _ _ _ Ha Hf Hc Hcpk Hs Hspk Hu Hm Hseed)
    as (cls & db' & tsub' & tmap' & news & Hf' & Hs' & Hu' & Hold & _).
  exists db', tsub'. auto.
Qed.

Lemma seeding_keeps_subclasses_unique_witness :
  exists db' tsub',
    files (snd (Database.seed tsv_shared (sample_state (sample_db "1.0.0"))))
      !! "bigslice.db" = Some db'
    /\ db' !! "chem_subclass" = Some tsub'
    /\ unique_pairs tsub'
    /\ forall r, r ∈ t_rows sample_chem_subclass -> r ∈ t_rows tsub'.
Proof.
  apply (seeding_keeps_subclasses_unique tsv_shared
           (self_attrs (sample_state (sample_db "1.0.0")))
           (files (sample_state (sample_db "1.0.0")))
           "bigslice.db" (sample_db "1.0.0")
           sample_chem_class sample_chem_subclass sample_chem_subclass_map
           (snd (Database.seed tsv_shared (sample_state (sample_db "1.0.0"))))).
  - reflexivity.
  - reflexivity.
  - reflexivity.
  - reflexivity.
  - reflexivity.
  - reflexivity.
  - intros name cid. simpl. lia.
  - reflexivity.
  - vm_compute. reflexivity.
Defined.

(** X23: after a seeding that completes, every mapping row that it added
    references a subclass that exists: its [subclass_id] is the key of a
    row of [chem_subclass]. *)
Theorem seeded_mappings_reference_subclasses
    (chem_class_map : string) (a : gmap string value)
    (f : gmap string database) (p : string) (db : database)
    (tclass tsub tmap : table) (st' : state) :
  a !! "db_path" = Some (VText p) ->
  f !! p = Some db ->
  db !! "chem_class" = Some tclass -> t_pk tclass = Some "id" ->
  db !! "chem_subclass" = Some tsub -> t_pk tsub = Some "id" ->
  unique_pairs tsub ->
  db !! "chem_subclass_map" = Some tmap ->
  Database.seed chem_class_map (State a f) = (Ok tt, st') ->
  exists db' tsub' tmap' news,
    files st' !! p = Some db'
    /\ db' !! "chem_subclass" = Some tsub'
    /\ db' !! "chem_subclass_map" = Some tmap'
    /\ t_rows tmap' ≡ₚ t_rows tmap ++ news
    /\ Forall (references_subclass tsub') news.
Proof.
  intros Ha Hf Hc Hcpk Hs Hspk Hu Hm Hseed.
  destruct (seed_tables _ _ _ _ _ _ _ _ _ Ha Hf Hc Hcpk Hs Hspk Hu Hm Hseed)
    as (cls & db' & tsub' & tmap' & news & Hf' & Hs' & _ & _ & Hm' & Hperm & Hall).
  exists db', tsub', tmap', news. repeat split; auto.
  clear Hperm. induction Hall as [|line row lines news Hrow _ IH]; constructor; [|exact IH].
  destruct Hrow as (_ & _ & _ & _ & _ & r & _ & _ & Hr & _ & Hid & _).
  exists r. auto.
Qed.

Lemma seeded_mappings_reference_subclasses_witness :
  exists db' tsub' tmap' news,
    files (snd (Database.seed tsv_shared (sample_state (sample_db "1.0.0"))))
      !! "bigslice.db" = Some db'
    /\ db' !! "chem_subclass" = Some tsub'
    /\ db' !! "chem_subclass_map" = Some tmap'
    /\ t_rows tmap' ≡ₚ t_rows sample_chem_subclass_map ++ news
    /\ Forall (references_subclass tsub') news.
Proof.
  apply (seeded_mappings_reference_subclasses tsv_shared
           (self_attrs (sample_state (sample_db "1.0.0")))
           (files (sample_state (sample_db "1.0.0")))
           "bigslice.db" (sample_db "1.0.0")
           sample_chem_class sample_chem_subclass sample_chem_subclass_map
           (snd (Database.seed tsv_shared (sample_state (sample_db "1.0.0"))))).
  - reflexivity.
  - reflexivity.
  - reflexivity.
  - reflexivity.
  - reflexivity.
  - reflexivity.
  - intros name cid. simpl. lia.
  - reflexivity.
  - vm_compute. reflexivity.
Defined.
